(** * go-logger: the time-based log rotation core and Config.Validate

    A shallow embedding of [rotation.go], [factory.go], the parts of
    [config.go] and [config_builder.go] they need, [ConfigFromEnv] and
    [GetEffectiveConfig].

    Conventions.
    - Go [string] is [string] (a sequence of bytes); [[]byte] is [list Byte.byte];
      Go [int] is [Z]; Go [error] is [option error] with [None] for [nil].
    - [time.Time] is an instant together with the zone its location has at
      that instant; the calendar accessors are those of Go's [time] package.
    - [path/filepath] is the Unix implementation (separator [/], no volume).
    - [lumberjack.Logger] is an external package: its [Write] and [Close]
      are the methods of an interface ([lumberjack.Sink]) the writer is
      parametrised by; [MemSink] is an in-memory implementation on which
      the code is run.
    - [time.Now] is an input of the functions that call it. *)

From Stdlib Require Import ZArith Lia Bool List Ascii String DecimalString.
From stdpp Require Import base option list strings gmap.

Local Open Scope string_scope.
Local Open Scope Z_scope.

(** ** Package [time] *)

Module time.

(** The zone in force at an instant: abbreviation and offset east of UTC,
    in seconds. *)
Record Zone := mkZone { zname : string; zoffset : Z }.

(** A location maps an instant (Unix seconds) to the zone in force. *)
Definition Location := Z -> Zone.

Definition UTCLoc : Location := fun _ => mkZone "UTC" 0.

(** [unix] counts seconds since 1970-01-01T00:00:00Z, [nsec] is in
    [0, 999999999], [zone] is the zone of the location at [unix]. *)
Record Time := mkTime { unix : Z; nsec : Z; zone : Zone }.

Definition In (t : Time) (loc : Location) : Time :=
  mkTime (unix t) (nsec t) (loc (unix t)).

Definition UTC (t : Time) : Time := In t UTCLoc.

Definition secondsPerDay : Z := 86400.

(** Seconds since the epoch on the wall clock of the time's zone. *)
Definition abs (t : Time) : Z := unix t + zoffset (zone t).

(** Days since 1970-01-01 on that wall clock (floor division). *)
Definition absDays (t : Time) : Z := abs t / secondsPerDay.

(** *** Proleptic Gregorian calendar *)

(** Day number (days since 1970-01-01) of a civil date. *)
Definition daysFromCivil (y m d : Z) : Z :=
  let y' := if m <=? 2 then y - 1 else y in
  let era := y' / 400 in
  let yoe := y' - era * 400 in
  let mp := if m <=? 2 then m + 9 else m - 3 in
  let doy := (153 * mp + 2) / 5 + d - 1 in
  let doe := yoe * 365 + yoe / 4 - yoe / 100 + doy in
  era * 146097 + doe - 719468.

(** Civil date (year, month 1..12, day 1..31) of a day number. *)
Definition civilFromDays (days : Z) : Z * Z * Z :=
  let z := days + 719468 in
  let era := z / 146097 in
  let doe := z - era * 146097 in
  let yoe := (doe - doe / 1460 + doe / 36524 - doe / 146096) / 365 in
  let doy := doe - (365 * yoe + yoe / 4 - yoe / 100) in
  let mp := (5 * doy + 2) / 153 in
  let d := doy - (153 * mp + 2) / 5 + 1 in
  let m := if mp <? 10 then mp + 3 else mp - 9 in
  let y := yoe + era * 400 in
  (if m <=? 2 then y + 1 else y, m, d).

Definition isLeap (year : Z) : bool :=
  (year mod 4 =? 0) && (negb (year mod 100 =? 0) || (year mod 400 =? 0)).

Definition daysIn (year month : Z) : Z :=
  if month =? 2 then (if isLeap year then 29 else 28)
  else if (month =? 4) || (month =? 6) || (month =? 9) || (month =? 11) then 30
  else 31.

(** Day [n] has a date of the calendar, [daysFromCivil] maps that date
    back to [n], and day [n + 1] has the date that follows it. *)
Definition calendarStep (n : Z) : bool :=
  let '(y, m, d) := civilFromDays n in
  let '(y', m', d') := civilFromDays (n + 1) in
  (daysFromCivil y m d =? n)
  && (1 <=? m) && (m <=? 12) && (1 <=? d) && (d <=? daysIn y m)
  && (if d <? daysIn y m then (y' =? y) && (m' =? m) && (d' =? d + 1)
      else if m <? 12 then (y' =? y) && (m' =? m + 1) && (d' =? 1)
      else (y' =? y + 1) && (m' =? 1) && (d' =? 1)).

Fixpoint calendarSteps (count : nat) (n : Z) : bool :=
  match count with
  | O => true
  | Datatypes.S k => calendarStep n && calendarSteps k (n + 1)
  end.

(** [absDate]: year, month, day and zero-based day of the year. *)
Definition dateOfDays (days : Z) : Z * Z * Z * Z :=
  let '(y, m, d) := civilFromDays days in
  (y, m, d, days - daysFromCivil y 1 1).

Definition Year (t : Time) : Z := let '(y, _, _, _) := dateOfDays (absDays t) in y.
Definition Month (t : Time) : Z := let '(_, m, _, _) := dateOfDays (absDays t) in m.
Definition Day (t : Time) : Z := let '(_, _, d, _) := dateOfDays (absDays t) in d.
(** [YearDay] is one-based. *)
Definition YearDay (t : Time) : Z := let '(_, _, _, yd) := dateOfDays (absDays t) in yd + 1.

Definition Hour (t : Time) : Z := (abs t mod secondsPerDay) / 3600.
Definition Minute (t : Time) : Z := (abs t mod 3600) / 60.
Definition Second (t : Time) : Z := abs t mod 60.
Definition Nanosecond (t : Time) : Z := nsec t.

(** Sunday = 0, ..., Saturday = 6; 1970-01-01 was a Thursday. *)
Definition Thursday : Z := 4.
Definition weekdayOfDays (days : Z) : Z := (days + 4) mod 7.
Definition Weekday (t : Time) : Z := weekdayOfDays (absDays t).

(** [ISOWeek]: move to the Thursday of the time's Monday-based week; the
    ISO year is that Thursday's year and the week is its [yday/7 + 1]. *)
Definition isoWeekOfDays (days : Z) : Z * Z :=
  let d := Thursday - weekdayOfDays days in
  let d := if d =? 4 then -3 else d in
  let '(year, _, _, yday) := dateOfDays (days + d) in
  (year, yday / 7 + 1).

Definition ISOWeek (t : Time) : Z * Z := isoWeekOfDays (absDays t).

(** [time.Date(year, month, day, hour, min, sec, nsec, loc)] for a
    location with a fixed zone. *)
Definition Date (year month day hour min sec ns : Z) (z : Zone) : Time :=
  mkTime (daysFromCivil year month day * secondsPerDay
          + hour * 3600 + min * 60 + sec - zoffset z) ns z.

Definition utc : Zone := mkZone "UTC" 0.

(** *** Layouts: [nextStdChunk] *)

Inductive Std :=
| stdLongMonth | stdMonth | stdNumMonth | stdZeroMonth
| stdLongWeekDay | stdWeekDay
| stdDay | stdUnderDay | stdZeroDay | stdUnderYearDay | stdZeroYearDay
| stdHour | stdHour12 | stdZeroHour12
| stdMinute | stdZeroMinute | stdSecond | stdZeroSecond
| stdLongYear | stdYear
| stdPM | stdpm
| stdTZ
| stdISO8601TZ | stdISO8601SecondsTZ | stdISO8601ShortTZ
| stdISO8601ColonTZ | stdISO8601ColonSecondsTZ
| stdNumTZ | stdNumSecondsTz | stdNumShortTZ
| stdNumColonTZ | stdNumColonSecondsTZ
| stdFracSecond0 (digits : Z) (sep : ascii)
| stdFracSecond9 (digits : Z) (sep : ascii).

(** [cut p s] is [Some rest] when [s = p ++ rest]. *)
Fixpoint cut (p s : string) : option string :=
  match p, s with
  | EmptyString, _ => Some s
  | String a p', String b s' => if Ascii.eqb a b then cut p' s' else None
  | String _ _, EmptyString => None
  end.

Definition between (lo c hi : ascii) : bool :=
  (N.leb (N_of_ascii lo) (N_of_ascii c)) && (N.leb (N_of_ascii c) (N_of_ascii hi)).

Definition startsWithLowerCase (s : string) : bool :=
  match s with
  | EmptyString => false
  | String c _ => between "a" c "z"
  end.

Definition startsWithDigit (s : string) : bool :=
  match s with
  | EmptyString => false
  | String c _ => between "0" c "9"
  end.

(** Drops the leading run of [ch]; returns its length and the rest. *)
Fixpoint skipRun (ch : ascii) (s : string) : Z * string :=
  match s with
  | String c s' =>
      if Ascii.eqb c ch then let '(n, r) := skipRun ch s' in (n + 1, r) else (0, s)
  | EmptyString => (0, s)
  end.

(** First of the alternatives that applies. *)
Fixpoint firstOf {A} (l : list (option A)) : option A :=
  match l with
  | [] => None
  | Some a :: _ => Some a
  | None :: l' => firstOf l'
  end.

Definition tryCut (p : string) (std : Std) (s : string) : option (string * Std * string) :=
  match cut p s with
  | Some r => Some ("", std, r)
  | None => None
  end.

(** The chunk that starts at the first byte of [layout], if any, as
    (literal to emit before it, chunk, rest of the layout): the body of
    the [switch] of [nextStdChunk] at index [i]. *)
Definition stdAt (layout : string) : option (string * Std * string) :=
  match layout with
  | EmptyString => None
  | String c rest =>
      if Ascii.eqb c "J" then
        match cut "Jan" layout with
        | Some r =>
            match cut "January" layout with
            | Some r' => Some ("", stdLongMonth, r')
            | None => if startsWithLowerCase r then None else Some ("", stdMonth, r)
            end
        | None => None
        end
      else if Ascii.eqb c "M" then
        firstOf
          [ match cut "Mon" layout with
            | Some r =>
                match cut "Monday" layout with
                | Some r' => Some ("", stdLongWeekDay, r')
                | None => if startsWithLowerCase r then None else Some ("", stdWeekDay, r)
                end
            | None => None
            end;
            tryCut "MST" stdTZ layout ]
      else if Ascii.eqb c "0" then
        match rest with
        | String d r =>
            if between "1" d "6" then
              Some ("",
                    (if Ascii.eqb d "1" then stdZeroMonth
                     else if Ascii.eqb d "2" then stdZeroDay
                     else if Ascii.eqb d "3" then stdZeroHour12
                     else if Ascii.eqb d "4" then stdZeroMinute
                     else if Ascii.eqb d "5" then stdZeroSecond
                     else stdYear), r)
            else tryCut "002" stdZeroYearDay layout
        | EmptyString => None
        end
      else if Ascii.eqb c "1" then
        match cut "15" layout with
        | Some r => Some ("", stdHour, r)
        | None => Some ("", stdNumMonth, rest)
        end
      else if Ascii.eqb c "2" then
        match cut "2006" layout with
        | Some r => Some ("", stdLongYear, r)
        | None => Some ("", stdDay, rest)
        end
      else if Ascii.eqb c "_" then
        match cut "_2" layout with
        | Some r =>
            match cut "_2006" layout with
            | Some r' => Some ("_", stdLongYear, r')
            | None => Some ("", stdUnderDay, r)
            end
        | None => tryCut "__2" stdUnderYearDay layout
        end
      else if Ascii.eqb c "3" then Some ("", stdHour12, rest)
      else if Ascii.eqb c "4" then Some ("", stdMinute, rest)
      else if Ascii.eqb c "5" then Some ("", stdSecond, rest)
      else if Ascii.eqb c "P" then tryCut "PM" stdPM layout
      else if Ascii.eqb c "p" then tryCut "pm" stdpm layout
      else if Ascii.eqb c "-" then
        firstOf
          [ tryCut "-070000" stdNumSecondsTz layout;
            tryCut "-07:00:00" stdNumColonSecondsTZ layout;
            tryCut "-0700" stdNumTZ layout;
            tryCut "-07:00" stdNumColonTZ layout;
            tryCut "-07" stdNumShortTZ layout ]
      else if Ascii.eqb c "Z" then
        firstOf
          [ tryCut "Z070000" stdISO8601SecondsTZ layout;
            tryCut "Z07:00:00" stdISO8601ColonSecondsTZ layout;
            tryCut "Z0700" stdISO8601TZ layout;
            tryCut "Z07:00" stdISO8601ColonTZ layout;
            tryCut "Z07" stdISO8601ShortTZ layout ]
      else if Ascii.eqb c "." || Ascii.eqb c "," then
        match rest with
        | String ch _ =>
            if Ascii.eqb ch "0" || Ascii.eqb ch "9" then
              let '(n, r) := skipRun ch rest in
              if startsWithDigit r then None
              else Some ("",
                         (if Ascii.eqb ch "9" then stdFracSecond9 else stdFracSecond0)
                           (n mod 4096) c,
                         r)
            else None
        | EmptyString => None
        end
      else None
  end.

(** [nextStdChunk layout] = (prefix, std, suffix); [None] is Go's
    [std == 0], returned with the whole layout as prefix. *)
Fixpoint nextStdChunk (layout : string) : string * option Std * string :=
  match layout with
  | EmptyString => ("", None, "")
  | String c rest =>
      match stdAt layout with
      | Some (pre, std, suffix) => (pre, Some std, suffix)
      | None => let '(p, std, suffix) := nextStdChunk rest in (String c p, std, suffix)
      end
  end.

(** *** Rendering: [appendInt], [appendNano], [appendFormat] *)

Definition digitsOf (u : Z) : string :=
  NilZero.string_of_uint (N.to_uint (Z.to_N u)).

Fixpoint zeros (n : nat) : string :=
  match n with
  | O => ""
  | S k => String "0" (zeros k)
  end.

(** [appendInt(b, x, width)]: sign, then the decimal digits of [|x|]
    padded with zeros on the left to [width]. *)
Definition appendInt (x width : Z) : string :=
  let u := Z.abs x in
  let ds := digitsOf u in
  (if x <? 0 then "-" else "")
    +:+ zeros (Z.to_nat (width - Z.of_nat (String.length ds))) +:+ ds.

Definition monthName (m : Z) : string :=
  nth (Z.to_nat (m - 1))
    ["January"; "February"; "March"; "April"; "May"; "June"; "July";
     "August"; "September"; "October"; "November"; "December"] "".

Definition dayName (d : Z) : string :=
  nth (Z.to_nat d)
    ["Sunday"; "Monday"; "Tuesday"; "Wednesday"; "Thursday"; "Friday";
     "Saturday"] "".

Definition take3 (s : string) : string := substring 0 3 s.

Fixpoint revString (s acc : string) : string :=
  match s with
  | EmptyString => acc
  | String c s' => revString s' (String c acc)
  end.

Fixpoint dropLeading (ch : ascii) (s : string) : string :=
  match s with
  | String c s' => if Ascii.eqb c ch then dropLeading ch s' else s
  | EmptyString => s
  end.

(** Removes the trailing run of [ch]. *)
Definition trimRight (ch : ascii) (s : string) : string :=
  revString (dropLeading ch (revString s "")) "".

Definition appendNano (nanosec : Z) (trim : bool) (n : Z) (sep : ascii) : string :=
  if trim && ((n =? 0) || (nanosec =? 0)) then ""
  else
    let ds := appendInt nanosec 9 in
    let ds := if n <? 9 then substring 0 (Z.to_nat n) ds else ds in
    if trim then
      let ds := trimRight "0" ds in
      match ds with
      | EmptyString => ""
      | _ => String sep ds
      end
    else String sep ds.

Definition isISO8601 (std : Std) : bool :=
  match std with
  | stdISO8601TZ | stdISO8601ColonTZ | stdISO8601SecondsTZ
  | stdISO8601ShortTZ | stdISO8601ColonSecondsTZ => true
  | _ => false
  end.

Definition hasColon (std : Std) : bool :=
  match std with
  | stdISO8601ColonTZ | stdNumColonTZ | stdISO8601ColonSecondsTZ
  | stdNumColonSecondsTZ => true
  | _ => false
  end.

Definition isShortTZ (std : Std) : bool :=
  match std with
  | stdNumShortTZ | stdISO8601ShortTZ => true
  | _ => false
  end.

Definition hasSecondsTZ (std : Std) : bool :=
  match std with
  | stdISO8601SecondsTZ | stdNumSecondsTz | stdNumColonSecondsTZ
  | stdISO8601ColonSecondsTZ => true
  | _ => false
  end.

Definition hour12 (hour : Z) : Z :=
  let hr := hour mod 12 in if hr =? 0 then 12 else hr.

(** What one chunk appends: the [switch std & stdMask] of
    [appendFormat]. Offsets are truncated towards zero as Go's [/], [%]. *)
Definition formatStd (t : Time) (std : Std) : string :=
  match std with
  | stdYear => appendInt (Z.abs (Year t) mod 100) 2
  | stdLongYear => appendInt (Year t) 4
  | stdMonth => take3 (monthName (Month t))
  | stdLongMonth => monthName (Month t)
  | stdNumMonth => appendInt (Month t) 0
  | stdZeroMonth => appendInt (Month t) 2
  | stdWeekDay => take3 (dayName (Weekday t))
  | stdLongWeekDay => dayName (Weekday t)
  | stdDay => appendInt (Day t) 0
  | stdUnderDay => (if Day t <? 10 then " " else "") +:+ appendInt (Day t) 0
  | stdZeroDay => appendInt (Day t) 2
  | stdUnderYearDay =>
      (if YearDay t <? 100 then (if YearDay t <? 10 then "  " else " ") else "")
        +:+ appendInt (YearDay t) 0
  | stdZeroYearDay => appendInt (YearDay t) 3
  | stdHour => appendInt (Hour t) 2
  | stdHour12 => appendInt (hour12 (Hour t)) 0
  | stdZeroHour12 => appendInt (hour12 (Hour t)) 2
  | stdMinute => appendInt (Minute t) 0
  | stdZeroMinute => appendInt (Minute t) 2
  | stdSecond => appendInt (Second t) 0
  | stdZeroSecond => appendInt (Second t) 2
  | stdPM => if 12 <=? Hour t then "PM" else "AM"
  | stdpm => if 12 <=? Hour t then "pm" else "am"
  | stdTZ =>
      let offset := zoffset (zone t) in
      if negb (String.eqb (zname (zone t)) "") then zname (zone t)
      else
        let zone := Z.quot offset 60 in
        (if zone <? 0 then "-" else "+")
          +:+ appendInt (Z.quot (Z.abs zone) 60) 2
          +:+ appendInt (Z.rem (Z.abs zone) 60) 2
  | stdFracSecond0 n sep => appendNano (Nanosecond t) false n sep
  | stdFracSecond9 n sep => appendNano (Nanosecond t) true n sep
  | _ =>
      let offset := zoffset (zone t) in
      if (offset =? 0) && isISO8601 std then "Z"
      else
        let zone := Z.quot offset 60 in
        let absoffset := if zone <? 0 then - offset else offset in
        (if zone <? 0 then "-" else "+")
          +:+ appendInt (Z.quot (Z.abs zone) 60) 2
          +:+ (if hasColon std then ":" else "")
          +:+ (if isShortTZ std then "" else appendInt (Z.rem (Z.abs zone) 60) 2)
          +:+ (if hasSecondsTZ std
               then (if hasColon std then ":" else "")
                      +:+ appendInt (Z.rem absoffset 60) 2
               else "")
  end.

(** The loop of [appendFormat]; every iteration that continues has
    consumed at least one byte of the layout, so [fuel] = its length is
    enough ([appendFormat_fuel]). *)
Fixpoint appendFormat (fuel : nat) (t : Time) (layout : string) : string :=
  match fuel with
  | O => ""
  | S fuel' =>
      match layout with
      | EmptyString => ""
      | _ =>
          let '(prefix, std, suffix) := nextStdChunk layout in
          match std with
          | None => prefix
          | Some sd => prefix +:+ formatStd t sd +:+ appendFormat fuel' t suffix
          end
      end
  end.

Definition Format (t : Time) (layout : string) : string :=
  appendFormat (String.length layout) t layout.

End time.

(** ** Package [strings] *)

Module Strings.

Definition HasSuffix (s suffix : string) : bool :=
  match time.cut (time.revString suffix "") (time.revString s "") with
  | Some _ => true
  | None => false
  end.

(** [TrimSuffix(s, suffix)]: [s] without the trailing [suffix], or [s]
    itself when it does not end with it. *)
Definition TrimSuffix (s suffix : string) : string :=
  if HasSuffix s suffix
  then substring 0 (String.length s - String.length suffix) s
  else s.

(** Whether the byte [c] occurs in [s] ([strings.IndexByte(s, c) >= 0]). *)
Fixpoint hasByte (c : ascii) (s : string) : bool :=
  match s with
  | EmptyString => false
  | String b s' => Ascii.eqb b c || hasByte c s'
  end.

(** [strings.Join(elems, sep)]. *)
Fixpoint Join (elems : list string) (sep : string) : string :=
  match elems with
  | [] => ""
  | [e] => e
  | e :: rest => e +:+ sep +:+ Join rest sep
  end.

End Strings.

(** ** Package [path/filepath] (Unix) *)

Module filepath.

Definition Separator : ascii := "/".
Definition isSep (c : ascii) : bool := Ascii.eqb c Separator.

(** The elements of a path: the maximal runs between separators
    (possibly empty). *)
Fixpoint elements (path : string) : list string :=
  match path with
  | EmptyString => [""]
  | String c rest =>
      if isSep c then "" :: elements rest
      else match elements rest with
           | e :: es => String c e :: es
           | [] => [String c ""]
           end
  end.

(** The loop of [Clean], one path element per step. [out] holds the
    real elements written so far, last first, and [ups] counts the
    leading [..] elements that cannot be removed (Go's [dotdot] mark).
    An empty element and [.] are skipped; [..] removes the last real
    element when there is one, is dropped at the root, and is kept
    otherwise. *)
Fixpoint cleanLoop (rooted : bool) (els : list string) (ups : nat)
    (out : list string) : nat * list string :=
  match els with
  | [] => (ups, out)
  | e :: els' =>
      if String.eqb e "" || String.eqb e "." then cleanLoop rooted els' ups out
      else if String.eqb e ".." then
        match out with
        | _ :: out' => cleanLoop rooted els' ups out'
        | [] => if rooted then cleanLoop rooted els' ups out
                else cleanLoop rooted els' (S ups) out
        end
      else cleanLoop rooted els' ups (e :: out)
  end.

Definition Clean (path : string) : string :=
  match path with
  | EmptyString => "."
  | String c _ =>
      let rooted := isSep c in
      let '(ups, out) := cleanLoop rooted (elements path) 0 [] in
      let body := Strings.Join (List.repeat ".." ups ++ List.rev out) "/" in
      if rooted then String Separator body
      else if String.eqb body "" then "." else body
  end.

(** Reversed [s] from its first separator on: the part of the path up
    to and including its last separator, reversed. *)
Fixpoint fromSepRev (s : string) : string :=
  match s with
  | EmptyString => ""
  | String c s' => if isSep c then s else fromSepRev s'
  end.

(** Reversed [s] up to its first separator: the last element, reversed. *)
Fixpoint uptoSepRev (s : string) : string :=
  match s with
  | EmptyString => ""
  | String c s' => if isSep c then "" else String c (uptoSepRev s')
  end.

(** [Dir]: everything up to the last separator, cleaned. *)
Definition Dir (path : string) : string :=
  Clean (time.revString (fromSepRev (time.revString path "")) "").

(** [Base]: the last element, after trailing separators are removed. *)
Definition Base (path : string) : string :=
  match path with
  | EmptyString => "."
  | _ =>
      let stripped := time.dropLeading Separator (time.revString path "") in
      match time.revString (uptoSepRev stripped) "" with
      | EmptyString => String Separator ""
      | b => b
      end
  end.

(** The scan of [Ext] over the reversed path: [acc] is what was passed. *)
Fixpoint extRev (s acc : string) : string :=
  match s with
  | EmptyString => ""
  | String c s' =>
      if isSep c then ""
      else if Ascii.eqb c "." then String c acc
      else extRev s' (String c acc)
  end.

(** [Ext]: the suffix that starts at the last dot of the last element,
    empty when that element has no dot. *)
Definition Ext (path : string) : string := extRev (time.revString path "") "".

(** [Join]: the elements from the first non-empty one on, joined by the
    separator and cleaned; the empty string when all are empty. *)
Fixpoint Join (elem : list string) : string :=
  match elem with
  | [] => ""
  | e :: rest =>
      if String.eqb e "" then Join rest
      else Clean (Strings.Join elem (String Separator ""))
  end.

End filepath.

(** ** Package [logger]: [config.go] *)

Definition error := string.

Definition RotationMode := string.
Definition RotationModeSize : RotationMode := "size".
Definition RotationModeTime : RotationMode := "time".
Definition RotationModeBoth : RotationMode := "both".

Definition TimeRotationInterval := string.
Definition RotationHourly : TimeRotationInterval := "hourly".
Definition RotationDaily : TimeRotationInterval := "daily".
Definition RotationWeekly : TimeRotationInterval := "weekly".
Definition RotationMonthly : TimeRotationInterval := "monthly".

Definition EnvDevelopment := "development".
Definition EnvStaging := "staging".
Definition EnvProduction := "production".
Definition EnvTest := "test".

Definition LevelDebug := "debug".
Definition LevelInfo := "info".
Definition LevelWarn := "warn".
Definition LevelError := "error".
Definition LevelFatal := "fatal".
Definition LevelPanic := "panic".

Definition EncodingJSON := "json".
Definition EncodingConsole := "console".

Record FileOptions := mkFileOptions {
  Filename : string;
  MaxSize : Z;
  MaxAge : Z;
  MaxBackups : Z;
  LocalTime : bool;
  Compress : bool;
  FileMode : Z;
  CreateDir : bool;
  RotationMode_ : RotationMode;
  TimeRotationInterval_ : TimeRotationInterval;
  TimeRotationFormat : string
}.

Record Config := mkConfig {
  Level : string;
  Environment : string;
  OutputPaths : list string;
  Encoding : string;
  FileOptions_ : FileOptions
}.

Definition DefaultFileOptions : FileOptions :=
  {| Filename := "";
     MaxSize := 100;
     MaxAge := 30;
     MaxBackups := 10;
     LocalTime := false;
     Compress := true;
     FileMode := 420;
     CreateDir := true;
     RotationMode_ := RotationModeSize;
     TimeRotationInterval_ := RotationDaily;
     TimeRotationFormat := "" |}.

Definition DefaultConfig : Config :=
  {| Level := "info";
     Environment := "development";
     OutputPaths := ["stdout"];
     Encoding := "console";
     FileOptions_ := DefaultFileOptions |}.

(** ** The external sink: [lumberjack.Logger] *)

Module lumberjack.

(** The exported fields the writer sets, and [impl], the unexported
    state behind the logger (its open file, if any). *)
Record Logger (S : Type) := mkLogger {
  Filename : string;
  MaxSize : Z;
  MaxAge : Z;
  MaxBackups : Z;
  LocalTime : bool;
  Compress : bool;
  impl : S
}.
Arguments mkLogger {S}.
Arguments Filename {S}.
Arguments MaxSize {S}.
Arguments MaxAge {S}.
Arguments MaxBackups {S}.
Arguments LocalTime {S}.
Arguments Compress {S}.
Arguments impl {S}.

(** The two methods of the sink the writer calls. Both read the
    logger's fields and change only its unexported state; [fresh] is
    that state in a newly built [Logger] literal. *)
Class Sink (S : Type) := {
  fresh : S;
  write : Logger S -> list Byte.byte -> S * (Z * option error);
  close : Logger S -> S * option error
}.

Definition withImpl {S} (l : Logger S) (s : S) : Logger S :=
  mkLogger (Filename l) (MaxSize l) (MaxAge l) (MaxBackups l)
           (LocalTime l) (Compress l) s.

Definition withFilename {S} (l : Logger S) (f : string) : Logger S :=
  mkLogger f (MaxSize l) (MaxAge l) (MaxBackups l)
           (LocalTime l) (Compress l) (impl l).

End lumberjack.

(** ** [rotation.go] *)

(** A call the writer made on its sink, with the file name the logger
    was bound to at that moment and what the call returned. *)
Inductive SinkCall :=
| CallClose (filename : string) (err : option error)
| CallWrite (filename : string) (p : list Byte.byte) (n : Z) (err : option error).

Section Rotation.

Context {S : Type} `{!lumberjack.Sink S}.

(** [mu] is left out: a call of [Write] holds the lock from its first
    to its last statement, so calls are modelled as atomic steps. *)
Record TimeRotatingWriter := mkWriter {
  Logger : lumberjack.Logger S;
  options : FileOptions;
  currentTimeFormat : string;
  lastRotationTime : time.Time;
  baseFilename : string
}.

(** Methods run on the writer behind the pointer receiver and call the
    sink: a state monad over the writer that also logs the sink calls. *)
Definition M (A : Type) : Type :=
  TimeRotatingWriter -> A * TimeRotatingWriter * list SinkCall.

Definition ret {A} (a : A) : M A := fun w => (a, w, []).

Definition bind {A B} (m : M A) (k : A -> M B) : M B :=
  fun w =>
    let '(a, w1, c1) := m w in
    let '(b, w2, c2) := k a w1 in
    (b, w2, (c1 ++ c2)%list).

Definition get : M TimeRotatingWriter := fun w => (w, w, []).

Definition setLogger (l : lumberjack.Logger S) : M unit :=
  fun w => (tt, mkWriter l (options w) (currentTimeFormat w)
                         (lastRotationTime w) (baseFilename w), []).

Definition setLastRotationTime (t : time.Time) : M unit :=
  fun w => (tt, mkWriter (Logger w) (options w) (currentTimeFormat w)
                         t (baseFilename w), []).

Notation "x <- c ;; k" := (bind c (fun x => k))
  (at level 100, c at next level, right associativity).
Notation "c ;;; k" := (bind c (fun _ => k))
  (at level 100, right associativity).

(** [w.Logger.Close()] *)
Definition LoggerClose : M (option error) :=
  fun w =>
    let l := Logger w in
    let '(s, err) := lumberjack.close l in
    (err,
     mkWriter (lumberjack.withImpl l s) (options w) (currentTimeFormat w)
              (lastRotationTime w) (baseFilename w),
     [CallClose (lumberjack.Filename l) err]).

(** [w.Logger.Write(p)] *)
Definition LoggerWrite (p : list Byte.byte) : M (Z * option error) :=
  fun w =>
    let l := Logger w in
    let '(s, (n, err)) := lumberjack.write l p in
    ((n, err),
     mkWriter (lumberjack.withImpl l s) (options w) (currentTimeFormat w)
              (lastRotationTime w) (baseFilename w),
     [CallWrite (lumberjack.Filename l) p n err]).

Definition generateTimestampedFilename (baseFilename : string) (t : time.Time)
    (timeFormat : string) : string :=
  let dir := filepath.Dir baseFilename in
  let filename := filepath.Base baseFilename in
  let ext := filepath.Ext filename in
  let nameWithoutExt := Strings.TrimSuffix filename ext in
  let timestamp := time.Format t timeFormat in
  let timestampedName := nameWithoutExt +:+ "-" +:+ timestamp +:+ ext in
  filepath.Join [dir; timestampedName].

(** [time.Now()] followed by [now.Local()] or [now.UTC()]: [clock] is
    the instant read and [local] the machine's location. *)
Definition adjust (options : FileOptions) (local : time.Location)
    (clock : time.Time) : time.Time :=
  if LocalTime options then time.In clock local else time.UTC clock.

Definition NewTimeRotatingWriter (local : time.Location) (clock : time.Time)
    (options : FileOptions) : TimeRotatingWriter :=
  let baseFilename := Filename options in
  let timeFormat := TimeRotationFormat options in
  let timeFormat :=
    if String.eqb timeFormat "" then
      if String.eqb (TimeRotationInterval_ options) RotationHourly then "2006-01-02-15"
      else if String.eqb (TimeRotationInterval_ options) RotationDaily then "2006-01-02"
      else if String.eqb (TimeRotationInterval_ options) RotationWeekly then "2006-W01"
      else if String.eqb (TimeRotationInterval_ options) RotationMonthly then "2006-01"
      else "2006-01-02"
    else timeFormat in
  let now := adjust options local clock in
  let timestampedFilename := generateTimestampedFilename baseFilename now timeFormat in
  let lj :=
    lumberjack.mkLogger timestampedFilename (MaxSize options) (MaxAge options)
      (MaxBackups options) (LocalTime options) (Compress options)
      lumberjack.fresh in
  mkWriter lj options timeFormat now baseFilename.

Definition ne (a b : Z) : bool := negb (a =? b).

(** The [switch] of [shouldRotateByTime], on the interval and the two
    times it compares. *)
Definition shouldRotate (interval : TimeRotationInterval)
    (lastRotationTime now : time.Time) : bool :=
  if String.eqb interval RotationHourly then
    ne (time.Hour now) (time.Hour lastRotationTime)
    || ne (time.Day now) (time.Day lastRotationTime)
    || ne (time.Month now) (time.Month lastRotationTime)
    || ne (time.Year now) (time.Year lastRotationTime)
  else if String.eqb interval RotationDaily then
    ne (time.Day now) (time.Day lastRotationTime)
    || ne (time.Month now) (time.Month lastRotationTime)
    || ne (time.Year now) (time.Year lastRotationTime)
  else if String.eqb interval RotationWeekly then
    let '(_, thisWeek) := time.ISOWeek now in
    let '(_, lastWeek) := time.ISOWeek lastRotationTime in
    ne thisWeek lastWeek || ne (time.Year now) (time.Year lastRotationTime)
  else if String.eqb interval RotationMonthly then
    ne (time.Month now) (time.Month lastRotationTime)
    || ne (time.Year now) (time.Year lastRotationTime)
  else false.

Definition shouldRotateByTime (now : time.Time) : M bool :=
  w <- get ;;
  ret (shouldRotate (TimeRotationInterval_ (options w)) (lastRotationTime w) now).

Definition rotateByTime (now : time.Time) : M (option error) :=
  err <- LoggerClose ;;
  match err with
  | Some e => ret (Some e)
  | None =>
      w <- get ;;
      let newFilename :=
        generateTimestampedFilename (baseFilename w) now (currentTimeFormat w) in
      setLogger (lumberjack.withFilename (Logger w) newFilename) ;;;
      setLastRotationTime now ;;;
      ret None
  end.

Definition Write (local : time.Location) (clock : time.Time) (p : list Byte.byte)
    : M (Z * option error) :=
  w <- get ;;
  let now := adjust (options w) local clock in
  rot <- shouldRotateByTime now ;;
  if rot then
    err <- rotateByTime now ;;
    match err with
    | Some e => ret (0, Some e)
    | None => LoggerWrite p
    end
  else LoggerWrite p.

(** A run of [Write] calls, one per clock reading and payload, in
    order: the results, the final writer and all sink calls made. *)
Fixpoint WriteAll (local : time.Location)
    (calls : list (time.Time * list Byte.byte))
    : M (list (Z * option error)) :=
  match calls with
  | [] => ret []
  | (clock, p) :: rest =>
      r <- Write local clock p ;;
      rs <- WriteAll local rest ;;
      ret (r :: rs)
  end.

Definition interval (w : TimeRotatingWriter) : TimeRotationInterval :=
  TimeRotationInterval_ (options w).

(** The writer [rotateByTime] leaves when [Close] returned no error and
    left the sink in state [s]: the logger bound to the new name and
    [lastRotationTime] set to [now]. *)
Definition rotated (w : TimeRotatingWriter) (now : time.Time) (s : S)
    : TimeRotatingWriter :=
  mkWriter
    (lumberjack.withFilename (lumberjack.withImpl (Logger w) s)
       (generateTimestampedFilename (baseFilename w) now (currentTimeFormat w)))
    (options w) (currentTimeFormat w) now (baseFilename w).

End Rotation.

Arguments TimeRotatingWriter S : clear implicits.
Arguments M S A : clear implicits.

(** A rotation performed is a [Close] of the sink that succeeded:
    [rotateByTime] is the only caller of [Close] and goes on to rebind
    the file name whenever it returns no error. *)
Definition isRotation (c : SinkCall) : bool :=
  match c with
  | CallClose _ None => true
  | _ => false
  end.

Definition rotations (calls : list SinkCall) : nat :=
  length (filter (fun c => isRotation c = true) calls).

Definition isWrite (c : SinkCall) : bool :=
  match c with
  | CallWrite _ _ _ _ => true
  | _ => false
  end.

(** The file names the payloads of a trace went to, in order. *)
Definition segments (calls : list SinkCall) : list string :=
  omap (fun c => match c with
                 | CallWrite f _ _ _ => Some f
                 | _ => None
                 end) calls.

(** ** An in-memory sink

    A stand-in for [lumberjack.Logger] with a file system held in a map:
    the file is opened on the first [Write] after construction or
    [Close], under the name the logger is bound to at that moment;
    opening fails for the paths in [unopenable]; closing an open file
    returns [closeError] and drops the handle either way, and closing
    with no open file returns [nil]. *)

Module MemSink.

Record Mem := mkMem {
  opened : option string;
  files : gmap string (list Byte.byte);
  closeError : option error;
  unopenable : list string
}.

Definition empty : Mem := mkMem None ∅ None [].

Definition appendTo (m : Mem) (f : string) (p : list Byte.byte) : Mem :=
  mkMem (Some f) (<[f := (default [] (files m !! f) ++ p)%list]> (files m))
        (closeError m) (unopenable m).

Definition memWrite (l : lumberjack.Logger Mem) (p : list Byte.byte)
    : Mem * (Z * option error) :=
  let m := lumberjack.impl l in
  match opened m with
  | Some f => (appendTo m f p, (Z.of_nat (length p), None))
  | None =>
      let f := lumberjack.Filename l in
      if existsb (String.eqb f) (unopenable m)
      then (m, (0, Some ("can't open new logfile: " +:+ f)))
      else (appendTo m f p, (Z.of_nat (length p), None))
  end.

Definition memClose (l : lumberjack.Logger Mem) : Mem * option error :=
  let m := lumberjack.impl l in
  match opened m with
  | Some _ => (mkMem None (files m) (closeError m) (unopenable m), closeError m)
  | None => (m, None)
  end.

#[global] Instance sink : lumberjack.Sink Mem :=
  {| lumberjack.fresh := empty;
     lumberjack.write := memWrite;
     lumberjack.close := memClose |}.

End MemSink.

(** Sample writers over the in-memory sink, used to run the code on
    concrete inputs: a Daily writer on [/var/log/app.log] whose current
    segment, opened on 2024-01-01, is open. *)

Module Sample.

Definition dailyOptions : FileOptions :=
  mkFileOptions "/var/log/app.log" 100 30 10 false true 420 true
    RotationModeBoth RotationDaily "".

Definition payload : list Byte.byte := [Byte.x68; Byte.x69; Byte.x0a].

Definition jan1 : time.Time := time.Date 2024 1 1 23 59 59 0 time.utc.
Definition jan2 : time.Time := time.Date 2024 1 2 0 0 0 0 time.utc.
Definition jan3 : time.Time := time.Date 2024 1 3 8 30 0 0 time.utc.
Definition jan3' : time.Time := time.Date 2024 1 3 17 45 10 0 time.utc.

Definition writerWith (options : FileOptions) (m : MemSink.Mem)
    : TimeRotatingWriter MemSink.Mem :=
  mkWriter
    (lumberjack.mkLogger "/var/log/app-2024-01-01.log" 100 30 10 false true m)
    options "2006-01-02" jan1 "/var/log/app.log".

Definition openSegment : gmap string (list Byte.byte) :=
  {[ "/var/log/app-2024-01-01.log" := payload ]}.

(** The sink is healthy. *)
Definition healthy : TimeRotatingWriter MemSink.Mem :=
  writerWith dailyOptions
    (MemSink.mkMem (Some "/var/log/app-2024-01-01.log") openSegment None []).

(** Closing the open segment fails. *)
Definition closeFails : TimeRotatingWriter MemSink.Mem :=
  writerWith dailyOptions
    (MemSink.mkMem (Some "/var/log/app-2024-01-01.log") openSegment
       (Some "close /var/log/app-2024-01-01.log: input/output error") []).

(** The next day's segment cannot be opened. *)
Definition openFails : TimeRotatingWriter MemSink.Mem :=
  writerWith dailyOptions
    (MemSink.mkMem (Some "/var/log/app-2024-01-01.log") openSegment None
       ["/var/log/app-2024-01-02.log"]).

(** The interval is not one of the four recognised values. *)
Definition yearlyOptions : FileOptions :=
  mkFileOptions "/var/log/app.log" 100 30 10 false true 420 true
    RotationModeTime "yearly" "".

Definition weeklyOptions : FileOptions :=
  mkFileOptions "/var/log/app.log" 100 30 10 false true 420 true
    RotationModeTime RotationWeekly "".

Definition yearly : TimeRotatingWriter MemSink.Mem :=
  writerWith yearlyOptions
    (MemSink.mkMem (Some "/var/log/app-2024-01-01.log") openSegment None []).

End Sample.

(** Weekly writers on [/var/log/app.log] over the in-memory sink, as
    [NewTimeRotatingWriter] builds them at a given clock, and the times
    of two runs around the turn of a year. *)

Module WeeklySample.

Definition writerAt (clock : time.Time) : TimeRotatingWriter MemSink.Mem :=
  NewTimeRotatingWriter time.UTCLoc clock Sample.weeklyOptions.

Definition jan01_2022 : time.Time := time.Date 2022 1 1 9 0 0 0 time.utc.
Definition dec31_2022 : time.Time := time.Date 2022 12 31 9 0 0 0 time.utc.
Definition dec31_2022' : time.Time := time.Date 2022 12 31 18 0 0 0 time.utc.

Definition dec30_2024 : time.Time := time.Date 2024 12 30 9 0 0 0 time.utc.
Definition dec30_2024' : time.Time := time.Date 2024 12 30 18 0 0 0 time.utc.
Definition jan02_2025 : time.Time := time.Date 2025 1 2 9 0 0 0 time.utc.

End WeeklySample.

(** ** [config_builder.go]: [Validate], and [GetEffectiveConfig] *)

Definition IsProduction (c : Config) : bool := String.eqb (Environment c) EnvProduction.

(** A Go [map[string]bool] literal; indexing a missing key yields [false]. *)
Definition index (m : gmap string bool) (k : string) : bool := default false (m !! k).

Definition validLevels : gmap string bool :=
  list_to_map [(LevelDebug, true); (LevelInfo, true); (LevelWarn, true);
               (LevelError, true); (LevelFatal, true); (LevelPanic, true)].

Definition validEnvs : gmap string bool :=
  list_to_map [(EnvDevelopment, true); (EnvStaging, true);
               (EnvProduction, true); (EnvTest, true)].

Definition validEncodings : gmap string bool :=
  list_to_map [(EncodingJSON, true); (EncodingConsole, true)].

Definition setLevel (c : Config) (v : string) : Config :=
  mkConfig v (Environment c) (OutputPaths c) (Encoding c) (FileOptions_ c).
Definition setEnvironment (c : Config) (v : string) : Config :=
  mkConfig (Level c) v (OutputPaths c) (Encoding c) (FileOptions_ c).
Definition setOutputPaths (c : Config) (v : list string) : Config :=
  mkConfig (Level c) (Environment c) v (Encoding c) (FileOptions_ c).
Definition setEncoding (c : Config) (v : string) : Config :=
  mkConfig (Level c) (Environment c) (OutputPaths c) v (FileOptions_ c).
Definition setFileOptions (c : Config) (v : FileOptions) : Config :=
  mkConfig (Level c) (Environment c) (OutputPaths c) (Encoding c) v.

(** [func (c Config) Validate() error]. The receiver is passed by value:
    [c] is the method's own copy of the caller's struct. The body is
    run on that copy; the result pairs the copy as it stands at
    [return] with the error returned. Only the error reaches the
    caller. *)
Definition Validate (c : Config) : Config * option error :=
  let c := if negb (index validLevels (Level c)) then setLevel c LevelInfo else c in
  let c := if negb (index validEnvs (Environment c))
           then setEnvironment c EnvDevelopment else c in
  let c := if negb (index validEncodings (Encoding c)) then
             if IsProduction c then setEncoding c EncodingJSON
             else setEncoding c EncodingConsole
           else c in
  let c := if (Z.of_nat (length (OutputPaths c)) =? 0)
           then setOutputPaths c ["stdout"] else c in
  (c, None).

Section FromEnv.

(** The process environment and the library functions [ConfigFromEnv]
    calls: [os.Getenv] reads [environ] and yields the empty string for
    an unset name; [strconv.Atoi] yields [None] on a parse error. *)
Variable environ : gmap string string.
Variable ToLower : string -> string.
Variable Split : string -> string -> list string.
Variable Atoi : string -> option Z.

Definition Getenv (key : string) : string := default "" (environ !! key).

Definition setFromEnv {A} (key : string) (f : string -> A -> A) (a : A) : A :=
  let v := Getenv key in
  if negb (String.eqb v "") then f v a else a.

Definition atoiInto (set : Z -> FileOptions -> FileOptions) (v : string)
    (fo : FileOptions) : FileOptions :=
  match Atoi v with
  | Some n => set n fo
  | None => fo
  end.

Definition isTrue (v : string) : bool := String.eqb (ToLower v) "true".

Definition fileOptionsFromEnv (fo : FileOptions) : FileOptions :=
  let fo := setFromEnv "LOG_FILE"
    (fun v fo => mkFileOptions v (MaxSize fo) (MaxAge fo) (MaxBackups fo)
       (LocalTime fo) (Compress fo) (FileMode fo) (CreateDir fo)
       (RotationMode_ fo) (TimeRotationInterval_ fo) (TimeRotationFormat fo)) fo in
  let fo := setFromEnv "LOG_FILE_MAX_SIZE"
    (atoiInto (fun n fo => mkFileOptions (Filename fo) n (MaxAge fo) (MaxBackups fo)
       (LocalTime fo) (Compress fo) (FileMode fo) (CreateDir fo)
       (RotationMode_ fo) (TimeRotationInterval_ fo) (TimeRotationFormat fo))) fo in
  let fo := setFromEnv "LOG_FILE_MAX_AGE"
    (atoiInto (fun n fo => mkFileOptions (Filename fo) (MaxSize fo) n (MaxBackups fo)
       (LocalTime fo) (Compress fo) (FileMode fo) (CreateDir fo)
       (RotationMode_ fo) (TimeRotationInterval_ fo) (TimeRotationFormat fo))) fo in
  let fo := setFromEnv "LOG_FILE_MAX_BACKUPS"
    (atoiInto (fun n fo => mkFileOptions (Filename fo) (MaxSize fo) (MaxAge fo) n
       (LocalTime fo) (Compress fo) (FileMode fo) (CreateDir fo)
       (RotationMode_ fo) (TimeRotationInterval_ fo) (TimeRotationFormat fo))) fo in
  let fo := setFromEnv "LOG_FILE_LOCAL_TIME"
    (fun v fo => mkFileOptions (Filename fo) (MaxSize fo) (MaxAge fo) (MaxBackups fo)
       (isTrue v) (Compress fo) (FileMode fo) (CreateDir fo)
       (RotationMode_ fo) (TimeRotationInterval_ fo) (TimeRotationFormat fo)) fo in
  let fo := setFromEnv "LOG_FILE_COMPRESS"
    (fun v fo => mkFileOptions (Filename fo) (MaxSize fo) (MaxAge fo) (MaxBackups fo)
       (LocalTime fo) (isTrue v) (FileMode fo) (CreateDir fo)
       (RotationMode_ fo) (TimeRotationInterval_ fo) (TimeRotationFormat fo)) fo in
  let fo := setFromEnv "LOG_FILE_CREATE_DIR"
    (fun v fo => mkFileOptions (Filename fo) (MaxSize fo) (MaxAge fo) (MaxBackups fo)
       (LocalTime fo) (Compress fo) (FileMode fo) (isTrue v)
       (RotationMode_ fo) (TimeRotationInterval_ fo) (TimeRotationFormat fo)) fo in
  let fo := setFromEnv "LOG_FILE_ROTATION_MODE"
    (fun v fo => mkFileOptions (Filename fo) (MaxSize fo) (MaxAge fo) (MaxBackups fo)
       (LocalTime fo) (Compress fo) (FileMode fo) (CreateDir fo)
       (ToLower v) (TimeRotationInterval_ fo) (TimeRotationFormat fo)) fo in
  let fo := setFromEnv "LOG_FILE_TIME_INTERVAL"
    (fun v fo => mkFileOptions (Filename fo) (MaxSize fo) (MaxAge fo) (MaxBackups fo)
       (LocalTime fo) (Compress fo) (FileMode fo) (CreateDir fo)
       (RotationMode_ fo) (ToLower v) (TimeRotationFormat fo)) fo in
  setFromEnv "LOG_FILE_TIME_FORMAT"
    (fun v fo => mkFileOptions (Filename fo) (MaxSize fo) (MaxAge fo) (MaxBackups fo)
       (LocalTime fo) (Compress fo) (FileMode fo) (CreateDir fo)
       (RotationMode_ fo) (TimeRotationInterval_ fo) v) fo.

Definition levelIfEmpty (c : Config) (lvl : string) : Config :=
  if String.eqb (Level c) "" then setLevel c lvl else c.

Definition ConfigFromEnv : Config :=
  let config := DefaultConfig in
  let config := setFromEnv "APP_ENV" (fun v c => setEnvironment c (ToLower v)) config in
  let config := setFromEnv "GIN_MODE"
    (fun v c =>
       if String.eqb v "release" then setEnvironment c EnvProduction
       else if String.eqb v "test" then setEnvironment c EnvTest
       else setEnvironment c EnvDevelopment) config in
  let config := setFromEnv "LOG_LEVEL" (fun v c => setLevel c (ToLower v)) config in
  let config := setFromEnv "LOG_ENCODING" (fun v c => setEncoding c (ToLower v)) config in
  let config := setFromEnv "LOG_OUTPUT_PATHS"
    (fun v c => setOutputPaths c (Split v ",")) config in
  let config := setFileOptions config (fileOptionsFromEnv (FileOptions_ config)) in
  if String.eqb (Environment config) EnvProduction then
    setEncoding (levelIfEmpty config LevelInfo) EncodingJSON
  else if String.eqb (Environment config) EnvStaging then
    setEncoding (levelIfEmpty config LevelInfo) EncodingJSON
  else if String.eqb (Environment config) EnvTest then
    setEncoding (levelIfEmpty config LevelError) EncodingConsole
  else
    setEncoding (levelIfEmpty config LevelDebug) EncodingConsole.

(** [config.Validate()] as a statement: the method runs on a copy of
    [config] and its result is dropped; [config] is then returned. *)
Definition GetEffectiveConfig : Config :=
  let config := ConfigFromEnv in
  let '(_, _) := Validate config in
  config.

End FromEnv.

(** ** The writer's naming invariant *)

(** The logger is bound to the name generated from the base path, the
    time of the last rotation and the writer's layout. *)
Definition namedAfterLastRotation {S} (w : TimeRotatingWriter S) : Prop :=
  lumberjack.Filename (Logger w) =
  generateTimestampedFilename (baseFilename w) (lastRotationTime w)
    (currentTimeFormat w).

(** The fields of a writer no call of [Write] assigns: its options,
    layout and base path, and the size, age, backup and compression
    settings of its logger. *)
Definition settings {S} (w : TimeRotatingWriter S)
    : FileOptions * string * string * (Z * Z * Z * bool * bool) :=
  (options w, currentTimeFormat w, baseFilename w,
   (lumberjack.MaxSize (Logger w), lumberjack.MaxAge (Logger w),
    lumberjack.MaxBackups (Logger w), lumberjack.LocalTime (Logger w),
    lumberjack.Compress (Logger w))).

(** ** The variables [ConfigFromEnv] reads *)

Definition fileEnvKeys : list string :=
  ["LOG_FILE"; "LOG_FILE_MAX_SIZE"; "LOG_FILE_MAX_AGE"; "LOG_FILE_MAX_BACKUPS";
   "LOG_FILE_LOCAL_TIME"; "LOG_FILE_COMPRESS"; "LOG_FILE_CREATE_DIR";
   "LOG_FILE_ROTATION_MODE"; "LOG_FILE_TIME_INTERVAL"; "LOG_FILE_TIME_FORMAT"].

Definition envKeys : list string :=
  ["APP_ENV"; "GIN_MODE"; "LOG_LEVEL"; "LOG_ENCODING"; "LOG_OUTPUT_PATHS"]
  ++ fileEnvKeys.

(** What a numeric variable leaves in its field: the number
    [strconv.Atoi] reads from it, or [dflt] when it is unset, empty or
    does not parse. *)
Definition numberOr (environ : gmap string string) (Atoi : string -> option Z)
    (key : string) (dflt : Z) : Z :=
  if negb (String.eqb (Getenv environ key) "")
  then match Atoi (Getenv environ key) with Some n => n | None => dflt end
  else dflt.

(** ** [factory.go]

    [zap] and [zapcore] are external packages: the values their
    constructors build are represented by the constructor calls
    themselves. An encoder configuration is one of zap's two presets
    together with the fields the code assigns afterwards. *)

Module zapcore.

Definition Level := Z.
Definition InfoLevel : Level := 0.
Definition ErrorLevel : Level := 2.

Inductive Preset := ProductionEncoderConfig | DevelopmentEncoderConfig.
Inductive LevelEncoder := CapitalColorLevelEncoder.
Inductive TimeEncoder := ISO8601TimeEncoder.

(** [None] in a field: as the preset has it. *)
Record EncoderConfig := mkEncoderConfig {
  preset : Preset;
  EncodeLevel : option LevelEncoder;
  TimeKey : option string;
  EncodeTime : option TimeEncoder
}.

Inductive Encoder :=
| NewJSONEncoder (cfg : EncoderConfig)
| NewConsoleEncoder (cfg : EncoderConfig).

End zapcore.

Section Factory.

Context {S : Type} `{!lumberjack.Sink S}.

(** What [fileWriter] is assigned. *)
Inductive FileWriter :=
| TimeWriter (w : TimeRotatingWriter S)
| SizeWriter (l : lumberjack.Logger S).

#[warnings="-register-all"]
Inductive WriteSyncer :=
| AddSyncStdout
| AddSyncFile (fw : FileWriter)
| NewMultiWriteSyncer (ws : list WriteSyncer).

Record Core := NewCore {
  enc : zapcore.Encoder;
  ws : WriteSyncer;
  enab : zapcore.Level
}.

Inductive Option := AddCaller | AddStacktrace (lvl : zapcore.Level).

(** [&ZapLogger{logger: zap.New(core, options...)}] *)
Record ZapLogger := mkZapLogger { core : Core; zapOptions : list Option }.

(** The outside world of [NewLogger]: [zapcore.ParseLevel] ([None] for
    an error), the outcome of [os.MkdirAll] on a directory and mode in
    the current file system, the machine's location and the clock. *)
Variable ParseLevel : string -> option zapcore.Level.
Variable MkdirAll : string -> Z -> option error.
Variable local : time.Location.
Variable clock : time.Time.

Definition NewLogger (config : Config) : option ZapLogger * option error :=
  let level :=
    match ParseLevel (Level config) with
    | Some l => l
    | None => zapcore.InfoLevel
    end in
  let '(encoderConfig, config) :=
    if String.eqb (Environment config) "production" then
      (zapcore.mkEncoderConfig zapcore.ProductionEncoderConfig None None None,
       setEncoding config "json")
    else
      (zapcore.mkEncoderConfig zapcore.DevelopmentEncoderConfig
         (Some zapcore.CapitalColorLevelEncoder) None None,
       config) in
  let encoderConfig :=
    zapcore.mkEncoderConfig (zapcore.preset encoderConfig)
      (zapcore.EncodeLevel encoderConfig) (Some "timestamp")
      (Some zapcore.ISO8601TimeEncoder) in
  let encoder :=
    if String.eqb (Encoding config) "json"
    then zapcore.NewJSONEncoder encoderConfig
    else zapcore.NewConsoleEncoder encoderConfig in
  let finish (writeSyncer : WriteSyncer) :=
    (Some (mkZapLogger (NewCore encoder writeSyncer level)
             [AddCaller; AddStacktrace zapcore.ErrorLevel]),
     None) in
  let fo := FileOptions_ config in
  if negb (String.eqb (Filename fo) "") then
    match (if CreateDir fo then MkdirAll (filepath.Dir (Filename fo)) 493 else None) with
    | Some err => (None, Some err)
    | None =>
        let fileWriter :=
          if String.eqb (RotationMode_ fo) RotationModeTime
             || String.eqb (RotationMode_ fo) RotationModeBoth
          then TimeWriter (NewTimeRotatingWriter local clock fo)
          else SizeWriter
                 (lumberjack.mkLogger (Filename fo) (MaxSize fo) (MaxAge fo)
                    (MaxBackups fo) (LocalTime fo) (Compress fo) lumberjack.fresh) in
        let writeSyncer :=
          match OutputPaths config with
          | first :: _ =>
              if negb (String.eqb first "stdout") then AddSyncFile fileWriter
              else NewMultiWriteSyncer [AddSyncStdout; AddSyncFile fileWriter]
          | [] => NewMultiWriteSyncer [AddSyncStdout; AddSyncFile fileWriter]
          end in
        finish writeSyncer
    end
  else finish AddSyncStdout.

(** [Initialize], on the package variable [globalLogger] ([None] for
    the nil interface): the variable afterwards and the error. *)
Definition Initialize (config : Config) (globalLogger : option ZapLogger)
    : option ZapLogger * option error :=
  let '(logger, err) := NewLogger config in
  match err with
  | Some e => (globalLogger, Some e)
  | None => (logger, None)
  end.

Variable environ : gmap string string.
Variable ToLower : string -> string.

(** [GetLogger]: the variable afterwards and the logger returned. *)
Definition GetLogger (globalLogger : option ZapLogger)
    : option ZapLogger * option ZapLogger :=
  match globalLogger with
  | None =>
      let config := DefaultConfig in
      let config :=
        let env := Getenv environ "APP_ENV" in
        if negb (String.eqb env "") then setEnvironment config env else config in
      let config :=
        let level := Getenv environ "LOG_LEVEL" in
        if negb (String.eqb level "") then setLevel config (ToLower level)
        else config in
      let '(globalLogger, _) := Initialize config globalLogger in
      (globalLogger, globalLogger)
  | Some _ => (globalLogger, globalLogger)
  end.

End Factory.

Arguments FileWriter S : clear implicits.
Arguments WriteSyncer S : clear implicits.
Arguments Core S : clear implicits.
Arguments ZapLogger S : clear implicits.

(** ** [config_builder.go]: the builders used with the rotation core *)

Definition withFileOptions (c : Config) (f : FileOptions -> FileOptions) : Config :=
  setFileOptions c (f (FileOptions_ c)).

Definition WithOutputPaths (c : Config) (paths : list string) : Config :=
  setOutputPaths c paths.

Definition AddOutputPath (c : Config) (path : string) : Config :=
  setOutputPaths c (OutputPaths c ++ [path])%list.

Definition WithFileOutput (c : Config) (filename : string) : Config :=
  withFileOptions c (fun fo =>
    mkFileOptions filename (MaxSize fo) (MaxAge fo) (MaxBackups fo)
      (LocalTime fo) (Compress fo) (FileMode fo) (CreateDir fo)
      (RotationMode_ fo) (TimeRotationInterval_ fo) (TimeRotationFormat fo)).

Definition WithFileRotation (c : Config) (maxSize maxAge maxBackups : Z) : Config :=
  withFileOptions c (fun fo =>
    mkFileOptions (Filename fo) maxSize maxAge maxBackups
      (LocalTime fo) (Compress fo) (FileMode fo) (CreateDir fo)
      (RotationMode_ fo) (TimeRotationInterval_ fo) (TimeRotationFormat fo)).

Definition WithRotationMode (c : Config) (mode : RotationMode) : Config :=
  withFileOptions c (fun fo =>
    mkFileOptions (Filename fo) (MaxSize fo) (MaxAge fo) (MaxBackups fo)
      (LocalTime fo) (Compress fo) (FileMode fo) (CreateDir fo)
      mode (TimeRotationInterval_ fo) (TimeRotationFormat fo)).

Definition WithTimeRotation (c : Config) (interval : TimeRotationInterval) : Config :=
  withFileOptions c (fun fo =>
    mkFileOptions (Filename fo) (MaxSize fo) (MaxAge fo) (MaxBackups fo)
      (LocalTime fo) (Compress fo) (FileMode fo) (CreateDir fo)
      RotationModeTime interval (TimeRotationFormat fo)).

Definition WithTimeRotationFormat (c : Config) (format : string) : Config :=
  withFileOptions c (fun fo =>
    mkFileOptions (Filename fo) (MaxSize fo) (MaxAge fo) (MaxBackups fo)
      (LocalTime fo) (Compress fo) (FileMode fo) (CreateDir fo)
      (RotationMode_ fo) (TimeRotationInterval_ fo) format).

Definition WithBothRotation (c : Config) (maxSize maxAge maxBackups : Z)
    (interval : TimeRotationInterval) : Config :=
  withFileOptions c (fun fo =>
    mkFileOptions (Filename fo) maxSize maxAge maxBackups
      (LocalTime fo) (Compress fo) (FileMode fo) (CreateDir fo)
      RotationModeBoth interval (TimeRotationFormat fo)).

Definition WithHourlyRotation (c : Config) : Config := WithTimeRotation c RotationHourly.
Definition WithDailyRotation (c : Config) : Config := WithTimeRotation c RotationDaily.
Definition WithWeeklyRotation (c : Config) : Config := WithTimeRotation c RotationWeekly.
Definition WithMonthlyRotation (c : Config) : Config := WithTimeRotation c RotationMonthly.

(** [ProductionConfigWithFile] of [config.go]. *)
Definition ProductionConfig : Config :=
  setEncoding
    (setOutputPaths (setEnvironment (setLevel DefaultConfig LevelInfo) EnvProduction)
       ["stdout"])
    EncodingJSON.

Definition ProductionConfigWithFile (filename : string) : Config :=
  setOutputPaths (WithFileOutput ProductionConfig filename) ["file"].

(** Two writers that differ at most in the fields [Write] never reads
    (of the options, it reads [LocalTime] and [TimeRotationInterval]). *)
Definition sameRotationState {S} (w1 w2 : TimeRotatingWriter S) : Prop :=
  Logger w1 = Logger w2
  /\ currentTimeFormat w1 = currentTimeFormat w2
  /\ lastRotationTime w1 = lastRotationTime w2
  /\ baseFilename w1 = baseFilename w2
  /\ LocalTime (options w1) = LocalTime (options w2)
  /\ TimeRotationInterval_ (options w1) = TimeRotationInterval_ (options w2).

(** A [Config] with another interval and layout for time rotation and
    everything else as it is. *)
Definition withIntervalAndFormat (c : Config) (interval : TimeRotationInterval)
    (format : string) : Config :=
  withFileOptions c (fun fo =>
    mkFileOptions (Filename fo) (MaxSize fo) (MaxAge fo) (MaxBackups fo)
      (LocalTime fo) (Compress fo) (FileMode fo) (CreateDir fo)
      (RotationMode_ fo) interval format).

(** Sample surroundings for [NewLogger] and [ConfigFromEnv]: a level
    parser that knows the lower-case level names, a file system in
    which directories can or cannot be created, and a process
    environment. *)

Module Host.

Definition parseLevel (text : string) : option zapcore.Level :=
  if String.eqb text "debug" then Some (-1)
  else if String.eqb text "info" then Some 0
  else if String.eqb text "warn" then Some 1
  else if String.eqb text "error" then Some 2
  else None.

Definition mkdirOK : string -> Z -> option error := fun _ _ => None.

Definition mkdirDenied : string -> Z -> option error :=
  fun dir _ => Some ("mkdir " +:+ dir +:+ ": permission denied").

Definition fileConfig : Config :=
  WithDailyRotation (WithFileOutput DefaultConfig "/var/log/app.log").

Definition sizeConfig : Config := WithFileOutput DefaultConfig "/var/log/app.log".

Definition testEnviron : gmap string string :=
  {[ "APP_ENV" := "test"; "HOME" := "/root" ]}.

Definition homeEnviron : gmap string string := {[ "HOME" := "/root" ]}.

Definition sameString : string -> string := fun s => s.
Definition noSplit : string -> string -> list string := fun s _ => [s].
Definition noNumber : string -> option Z := fun _ => None.

End Host.

(** ** Cleaned paths *)

(** The path [Clean] writes for [ups] leading [..] elements followed
    by the elements [out] (last first), rooted or not. *)
Definition rendered (rooted : bool) (ups : nat) (out : list string) : string :=
  let body := Strings.Join (List.repeat ".." ups ++ List.rev out) "/" in
  if rooted then String filepath.Separator body
  else if String.eqb body "" then "." else body.

(** A path element that is kept as it is: not empty, not [.], not
    [..], and without separator. *)
Definition realElement (e : string) : Prop :=
  e <> "" /\ e <> "." /\ e <> ".." /\ Strings.hasByte filepath.Separator e = false.


(** * Properties *)

(** ** The rotation clock *)

Lemma ne_true (a b : Z) : ne a b = true <-> a <> b.
Proof.
  unfold ne. rewrite negb_true_iff. split; intros H.
  - apply Z.eqb_neq. exact H.
  - apply Z.eqb_neq. exact H.
Qed.

Create Rewrite HintDb clock.
#[local] Hint Rewrite orb_true_iff ne_true : clock.

(** The day arithmetic agrees with the calendar on 1970-01-01 ..
    2101-01-01: day 0 is 1970-01-01, a Thursday, and each day of the
    range is followed by the next date of the Gregorian calendar. *)
Lemma calendar_1970_2100 :
  time.civilFromDays 0 = (1970, 1, 1)
  /\ time.weekdayOfDays 0 = time.Thursday
  /\ time.civilFromDays 47847 = (2101, 1, 1)
  /\ time.calendarSteps (Z.to_nat 47847) 0 = true.
Proof. vm_compute. repeat split. Qed.

(** The four recognised cases of the [switch], unfolded. *)
Lemma shouldRotate_hourly (last now : time.Time) :
  shouldRotate RotationHourly last now =
  ne (time.Hour now) (time.Hour last) || ne (time.Day now) (time.Day last)
  || ne (time.Month now) (time.Month last) || ne (time.Year now) (time.Year last).
Proof. reflexivity. Qed.

Lemma shouldRotate_daily (last now : time.Time) :
  shouldRotate RotationDaily last now =
  ne (time.Day now) (time.Day last)
  || ne (time.Month now) (time.Month last) || ne (time.Year now) (time.Year last).
Proof. reflexivity. Qed.

Lemma shouldRotate_weekly (last now : time.Time) :
  shouldRotate RotationWeekly last now =
  ne (time.ISOWeek now).2 (time.ISOWeek last).2
  || ne (time.Year now) (time.Year last).
Proof.
  change (shouldRotate RotationWeekly last now)
    with (let '(_, thisWeek) := time.ISOWeek now in
          let '(_, lastWeek) := time.ISOWeek last in
          ne thisWeek lastWeek || ne (time.Year now) (time.Year last)).
  destruct (time.ISOWeek now), (time.ISOWeek last). reflexivity.
Qed.

Lemma shouldRotate_monthly (last now : time.Time) :
  shouldRotate RotationMonthly last now =
  ne (time.Month now) (time.Month last) || ne (time.Year now) (time.Year last).
Proof. reflexivity. Qed.

(** What the Weekly case decides: the ISO week number, and the
    calendar year of [time.Year]. *)
Lemma shouldRotate_weekly_iff (last now : time.Time) :
  shouldRotate RotationWeekly last now = true <->
  (time.ISOWeek now).2 <> (time.ISOWeek last).2 \/ time.Year now <> time.Year last.
Proof. rewrite shouldRotate_weekly. autorewrite with clock. reflexivity. Qed.

(** C8. Hourly rotates iff hour-of-day, day-of-month, month or year
    differ; Daily iff day-of-month, month or year differ; Monthly iff
    month or year differ; the Daily boundary 2024-01-01T23:59:59Z ->
    2024-01-02T00:00:00Z triggers and 2024-01-01T10:00:00Z ->
    2024-01-01T18:00:00Z does not. *)
Theorem shouldRotate_calendar_fields (last now : time.Time) :
  (shouldRotate RotationHourly last now = true <->
     time.Hour now <> time.Hour last \/ time.Day now <> time.Day last \/
     time.Month now <> time.Month last \/ time.Year now <> time.Year last)
  /\ (shouldRotate RotationDaily last now = true <->
        time.Day now <> time.Day last \/ time.Month now <> time.Month last \/
        time.Year now <> time.Year last)
  /\ (shouldRotate RotationMonthly last now = true <->
        time.Month now <> time.Month last \/ time.Year now <> time.Year last)
  /\ shouldRotate RotationDaily
       (time.Date 2024 1 1 23 59 59 0 time.utc)
       (time.Date 2024 1 2 0 0 0 0 time.utc) = true
  /\ shouldRotate RotationDaily
       (time.Date 2024 1 1 10 0 0 0 time.utc)
       (time.Date 2024 1 1 18 0 0 0 time.utc) = false.
Proof.
  split; [|split; [|split; [|split]]].
  - rewrite shouldRotate_hourly. autorewrite with clock. tauto.
  - rewrite shouldRotate_daily. autorewrite with clock. tauto.
  - rewrite shouldRotate_monthly. autorewrite with clock. tauto.
  - vm_compute. reflexivity.
  - vm_compute. reflexivity.
Qed.

(** ** One call of [Write] *)

Section WriteSteps.

Context {S : Type} `{!lumberjack.Sink S}.
Implicit Types (w : TimeRotatingWriter S) (p : list Byte.byte).

#[local] Arguments generateTimestampedFilename : simpl never.
#[local] Arguments adjust : simpl never.

Ltac run :=
  unfold Write, shouldRotateByTime, rotateByTime, LoggerClose, LoggerWrite,
    setLogger, setLastRotationTime, bind, get, ret; cbn [fst snd].

Lemma Write_same_bucket w local clock p :
  shouldRotate (interval w) (lastRotationTime w) (adjust (options w) local clock) = false ->
  Write local clock p w = LoggerWrite p w.
Proof.
  unfold interval. intros Hno. run. rewrite Hno.
  destruct (lumberjack.write (Logger w) p) as [s [n err]]. reflexivity.
Qed.

Lemma Write_close_error w local clock p s e :
  shouldRotate (interval w) (lastRotationTime w) (adjust (options w) local clock) = true ->
  lumberjack.close (Logger w) = (s, Some e) ->
  Write local clock p w =
    ((0, Some e),
     mkWriter (lumberjack.withImpl (Logger w) s) (options w) (currentTimeFormat w)
              (lastRotationTime w) (baseFilename w),
     [CallClose (lumberjack.Filename (Logger w)) (Some e)]).
Proof.
  unfold interval. intros Hrot Hclose. run. rewrite Hrot, Hclose. reflexivity.
Qed.

Lemma Write_rotates w local clock p s :
  shouldRotate (interval w) (lastRotationTime w) (adjust (options w) local clock) = true ->
  lumberjack.close (Logger w) = (s, None) ->
  Write local clock p w =
    let now := adjust (options w) local clock in
    let '(r, w', calls) := LoggerWrite p (rotated w now s) in
    (r, w', CallClose (lumberjack.Filename (Logger w)) None :: calls).
Proof.
  unfold interval. intros Hrot Hclose. run. rewrite Hrot, Hclose. cbn.
  unfold rotated. cbn.
  match goal with |- context [lumberjack.write ?l p] =>
    destruct (lumberjack.write l p) as [s' [n err]] end.
  reflexivity.
Qed.

(** [LoggerWrite] is one [Write] on the sink and touches nothing but
    the sink's own state. *)
Lemma LoggerWrite_frame w p :
  let '(r, w', calls) := LoggerWrite p w in
  lastRotationTime w' = lastRotationTime w
  /\ lumberjack.Filename (Logger w') = lumberjack.Filename (Logger w)
  /\ options w' = options w /\ currentTimeFormat w' = currentTimeFormat w
  /\ baseFilename w' = baseFilename w
  /\ calls = [CallWrite (lumberjack.Filename (Logger w)) p r.1 r.2].
Proof.
  unfold LoggerWrite.
  destruct (lumberjack.write (Logger w) p) as [s [n err]]. cbn. tauto.
Qed.

End WriteSteps.

(** ** Runs of [Write] *)

Section WriteRuns.

Context {S : Type} `{!lumberjack.Sink S}.
Implicit Types (w : TimeRotatingWriter S) (p : list Byte.byte).

#[local] Arguments generateTimestampedFilename : simpl never.
#[local] Arguments adjust : simpl never.

Lemma rotations_app (c1 c2 : list SinkCall) :
  rotations (c1 ++ c2) = (rotations c1 + rotations c2)%nat.
Proof. unfold rotations. rewrite filter_app, length_app. reflexivity. Qed.

Lemma segments_app (c1 c2 : list SinkCall) :
  segments (c1 ++ c2) = (segments c1 ++ segments c2)%list.
Proof. unfold segments. apply omap_app. Qed.

Lemma WriteAll_cons local clock p rest w :
  WriteAll local ((clock, p) :: rest) w =
    let '(r, w1, c1) := Write local clock p w in
    let '(rs, w2, c2) := WriteAll local rest w1 in
    (r :: rs, w2, (c1 ++ c2)%list).
Proof.
  cbn [WriteAll]. unfold bind at 1.
  destruct (Write local clock p w) as [[r w1] c1].
  unfold bind, ret.
  destruct (WriteAll local rest w1) as [[rs w2] c2].
  rewrite app_nil_r. reflexivity.
Qed.

(** As long as the clock stays in the bucket of [lastRotationTime],
    a run of writes never closes the sink: every payload goes to the
    file the logger is bound to and the writer's own fields stay. *)
Lemma WriteAll_same_bucket local rest : forall w,
  Forall (fun cp => shouldRotate (interval w) (lastRotationTime w)
                      (adjust (options w) local cp.1) = false) rest ->
  let '(rs, w', calls) := WriteAll local rest w in
  rotations calls = 0%nat
  /\ segments calls = replicate (length rest) (lumberjack.Filename (Logger w))
  /\ Forall (fun c => isWrite c = true) calls
  /\ lastRotationTime w' = lastRotationTime w
  /\ lumberjack.Filename (Logger w') = lumberjack.Filename (Logger w)
  /\ options w' = options w.
Proof.
  induction rest as [|[clock p] rest IH]; intros w Hall.
  - cbn. repeat split; constructor.
  - apply Forall_cons in Hall as [Hhd Htl]. cbn [fst] in Hhd.
    rewrite WriteAll_cons, (Write_same_bucket _ _ _ _ Hhd).
    pose proof (LoggerWrite_frame w p) as Hfr.
    destruct (LoggerWrite p w) as [[r w1] c1].
    destruct Hfr as (Hlast & Hname & Hopt & _ & _ & Hc1).
    specialize (IH w1).
    unfold interval in IH, Htl. rewrite Hlast, Hname, Hopt in IH.
    specialize (IH Htl).
    destruct (WriteAll local rest w1) as [[rs w2] c2].
    destruct IH as (Hrot & Hseg & Hwr & Hlast2 & Hname2 & Hopt2).
    subst c1. rewrite rotations_app, segments_app, Hrot, Hseg.
    cbn. repeat split; auto.
Qed.

End WriteRuns.

(** ** Failures during rotation *)

Section Failures.

Context {S : Type} `{!lumberjack.Sink S}.
Implicit Types (w : TimeRotatingWriter S) (p : list Byte.byte).

#[local] Arguments generateTimestampedFilename : simpl never.
#[local] Arguments adjust : simpl never.

(** C2. When the rotation check fires and closing the active sink
    fails with [e], [Write] returns [(0, e)], makes no [Write] call on
    the sink (its only call is the failed [Close]), and leaves
    [lastRotationTime] and the file name the logger is bound to as
    they were. *)
Theorem close_failure_aborts_write w local clock p e :
  shouldRotate (interval w) (lastRotationTime w) (adjust (options w) local clock) = true ->
  (lumberjack.close (Logger w)).2 = Some e ->
  let '(r, w', calls) := Write local clock p w in
  r = (0, Some e)
  /\ calls = [CallClose (lumberjack.Filename (Logger w)) (Some e)]
  /\ segments calls = []
  /\ lastRotationTime w' = lastRotationTime w
  /\ lumberjack.Filename (Logger w') = lumberjack.Filename (Logger w)
  /\ lumberjack.impl (Logger w') = (lumberjack.close (Logger w)).1.
Proof.
  intros Hrot Hclose.
  destruct (lumberjack.close (Logger w)) as [s cerr] eqn:Hc.
  cbn in Hclose. subst cerr.
  rewrite (Write_close_error _ _ _ _ _ _ Hrot Hc). cbn. tauto.
Qed.

(** C3, as the code has it. When the rotation check fires, the close
    of the active sink decides alone: if it fails, [Write] returns its
    error and [lastRotationTime] and the bound file name are kept, so
    the next call tries the rotation again; if it succeeds, the logger
    is bound to the new name and [lastRotationTime] is set to [now]
    before the payload is handed to the sink, whatever that delegated
    write then returns. Rotation opens nothing itself. *)
Theorem rotation_advances_after_close w local clock p :
  let now := adjust (options w) local clock in
  shouldRotate (interval w) (lastRotationTime w) now = true ->
  let '(s, cerr) := lumberjack.close (Logger w) in
  let '(r, w', calls) := Write local clock p w in
  match cerr with
  | Some e =>
      r = (0, Some e)
      /\ lastRotationTime w' = lastRotationTime w
      /\ lumberjack.Filename (Logger w') = lumberjack.Filename (Logger w)
      /\ calls = [CallClose (lumberjack.Filename (Logger w)) (Some e)]
  | None =>
      let newFilename :=
        generateTimestampedFilename (baseFilename w) now (currentTimeFormat w) in
      lastRotationTime w' = now
      /\ lumberjack.Filename (Logger w') = newFilename
      /\ r = (lumberjack.write (Logger (rotated w now s)) p).2
      /\ calls = [CallClose (lumberjack.Filename (Logger w)) None;
                  CallWrite newFilename p r.1 r.2]
  end.
Proof.
  intros now Hrot.
  destruct (lumberjack.close (Logger w)) as [s [e|]] eqn:Hc.
  - rewrite (Write_close_error _ _ _ _ _ _ Hrot Hc). cbn. tauto.
  - rewrite (Write_rotates _ _ _ _ _ Hrot Hc). cbn zeta. fold now.
    pose proof (LoggerWrite_frame (rotated w now s) p) as Hfr.
    unfold LoggerWrite in *.
    destruct (lumberjack.write (Logger (rotated w now s)) p) as [s' [n err]].
    cbn in *. destruct Hfr as (Hlast & Hname & _ & _ & _ & _).
    repeat split.
Qed.

(** X25. In terms of the rotation check itself: a call of [Write]
    rotates at most once, however far the clock has moved since
    [lastRotationTime]. In a run of successful calls whose first one
    makes [shouldRotate] fire against [lastRotationTime] and whose
    later ones do not make it fire against that first call's time, the
    first call performs one rotation and the later ones none: one
    rotation in all, and every payload of the run goes to the one
    segment named after the first call's time. *)
Theorem one_rotation_per_crossing w local clock p rest :
  let now := adjust (options w) local clock in
  shouldRotate (interval w) (lastRotationTime w) now = true ->
  Forall (fun cp => shouldRotate (interval w) now
                      (adjust (options w) local cp.1) = false) rest ->
  Forall (fun r => r.2 = None) (WriteAll local ((clock, p) :: rest) w).1.1 ->
  (rotations (Write local clock p w).2 <= 1)%nat
  /\ rotations (Write local clock p w).2 = 1%nat
  /\ rotations (WriteAll local rest (Write local clock p w).1.2).2 = 0%nat
  /\ rotations (WriteAll local ((clock, p) :: rest) w).2 = 1%nat
  /\ segments (WriteAll local ((clock, p) :: rest) w).2 =
       replicate (Datatypes.S (length rest))
         (generateTimestampedFilename (baseFilename w) now (currentTimeFormat w))
  /\ lastRotationTime (WriteAll local ((clock, p) :: rest) w).1.2 = now.
Proof.
  intros now Hrot Hrest Hok.
  rewrite WriteAll_cons in *.
  destruct (lumberjack.close (Logger w)) as [s [e|]] eqn:Hc.
  { rewrite (Write_close_error _ _ _ _ _ _ Hrot Hc) in Hok.
    destruct (WriteAll local rest _) as [[rs w2] c2]. cbn in Hok.
    apply Forall_cons in Hok as [Hbad _]. discriminate Hbad. }
  rewrite (Write_rotates _ _ _ _ _ Hrot Hc) in *. cbn zeta in *. fold now in Hok |- *.
  pose proof (LoggerWrite_frame (rotated w now s) p) as Hfr.
  destruct (LoggerWrite p (rotated w now s)) as [[r w1] c1].
  destruct Hfr as (Hlast & Hname & Hopt & _ & _ & Hc1). cbn in Hlast, Hname, Hopt.
  cbn [fst snd] in Hok |- *.
  pose proof (WriteAll_same_bucket local rest w1) as Hrun.
  unfold interval in Hrun, Hrest. rewrite Hlast, Hname, Hopt in Hrun.
  specialize (Hrun Hrest).
  destruct (WriteAll local rest w1) as [[rs w2] c2].
  destruct Hrun as (Hrot2 & Hseg2 & _ & Hlast2 & _ & _).
  subst c1. cbn [fst snd].
  change (CallClose (lumberjack.Filename (Logger w)) None
            :: [CallWrite (lumberjack.Filename (Logger (rotated w now s))) p r.1 r.2])
    with ([CallClose (lumberjack.Filename (Logger w)) None;
           CallWrite (lumberjack.Filename (Logger (rotated w now s))) p r.1 r.2]).
  rewrite rotations_app, segments_app, Hrot2, Hseg2.
  cbn. repeat split; auto.
Qed.

(** C10. For an interval outside hourly, daily, weekly and monthly (the
    empty one included), [shouldRotate] is false for every pair of
    times, and no run of writes ever closes or rebinds the sink: no
    rotation is performed, every payload goes to the file the logger
    was bound to, and [lastRotationTime] stays. *)
Theorem unknown_interval_never_rotates w local calls :
  interval w <> RotationHourly -> interval w <> RotationDaily ->
  interval w <> RotationWeekly -> interval w <> RotationMonthly ->
  (forall last now, shouldRotate (interval w) last now = false)
  /\ rotations (WriteAll local calls w).2 = 0%nat
  /\ Forall (fun c => isWrite c = true) (WriteAll local calls w).2
  /\ segments (WriteAll local calls w).2 =
       replicate (length calls) (lumberjack.Filename (Logger w))
  /\ lastRotationTime (WriteAll local calls w).1.2 = lastRotationTime w
  /\ lumberjack.Filename (Logger (WriteAll local calls w).1.2) =
       lumberjack.Filename (Logger w).
Proof.
  intros Hh Hd Hw Hm.
  assert (Hnever : forall last now, shouldRotate (interval w) last now = false).
  { intros last now. unfold shouldRotate.
    apply String.eqb_neq in Hh, Hd, Hw, Hm. rewrite Hh, Hd, Hw, Hm. reflexivity. }
  split; [exact Hnever|].
  pose proof (WriteAll_same_bucket local calls w) as Hrun.
  assert (Hall : Forall (fun cp => shouldRotate (interval w) (lastRotationTime w)
                           (adjust (options w) local cp.1) = false) calls).
  { apply Forall_forall. intros cp _. apply Hnever. }
  specialize (Hrun Hall).
  destruct (WriteAll local calls w) as [[rs w'] tr].
  cbn. tauto.
Qed.

End Failures.

(** ** The failure and run theorems on the sample writers *)

(** The Daily writer at the 2024-01-01 / 2024-01-02 boundary, its
    [Close] failing. *)
Lemma close_failure_aborts_write_witness :
  shouldRotate (interval Sample.closeFails) (lastRotationTime Sample.closeFails)
    (adjust (options Sample.closeFails) time.UTCLoc Sample.jan2) = true
  /\ (lumberjack.close (Logger Sample.closeFails)).2 =
       Some "close /var/log/app-2024-01-01.log: input/output error"
  /\ let '(r, w', calls) :=
       Write time.UTCLoc Sample.jan2 Sample.payload Sample.closeFails in
     r = (0, Some "close /var/log/app-2024-01-01.log: input/output error")
     /\ calls = [CallClose (lumberjack.Filename (Logger Sample.closeFails))
                   (Some "close /var/log/app-2024-01-01.log: input/output error")]
     /\ segments calls = []
     /\ lastRotationTime w' = lastRotationTime Sample.closeFails
     /\ lumberjack.Filename (Logger w') =
          lumberjack.Filename (Logger Sample.closeFails)
     /\ lumberjack.impl (Logger w') =
          (lumberjack.close (Logger Sample.closeFails)).1.
Proof.
  split; [vm_compute; reflexivity|].
  split; [vm_compute; reflexivity|].
  apply (close_failure_aborts_write Sample.closeFails time.UTCLoc Sample.jan2
           Sample.payload "close /var/log/app-2024-01-01.log: input/output error");
    vm_compute; reflexivity.
Defined.

(** The same boundary with a sink that closes but cannot open the next
    segment: the rotation check fires, [Write] returns the sink's
    error, and [lastRotationTime] has moved from 2024-01-01T23:59:59Z
    to 2024-01-02T00:00:00Z. *)
Lemma open_failure_after_rotation :
  let '(r, w', calls) :=
    Write time.UTCLoc Sample.jan2 Sample.payload Sample.openFails in
  shouldRotate (interval Sample.openFails) (lastRotationTime Sample.openFails)
    (adjust (options Sample.openFails) time.UTCLoc Sample.jan2) = true
  /\ r = (0, Some "can't open new logfile: /var/log/app-2024-01-02.log")
  /\ calls = [CallClose "/var/log/app-2024-01-01.log" None;
              CallWrite "/var/log/app-2024-01-02.log" Sample.payload 0
                (Some "can't open new logfile: /var/log/app-2024-01-02.log")]
  /\ lastRotationTime Sample.openFails = Sample.jan1
  /\ lastRotationTime w' = Sample.jan2
  /\ lastRotationTime w' <> lastRotationTime Sample.openFails.
Proof.
  vm_compute. repeat split; discriminate.
Qed.

Lemma rotation_advances_after_close_witness :
  shouldRotate (interval Sample.openFails) (lastRotationTime Sample.openFails)
    (adjust (options Sample.openFails) time.UTCLoc Sample.jan2) = true
  /\ let now := adjust (options Sample.openFails) time.UTCLoc Sample.jan2 in
     let '(s, cerr) := lumberjack.close (Logger Sample.openFails) in
     let '(r, w', calls) :=
       Write time.UTCLoc Sample.jan2 Sample.payload Sample.openFails in
     match cerr with
     | Some e =>
         r = (0, Some e)
         /\ lastRotationTime w' = lastRotationTime Sample.openFails
         /\ lumberjack.Filename (Logger w') =
              lumberjack.Filename (Logger Sample.openFails)
         /\ calls = [CallClose (lumberjack.Filename (Logger Sample.openFails)) (Some e)]
     | None =>
         let newFilename :=
           generateTimestampedFilename (baseFilename Sample.openFails) now
             (currentTimeFormat Sample.openFails) in
         lastRotationTime w' = now
         /\ lumberjack.Filename (Logger w') = newFilename
         /\ r = (lumberjack.write (Logger (rotated Sample.openFails now s))
                   Sample.payload).2
         /\ calls = [CallClose (lumberjack.Filename (Logger Sample.openFails)) None;
                     CallWrite newFilename Sample.payload r.1 r.2]
     end.
Proof.
  split; [vm_compute; reflexivity|].
  apply (rotation_advances_after_close Sample.openFails time.UTCLoc Sample.jan2
           Sample.payload).
  vm_compute; reflexivity.
Defined.

(** A writer idle since 2024-01-01 that is written to twice on
    2024-01-03: two day boundaries were missed, one rotation is made,
    and no segment for 2024-01-02 appears. *)
Lemma one_rotation_per_crossing_witness :
  let w := Sample.healthy in
  let rest := [(Sample.jan3', Sample.payload)] in
  let now := adjust (options w) time.UTCLoc Sample.jan3 in
  shouldRotate (interval w) (lastRotationTime w) now = true
  /\ Forall (fun cp => shouldRotate (interval w) now
                         (adjust (options w) time.UTCLoc cp.1) = false) rest
  /\ Forall (fun r => r.2 = None)
       (WriteAll time.UTCLoc ((Sample.jan3, Sample.payload) :: rest) w).1.1
  /\ ((rotations (Write time.UTCLoc Sample.jan3 Sample.payload w).2 <= 1)%nat
      /\ rotations (Write time.UTCLoc Sample.jan3 Sample.payload w).2 = 1%nat
      /\ rotations (WriteAll time.UTCLoc rest
                      (Write time.UTCLoc Sample.jan3 Sample.payload w).1.2).2 = 0%nat
      /\ rotations (WriteAll time.UTCLoc ((Sample.jan3, Sample.payload) :: rest) w).2
         = 1%nat
      /\ segments (WriteAll time.UTCLoc ((Sample.jan3, Sample.payload) :: rest) w).2 =
           replicate (Datatypes.S (length rest))
             (generateTimestampedFilename (baseFilename w) now (currentTimeFormat w))
      /\ lastRotationTime
           (WriteAll time.UTCLoc ((Sample.jan3, Sample.payload) :: rest) w).1.2 = now).
Proof.
  intros w rest now.
  assert (H1 : shouldRotate (interval w) (lastRotationTime w) now = true)
    by (vm_compute; reflexivity).
  assert (H2 : Forall (fun cp => shouldRotate (interval w) now
                         (adjust (options w) time.UTCLoc cp.1) = false) rest)
    by (repeat constructor).
  assert (H3 : Forall (fun r => r.2 = None)
       (WriteAll time.UTCLoc ((Sample.jan3, Sample.payload) :: rest) w).1.1)
    by (vm_compute; repeat constructor).
  split; [exact H1|]. split; [exact H2|]. split; [exact H3|].
  exact (one_rotation_per_crossing w time.UTCLoc Sample.jan3 Sample.payload rest
           H1 H2 H3).
Defined.

(** A writer configured with the interval [yearly]. *)
Lemma unknown_interval_never_rotates_witness :
  let w := Sample.yearly in
  let calls := [(Sample.jan3, Sample.payload); (Sample.jan3', Sample.payload)] in
  interval w <> RotationHourly /\ interval w <> RotationDaily
  /\ interval w <> RotationWeekly /\ interval w <> RotationMonthly
  /\ ((forall last now, shouldRotate (interval w) last now = false)
      /\ rotations (WriteAll time.UTCLoc calls w).2 = 0%nat
      /\ Forall (fun c => isWrite c = true) (WriteAll time.UTCLoc calls w).2
      /\ segments (WriteAll time.UTCLoc calls w).2 =
           replicate (length calls) (lumberjack.Filename (Logger w))
      /\ lastRotationTime (WriteAll time.UTCLoc calls w).1.2 = lastRotationTime w
      /\ lumberjack.Filename (Logger (WriteAll time.UTCLoc calls w).1.2) =
           lumberjack.Filename (Logger w)).
Proof.
  intros w calls.
  assert (Hh : interval w <> RotationHourly) by (vm_compute; discriminate).
  assert (Hd : interval w <> RotationDaily) by (vm_compute; discriminate).
  assert (Hw : interval w <> RotationWeekly) by (vm_compute; discriminate).
  assert (Hm : interval w <> RotationMonthly) by (vm_compute; discriminate).
  repeat (split; [assumption|]).
  exact (unknown_interval_never_rotates w time.UTCLoc calls Hh Hd Hw Hm).
Defined.

(** ** Layouts and formatting *)

Section Layouts.

Import time.

Lemma cut_length (p : string) : forall s r,
  cut p s = Some r -> String.length s = (String.length p + String.length r)%nat.
Proof.
  induction p as [|a p IH]; intros s r H.
  - cbn in H. injection H as <-. reflexivity.
  - destruct s as [|b s]; [discriminate|]. cbn in H.
    destruct (Ascii.eqb a b); [|discriminate].
    cbn. rewrite (IH _ _ H). reflexivity.
Qed.

Lemma skipRun_length (ch : ascii) : forall s,
  (String.length (skipRun ch s).2 <= String.length s)%nat.
Proof.
  induction s as [|c s IH]; cbn; [lia|].
  destruct (Ascii.eqb c ch); cbn; [|lia].
  destruct (skipRun ch s) as [n r]. cbn in *. lia.
Qed.

Lemma tryCut_shorter (p : string) (std : Std) (s : string) pre sd suf :
  tryCut p std s = Some (pre, sd, suf) ->
  (0 < String.length p)%nat -> (String.length suf < String.length s)%nat.
Proof.
  unfold tryCut. destruct (cut p s) as [r|] eqn:Hc; [|discriminate].
  intros H Hp. injection H as _ _ <-. apply cut_length in Hc. lia.
Qed.

Ltac shorter :=
  repeat match goal with
    | H : Some _ = Some _ |- _ => injection H as H; subst
    | H : (_, _) = (_, _) |- _ => injection H as H; subst
    | H : None = Some _ |- _ => discriminate H
    | H : skipRun ?ch ?s = (_, _) |- _ =>
        let Hl := fresh "Hl" in
        pose proof (skipRun_length ch s) as Hl; rewrite H in Hl; cbn in Hl; clear H
    | H : tryCut _ _ _ = Some _ |- _ => apply tryCut_shorter in H; [|cbn; lia]
    | H : cut _ _ = Some _ |- _ => apply cut_length in H; cbn in H
    | H : context [firstOf _] |- _ => cbn [firstOf] in H
    | H : match ?x with _ => _ end = Some _ |- _ => destruct x eqn:?
    | H : (if ?b then _ else _) = Some _ |- _ => destruct b eqn:?
    end.

(** A chunk consumes at least one byte of the layout. *)
Lemma stdAt_shorter (layout pre : string) (sd : Std) (suf : string) :
  stdAt layout = Some (pre, sd, suf) ->
  (String.length suf < String.length layout)%nat.
Proof.
  destruct layout as [|c rest]; [discriminate|].
  unfold stdAt. intros H.
  repeat match type of H with
    | (if ?b then _ else _) = Some _ => destruct b eqn:?
    end; shorter; cbn [String.length] in *; lia.
Qed.

Lemma nextStdChunk_shorter : forall layout p sd suf,
  nextStdChunk layout = (p, Some sd, suf) ->
  (String.length suf < String.length layout)%nat.
Proof.
  induction layout as [|c rest IH]; intros p sd suf H.
  - discriminate.
  - cbn [nextStdChunk] in H.
    destruct (stdAt (String c rest)) as [[[pre sd'] suf']|] eqn:Hat.
    + injection H as _ _ <-. eapply stdAt_shorter; eauto.
    + destruct (nextStdChunk rest) as [[p' sd'] suf'] eqn:Hn.
      injection H as _ -> ->. specialize (IH _ _ _ eq_refl). cbn. lia.
Qed.

(** The loop of [appendFormat] ends within [length layout] iterations:
    more fuel changes nothing. *)
Lemma appendFormat_fuel (t : Time) : forall fuel layout,
  (String.length layout <= fuel)%nat ->
  appendFormat fuel t layout = Format t layout.
Proof.
  unfold Format.
  induction fuel as [fuel IH] using lt_wf_ind. intros layout Hlen.
  destruct layout as [|c rest]; [destruct fuel; reflexivity|].
  destruct fuel as [|fuel]; [cbn in Hlen; lia|].
  cbn [String.length appendFormat].
  destruct (nextStdChunk (String c rest)) as [[p [sd|]] suf] eqn:Hn; [|reflexivity].
  apply nextStdChunk_shorter in Hn. cbn in Hn, Hlen.
  rewrite (IH fuel) by lia.
  rewrite (IH (String.length rest)) by lia.
  reflexivity.
Qed.

End Layouts.

(** ** Default formats *)

Section DefaultFormats.

Context {S : Type} `{!lumberjack.Sink S}.

Lemma append_empty_r (s : string) : s +:+ "" = s.
Proof. induction s as [|c s IH]; cbn; [reflexivity|]. unfold String.append in *. fold String.append in *. rewrite IH. reflexivity. Qed.

(** What the four layouts of [NewTimeRotatingWriter] render. *)
Lemma Format_hourly (t : time.Time) :
  time.Format t "2006-01-02-15" =
  time.appendInt (time.Year t) 4 +:+ "-" +:+ time.appendInt (time.Month t) 2
    +:+ "-" +:+ time.appendInt (time.Day t) 2
    +:+ "-" +:+ time.appendInt (time.Hour t) 2.
Proof.
  rewrite <- (append_empty_r (time.appendInt (time.Hour t) 2)). reflexivity.
Qed.

Lemma Format_daily (t : time.Time) :
  time.Format t "2006-01-02" =
  time.appendInt (time.Year t) 4 +:+ "-" +:+ time.appendInt (time.Month t) 2
    +:+ "-" +:+ time.appendInt (time.Day t) 2.
Proof.
  rewrite <- (append_empty_r (time.appendInt (time.Day t) 2)). reflexivity.
Qed.

Lemma Format_weekly (t : time.Time) :
  time.Format t "2006-W01" =
  time.appendInt (time.Year t) 4 +:+ "-W" +:+ time.appendInt (time.Month t) 2.
Proof.
  rewrite <- (append_empty_r (time.appendInt (time.Month t) 2)). reflexivity.
Qed.

Lemma Format_monthly (t : time.Time) :
  time.Format t "2006-01" =
  time.appendInt (time.Year t) 4 +:+ "-" +:+ time.appendInt (time.Month t) 2.
Proof.
  rewrite <- (append_empty_r (time.appendInt (time.Month t) 2)). reflexivity.
Qed.

(** The layout [NewTimeRotatingWriter] picks when none is configured. *)
Lemma default_format (local : time.Location) (clock : time.Time) (o : FileOptions) :
  TimeRotationFormat o = "" ->
  currentTimeFormat (NewTimeRotatingWriter (S := S) local clock o) =
    if String.eqb (TimeRotationInterval_ o) RotationHourly then "2006-01-02-15"
    else if String.eqb (TimeRotationInterval_ o) RotationDaily then "2006-01-02"
    else if String.eqb (TimeRotationInterval_ o) RotationWeekly then "2006-W01"
    else if String.eqb (TimeRotationInterval_ o) RotationMonthly then "2006-01"
    else "2006-01-02".
Proof. intros Hfmt. unfold NewTimeRotatingWriter. cbn. rewrite Hfmt. reflexivity. Qed.

End DefaultFormats.

(** ** Weekly rotation on concrete dates *)

(** C1, the code at the specification's example dates. 2024-12-30 and 2025-01-02
    both lie in ISO week 2025-W01, and [shouldRotate] is true for them:
    the year compared is the calendar year of [time.Year], not the ISO
    year that [ISOWeek] returns. 2022-01-01 (ISO 2021-W52) and
    2022-12-31 (ISO 2022-W52) lie in different ISO weeks, 52 weeks
    apart, and [shouldRotate] is false for them. *)
Theorem weekly_compares_calendar_year :
  let dec30 := time.Date 2024 12 30 9 0 0 0 time.utc in
  let jan02 := time.Date 2025 1 2 9 0 0 0 time.utc in
  let jan01 := time.Date 2022 1 1 9 0 0 0 time.utc in
  let dec31 := time.Date 2022 12 31 9 0 0 0 time.utc in
  (time.ISOWeek dec30 = (2025, 1) /\ time.ISOWeek jan02 = (2025, 1)
   /\ time.Year dec30 = 2024 /\ time.Year jan02 = 2025
   /\ shouldRotate RotationWeekly dec30 jan02 = true)
  /\ (time.ISOWeek jan01 = (2021, 52) /\ time.ISOWeek dec31 = (2022, 52)
      /\ time.Year jan01 = 2022 /\ time.Year dec31 = 2022
      /\ shouldRotate RotationWeekly jan01 dec31 = false).
Proof. vm_compute. repeat split. Qed.

(** C7, the code on two Weekly runs of successful writes. A writer
    built on 2022-01-01 (ISO week 2021-W52) and written to twice on
    2022-12-31 (ISO week 2022-W52) performs no rotation, although 52
    week boundaries lie between: both payloads go to the segment of
    2022-01-01. A writer built on 2024-12-30 and written to that day
    and on 2025-01-02, all in ISO week 2025-W01, rotates at the second
    write, which lies in the bucket of the first. Both follow from the
    Weekly check pairing the ISO week number with the calendar year, as
    in [shouldRotate_weekly_iff]. *)
Theorem weekly_run_rotations :
  let payload := Sample.payload in
  (let w := WeeklySample.writerAt WeeklySample.jan01_2022 in
   let run := WriteAll time.UTCLoc
                [(WeeklySample.dec31_2022, payload);
                 (WeeklySample.dec31_2022', payload)] w in
   interval w = RotationWeekly
   /\ time.ISOWeek (lastRotationTime w) = (2021, 52)
   /\ time.ISOWeek WeeklySample.dec31_2022 = (2022, 52)
   /\ time.ISOWeek WeeklySample.dec31_2022' = (2022, 52)
   /\ run.1.1 = [(3, None); (3, None)]
   /\ rotations run.2 = 0%nat
   /\ segments run.2 = ["/var/log/app-2022-W01.log"; "/var/log/app-2022-W01.log"]
   /\ lastRotationTime run.1.2 = WeeklySample.jan01_2022)
  /\ (let w := WeeklySample.writerAt WeeklySample.dec30_2024 in
      let run := WriteAll time.UTCLoc
                   [(WeeklySample.dec30_2024', payload);
                    (WeeklySample.jan02_2025, payload)] w in
      interval w = RotationWeekly
      /\ time.ISOWeek (lastRotationTime w) = (2025, 1)
      /\ time.ISOWeek WeeklySample.dec30_2024' = (2025, 1)
      /\ time.ISOWeek WeeklySample.jan02_2025 = (2025, 1)
      /\ run.1.1 = [(3, None); (3, None)]
      /\ rotations run.2 = 1%nat
      /\ run.2 = [CallWrite "/var/log/app-2024-W12.log" payload 3 None;
                  CallClose "/var/log/app-2024-W12.log" None;
                  CallWrite "/var/log/app-2025-W01.log" payload 3 None]
      /\ lastRotationTime run.1.2 = WeeklySample.jan02_2025).
Proof. vm_compute. repeat split. Qed.

(** C4, the code on 2024-03-05, a day of ISO week 10: the layout chosen
    for Weekly is [2006-W01], in which [01] is the month, so the
    timestamp rendered is [2024-W03] and the first segment is named
    after it; this holds for every time. The Hourly, Daily and Monthly
    layouts render year, month, day and hour as [Format_hourly],
    [Format_daily] and [Format_monthly] state. *)
Theorem weekly_format_renders_month :
  (forall t : time.Time,
     time.Format t "2006-W01" =
     time.appendInt (time.Year t) 4 +:+ "-W" +:+ time.appendInt (time.Month t) 2)
  /\ let t := time.Date 2024 3 5 13 4 5 0 time.utc in
     let w := NewTimeRotatingWriter (S := MemSink.Mem) time.UTCLoc t
                Sample.weeklyOptions in
     currentTimeFormat w = "2006-W01"
     /\ time.ISOWeek t = (2024, 10)
     /\ time.Month t = 3
     /\ time.Format t (currentTimeFormat w) = "2024-W03"
     /\ lumberjack.Filename (Logger w) = "/var/log/app-2024-W03.log".
Proof.
  split; [exact Format_weekly|]. vm_compute. repeat split.
Qed.

(** ** Same bucket, same file name *)

Lemma ne_false (a b : Z) : ne a b = false -> a = b.
Proof. unfold ne. rewrite negb_false_iff. apply Z.eqb_eq. Qed.

(** For Hourly, Daily and Monthly with their default layouts, two
    times between which [shouldRotate] is false get the same path. *)
Lemma same_bucket_same_filename (base : string) (t1 t2 : time.Time) :
  (shouldRotate RotationHourly t1 t2 = false ->
   generateTimestampedFilename base t1 "2006-01-02-15" =
   generateTimestampedFilename base t2 "2006-01-02-15")
  /\ (shouldRotate RotationDaily t1 t2 = false ->
      generateTimestampedFilename base t1 "2006-01-02" =
      generateTimestampedFilename base t2 "2006-01-02")
  /\ (shouldRotate RotationMonthly t1 t2 = false ->
      generateTimestampedFilename base t1 "2006-01" =
      generateTimestampedFilename base t2 "2006-01").
Proof.
  unfold generateTimestampedFilename.
  rewrite shouldRotate_hourly, shouldRotate_daily, shouldRotate_monthly.
  rewrite !Format_hourly, !Format_daily, !Format_monthly.
  repeat split; intros H;
    repeat (apply orb_false_iff in H; destruct H as [H ?]);
    repeat match goal with Hne : ne _ _ = false |- _ => apply ne_false in Hne end;
    congruence.
Qed.

(** C6, the code on 2024-01-31 and 2024-02-01, the Wednesday and the
    Thursday of ISO week 2024-W05: [shouldRotate] is false between
    them, and the Weekly default layout gives them different paths,
    since it renders the month (the same defect as for the Weekly layout). *)
Theorem weekly_bucket_two_filenames :
  let wed := time.Date 2024 1 31 12 0 0 0 time.utc in
  let thu := time.Date 2024 2 1 12 0 0 0 time.utc in
  let w := NewTimeRotatingWriter (S := MemSink.Mem) time.UTCLoc wed
             Sample.weeklyOptions in
  time.ISOWeek wed = (2024, 5) /\ time.ISOWeek thu = (2024, 5)
  /\ shouldRotate RotationWeekly wed thu = false
  /\ generateTimestampedFilename (baseFilename w) wed (currentTimeFormat w)
     = "/var/log/app-2024-W01.log"
  /\ generateTimestampedFilename (baseFilename w) thu (currentTimeFormat w)
     = "/var/log/app-2024-W02.log".
Proof. vm_compute. repeat split. Qed.

(** ** File names *)

Section FileNames.

Import time Strings filepath.

Lemma append_assoc (a b c : string) : (a +:+ b) +:+ c = a +:+ (b +:+ c).
Proof.
  induction a as [|x a IH]; [reflexivity|].
  change ((String x a +:+ b) +:+ c) with (String x ((a +:+ b) +:+ c)).
  rewrite IH. reflexivity.
Qed.

Lemma revString_acc : forall s acc, revString s acc = revString s "" +:+ acc.
Proof.
  induction s as [|c s IH]; intros acc; [reflexivity|].
  cbn [revString]. rewrite (IH (String c acc)), (IH (String c "")).
  rewrite append_assoc. reflexivity.
Qed.

Lemma revString_app (a b : string) :
  revString (a +:+ b) "" = revString b "" +:+ revString a "".
Proof.
  induction a as [|x a IH].
  - change ("" +:+ b) with b. cbn [revString]. rewrite append_empty_r. reflexivity.
  - change (String x a +:+ b) with (String x (a +:+ b)). cbn [revString].
    rewrite (revString_acc (a +:+ b)), (revString_acc a), IH, append_assoc.
    reflexivity.
Qed.

Lemma revString_involutive (s : string) : revString (revString s "") "" = s.
Proof.
  induction s as [|c s IH]; [reflexivity|].
  cbn [revString]. rewrite (revString_acc s), revString_app, IH. reflexivity.
Qed.

Lemma hasByte_app (c : ascii) (a b : string) :
  hasByte c (a +:+ b) = hasByte c a || hasByte c b.
Proof.
  induction a as [|x a IH]; [reflexivity|].
  change (String x a +:+ b) with (String x (a +:+ b)). cbn [hasByte].
  rewrite IH, orb_assoc. reflexivity.
Qed.

Lemma hasByte_rev (c : ascii) (s : string) :
  hasByte c (revString s "") = hasByte c s.
Proof.
  induction s as [|x s IH]; [reflexivity|].
  cbn [revString hasByte]. rewrite revString_acc, hasByte_app, IH.
  cbn [hasByte]. rewrite orb_false_r, orb_comm. reflexivity.
Qed.

Lemma length_append (a b : string) :
  String.length (a +:+ b) = (String.length a + String.length b)%nat.
Proof.
  induction a as [|x a IH]; [reflexivity|].
  change (String x a +:+ b) with (String x (a +:+ b)). cbn. rewrite IH. reflexivity.
Qed.

Lemma cut_app (p r : string) : cut p (p +:+ r) = Some r.
Proof.
  induction p as [|x p IH]; [reflexivity|].
  change (String x p +:+ r) with (String x (p +:+ r)). cbn [cut].
  rewrite Ascii.eqb_refl. exact IH.
Qed.

Lemma substring_prefix (a b : string) :
  substring 0 (String.length a) (a +:+ b) = a.
Proof.
  induction a as [|x a IH].
  - destruct b; reflexivity.
  - change (String x a +:+ b) with (String x (a +:+ b)). cbn. rewrite IH. reflexivity.
Qed.

(** [TrimSuffix] removes a suffix that is there. *)
Lemma TrimSuffix_app (a suffix : string) : TrimSuffix (a +:+ suffix) suffix = a.
Proof.
  unfold TrimSuffix, HasSuffix.
  rewrite revString_app, cut_app, length_append.
  replace (String.length a + String.length suffix - String.length suffix)%nat
    with (String.length a) by lia.
  apply substring_prefix.
Qed.

(** The scan of [Ext] over a reversed element without separators:
    either there is no dot and the result is empty, or the element is
    cut at its first dot (the last one of the path). *)
Lemma extRev_spec : forall r acc,
  hasByte Separator r = false ->
  (extRev r acc = "" /\ hasByte "." r = false)
  \/ (exists pre post,
        r = pre +:+ String "." post /\ hasByte "." pre = false
        /\ extRev r acc = String "." (revString pre acc)).
Proof.
  induction r as [|c r IH]; intros acc Hsep.
  - left. split; reflexivity.
  - cbn [hasByte] in Hsep. apply orb_false_iff in Hsep as [Hc Hr].
    cbn [extRev]. unfold isSep. rewrite Hc.
    destruct (Ascii.eqb c ".") eqn:Hdot.
    + right. exists "", r. apply Ascii.eqb_eq in Hdot. subst c.
      repeat split.
    + destruct (IH (String c acc) Hr) as [[He Hno]|(pre & post & -> & Hno & He)].
      * left. split; [exact He|]. cbn [hasByte]. rewrite Hdot, Hno. reflexivity.
      * right. exists (String c pre), post. repeat split.
        -- cbn [hasByte]. rewrite Hdot, Hno. reflexivity.
        -- exact He.
Qed.

Lemma uptoSepRev_sepfree : forall s, hasByte Separator (uptoSepRev s) = false.
Proof.
  induction s as [|c s IH]; [reflexivity|].
  cbn [uptoSepRev]. unfold isSep. destruct (Ascii.eqb c Separator) eqn:Hc; [reflexivity|].
  cbn [hasByte]. rewrite Hc, IH. reflexivity.
Qed.

(** [Base] is the single separator or has no separator in it. *)
Lemma Base_sepfree (path : string) :
  Base path = String Separator "" \/ hasByte Separator (Base path) = false.
Proof.
  unfold Base. destruct path as [|c path]; [right; reflexivity|].
  set (b := revString (uptoSepRev _) "").
  assert (Hb : hasByte Separator b = false).
  { unfold b. rewrite hasByte_rev. apply uptoSepRev_sepfree. }
  destruct b; [left; reflexivity|right; exact Hb].
Qed.

(** An element is its stem followed by its extension; the extension is
    empty when the element has no dot, and otherwise starts at its
    last dot. *)
Lemma Ext_split (filename : string) :
  filename = String Separator "" \/ hasByte Separator filename = false ->
  TrimSuffix filename (Ext filename) +:+ Ext filename = filename
  /\ ((Ext filename = "" /\ hasByte "." filename = false)
      \/ exists e, Ext filename = String "." e /\ hasByte "." e = false).
Proof.
  intros [->|Hsep]; [split; [reflexivity|left; split; reflexivity]|].
  unfold Ext.
  destruct (extRev_spec (revString filename "") "") as
    [[He Hno]|(pre & post & Hr & Hno & He)].
  - rewrite hasByte_rev. exact Hsep.
  - rewrite He. rewrite hasByte_rev in Hno. split; [|left; split; auto].
    rewrite <- (append_empty_r filename) at 1. rewrite TrimSuffix_app.
    apply append_empty_r.
  - rewrite He.
    assert (Hf : filename = revString post "" +:+ String "." (revString pre "")).
    { rewrite <- (revString_involutive filename), Hr, revString_app.
      cbn [revString]. rewrite (revString_acc post), append_assoc. reflexivity. }
    split.
    + rewrite Hf at 1. rewrite TrimSuffix_app. symmetry. exact Hf.
    + right. exists (revString pre ""). split; [reflexivity|].
      rewrite hasByte_rev. exact Hno.
Qed.

(** C5. The generated path is [Dir] of the base path joined with
    [stem-timestamp ext], where [stem ++ ext] is the last element of
    the base path, [ext] is empty when that element has no dot and
    otherwise starts at its last dot; without an extension the name is
    [element-timestamp]; [/var/log/app.log] on 2024-03-05 with layout
    [2006-01-02] gives [/var/log/app-2024-03-05.log]. *)
Theorem generated_name_shape (base : string) (t : Time) (timeFormat : string) :
  let filename := Base base in
  let ext := Ext filename in
  let stem := TrimSuffix filename ext in
  generateTimestampedFilename base t timeFormat =
    Join [Dir base; stem +:+ "-" +:+ Format t timeFormat +:+ ext]
  /\ stem +:+ ext = filename
  /\ ((ext = "" /\ hasByte "." filename = false)
      \/ exists e, ext = String "." e /\ hasByte "." e = false)
  /\ (ext = "" ->
      generateTimestampedFilename base t timeFormat =
        Join [Dir base; filename +:+ "-" +:+ Format t timeFormat])
  /\ generateTimestampedFilename "/var/log/app.log"
       (Date 2024 3 5 0 0 0 0 utc) "2006-01-02" = "/var/log/app-2024-03-05.log"
  /\ generateTimestampedFilename "/var/log/app"
       (Date 2024 3 5 0 0 0 0 utc) "2006-01-02" = "/var/log/app-2024-03-05".
Proof.
  intros filename ext stem.
  destruct (Ext_split filename (Base_sepfree base)) as [Hsplit Hext].
  split; [reflexivity|]. split; [exact Hsplit|]. split; [exact Hext|].
  split; [|split; vm_compute; reflexivity].
  intros He. unfold generateTimestampedFilename. fold filename. fold ext.
  fold stem. unfold stem. rewrite He.
  rewrite <- (append_empty_r filename) at 1. rewrite TrimSuffix_app.
  rewrite append_empty_r. reflexivity.
Qed.

Lemma generated_name_shape_witness :
  Ext (Base "/srv/logs.d/app") = ""
  /\ generateTimestampedFilename "/srv/logs.d/app"
       (Date 2024 3 5 13 4 5 0 utc) "2006-01-02-15" =
     Join [Dir "/srv/logs.d/app";
           Base "/srv/logs.d/app" +:+ "-"
             +:+ Format (Date 2024 3 5 13 4 5 0 utc) "2006-01-02-15"].
Proof.
  split; [vm_compute; reflexivity|].
  apply (generated_name_shape "/srv/logs.d/app" (Date 2024 3 5 13 4 5 0 utc)
           "2006-01-02-15").
  vm_compute; reflexivity.
Defined.

End FileNames.

(** ** [Validate] *)

(** C9. [Validate] returns [nil] for every [Config]. Its
    normalisations are made on the method's copy of the receiver: for
    a [Config] with an invalid level, environment and encoding and no
    output paths the copy ends up normalised and different from the
    receiver, and nothing of it reaches the caller, so
    [GetEffectiveConfig] returns what [ConfigFromEnv] gave it, an
    invalid level included. *)
Theorem Validate_is_noop :
  (forall c : Config, (Validate c).2 = None)
  /\ (forall environ ToLower Split Atoi,
        GetEffectiveConfig environ ToLower Split Atoi =
        ConfigFromEnv environ ToLower Split Atoi)
  /\ (let invalid := mkConfig "verbose" "prod" [] "xml" DefaultFileOptions in
      (Validate invalid).1 =
        mkConfig "info" "development" ["stdout"] "console" DefaultFileOptions
      /\ (Validate invalid).1 <> invalid
      /\ (Validate invalid).2 = None)
  /\ (let environ : gmap string string := {[ "LOG_LEVEL" := "verbose" ]} in
      Level (GetEffectiveConfig environ (fun s => s) (fun s _ => [s]) (fun _ => None))
        = "verbose"
      /\ index validLevels "verbose" = false).
Proof.
  split; [intros c; reflexivity|].
  split.
  { intros environ ToLower Split Atoi. unfold GetEffectiveConfig.
    destruct (Validate _). reflexivity. }
  split.
  - vm_compute. repeat split. discriminate.
  - vm_compute. repeat split.
Qed.

(** * Further properties of the rotation core *)

(** ** Buckets *)

Lemma ne_refl (a : Z) : ne a a = false.
Proof. unfold ne. rewrite Z.eqb_refl. reflexivity. Qed.

Lemma ne_sym (a b : Z) : ne a b = ne b a.
Proof. unfold ne. rewrite Z.eqb_sym. reflexivity. Qed.

(** Every interval string falls in one of the five branches of the
    [switch]. *)
Lemma shouldRotate_cases (iv : TimeRotationInterval) :
  iv = RotationHourly \/ iv = RotationDaily \/ iv = RotationWeekly
  \/ iv = RotationMonthly \/ (forall last now, shouldRotate iv last now = false).
Proof.
  destruct (String.eqb iv RotationHourly) eqn:Hh; [apply String.eqb_eq in Hh; tauto|].
  destruct (String.eqb iv RotationDaily) eqn:Hd; [apply String.eqb_eq in Hd; tauto|].
  destruct (String.eqb iv RotationWeekly) eqn:Hw; [apply String.eqb_eq in Hw; tauto|].
  destruct (String.eqb iv RotationMonthly) eqn:Hm; [apply String.eqb_eq in Hm; tauto|].
  do 4 right. intros last now. unfold shouldRotate. rewrite Hh, Hd, Hw, Hm. reflexivity.
Qed.

Ltac buckets :=
  repeat match goal with
    | H : _ || _ = false |- _ => apply orb_false_iff in H; destruct H
    | |- _ || _ = false => apply orb_false_iff; split
    end;
  repeat match goal with
    | H : ne _ _ = false |- _ => apply ne_false in H
    end;
  unfold ne; rewrite negb_false_iff; apply Z.eqb_eq; congruence.

(** X1. For every interval string, not rotating between two times is
    an equivalence: a time never rotates against itself, the check
    gives the same answer with its two times exchanged, and two times
    that both do not rotate against a third do not rotate against each
    other. *)
Theorem same_bucket_equivalence (iv : TimeRotationInterval) (t1 t2 t3 : time.Time) :
  shouldRotate iv t1 t1 = false
  /\ shouldRotate iv t1 t2 = shouldRotate iv t2 t1
  /\ (shouldRotate iv t1 t2 = false -> shouldRotate iv t2 t3 = false ->
      shouldRotate iv t1 t3 = false).
Proof.
  destruct (shouldRotate_cases iv) as [->|[->|[->|[->|Hnone]]]].
  - rewrite !shouldRotate_hourly, !ne_refl.
    rewrite (ne_sym (time.Hour t2)), (ne_sym (time.Day t2)),
      (ne_sym (time.Month t2)), (ne_sym (time.Year t2)).
    repeat split. intros H12 H23. buckets.
  - rewrite !shouldRotate_daily, !ne_refl.
    rewrite (ne_sym (time.Day t2)), (ne_sym (time.Month t2)), (ne_sym (time.Year t2)).
    repeat split. intros H12 H23. buckets.
  - rewrite !shouldRotate_weekly, !ne_refl.
    rewrite (ne_sym (time.ISOWeek t2).2), (ne_sym (time.Year t2)).
    repeat split. intros H12 H23. buckets.
  - rewrite !shouldRotate_monthly, !ne_refl.
    rewrite (ne_sym (time.Month t2)), (ne_sym (time.Year t2)).
    repeat split. intros H12 H23. buckets.
  - rewrite !Hnone. repeat split.
Qed.

Lemma same_bucket_equivalence_witness :
  let a := time.Date 2024 5 6 0 0 0 0 time.utc in
  let b := time.Date 2024 5 9 12 0 0 0 time.utc in
  let c := time.Date 2024 5 12 23 59 59 0 time.utc in
  shouldRotate RotationWeekly a b = false
  /\ shouldRotate RotationWeekly b c = false
  /\ shouldRotate RotationWeekly a c = false.
Proof.
  intros a b c.
  assert (H1 : shouldRotate RotationWeekly a b = false) by (vm_compute; reflexivity).
  assert (H2 : shouldRotate RotationWeekly b c = false) by (vm_compute; reflexivity).
  split; [exact H1|]. split; [exact H2|].
  exact (proj2 (proj2 (same_bucket_equivalence RotationWeekly a b c)) H1 H2).
Defined.

(** X2. The buckets are nested: whenever Monthly rotates between two
    times so does Daily, and whenever Daily rotates so does Hourly. *)
Theorem finer_interval_rotates (last now : time.Time) :
  (shouldRotate RotationMonthly last now = true ->
   shouldRotate RotationDaily last now = true)
  /\ (shouldRotate RotationDaily last now = true ->
      shouldRotate RotationHourly last now = true).
Proof.
  rewrite shouldRotate_monthly, shouldRotate_daily, shouldRotate_hourly.
  split; intros H.
  - rewrite <- orb_assoc, H. apply orb_true_r.
  - rewrite <- !orb_assoc in *. rewrite H. apply orb_true_r.
Qed.

Lemma finer_interval_rotates_witness :
  let last := time.Date 2024 1 31 23 0 0 0 time.utc in
  let now := time.Date 2024 2 1 0 0 0 0 time.utc in
  shouldRotate RotationMonthly last now = true
  /\ shouldRotate RotationDaily last now = true
  /\ shouldRotate RotationHourly last now = true.
Proof.
  intros last now.
  assert (Hm : shouldRotate RotationMonthly last now = true) by (vm_compute; reflexivity).
  pose proof (proj1 (finer_interval_rotates last now) Hm) as Hd.
  pose proof (proj2 (finer_interval_rotates last now) Hd) as Hh.
  split; [exact Hm|]. split; [exact Hd|exact Hh].
Defined.

(** ** What a call of [Write] does to the writer and to the sink *)

Section WriteEffects.

Context {S : Type} `{!lumberjack.Sink S}.
Implicit Types (w : TimeRotatingWriter S) (p : list Byte.byte).

#[local] Arguments generateTimestampedFilename : simpl never.
#[local] Arguments adjust : simpl never.

(** The three ways a call can go. *)
Lemma Write_outcome w local clock p :
  let now := adjust (options w) local clock in
  (shouldRotate (interval w) (lastRotationTime w) now = false
   /\ Write local clock p w = LoggerWrite p w)
  \/ (exists s e,
        shouldRotate (interval w) (lastRotationTime w) now = true
        /\ lumberjack.close (Logger w) = (s, Some e)
        /\ Write local clock p w =
             ((0, Some e),
              mkWriter (lumberjack.withImpl (Logger w) s) (options w)
                (currentTimeFormat w) (lastRotationTime w) (baseFilename w),
              [CallClose (lumberjack.Filename (Logger w)) (Some e)]))
  \/ (exists s,
        shouldRotate (interval w) (lastRotationTime w) now = true
        /\ lumberjack.close (Logger w) = (s, None)
        /\ Write local clock p w =
             let '(r, w', calls) := LoggerWrite p (rotated w now s) in
             (r, w', CallClose (lumberjack.Filename (Logger w)) None :: calls)).
Proof.
  intros now.
  destruct (shouldRotate (interval w) (lastRotationTime w) now) eqn:Hrot.
  - right. destruct (lumberjack.close (Logger w)) as [s [e|]] eqn:Hc.
    + left. exists s, e. repeat split. apply Write_close_error; assumption.
    + right. exists s. repeat split. apply Write_rotates; assumption.
  - left. split; [reflexivity|]. apply Write_same_bucket. exact Hrot.
Qed.

(** X3. A call of [Write] makes at most one [Close] and at most one
    [Write] on the sink, the [Close] first: either the payload alone is
    written to the bound file and its result returned, or a failed
    [Close] is the only call and [(0, err)] is returned, or a
    successful [Close] is followed by the payload written to the newly
    generated name. One payload is never written twice and nothing is
    written after a failed [Close]. The writer's options, layout, base
    path and the logger's size, age, backup and compression settings
    are never changed. *)
Theorem Write_calls_and_frame w local clock p :
  let now := adjust (options w) local clock in
  let '(r, w', calls) := Write local clock p w in
  settings w' = settings w
  /\ (calls = [CallWrite (lumberjack.Filename (Logger w)) p r.1 r.2]
      \/ (exists e, r = (0, Some e)
                    /\ calls = [CallClose (lumberjack.Filename (Logger w)) (Some e)])
      \/ calls = [CallClose (lumberjack.Filename (Logger w)) None;
                  CallWrite (generateTimestampedFilename (baseFilename w) now
                               (currentTimeFormat w)) p r.1 r.2]).
Proof.
  intros now.
  destruct (Write_outcome w local clock p) as
    [[_ ->]|[(s & e & _ & _ & ->)|(s & _ & _ & ->)]].
  - pose proof (LoggerWrite_frame w p) as Hfr. unfold LoggerWrite in *.
    destruct (lumberjack.write (Logger w) p) as [s' [n err]]. cbn in *.
    split; [reflexivity|]. left. reflexivity.
  - split; [reflexivity|]. right. left. exists e. split; reflexivity.
  - cbn zeta. fold now. unfold LoggerWrite.
    destruct (lumberjack.write (Logger (rotated w now s)) p) as [s' [n err]].
    cbn. split; [reflexivity|]. right. right. reflexivity.
Qed.

Lemma settings_fields w w' :
  settings w' = settings w ->
  options w' = options w /\ currentTimeFormat w' = currentTimeFormat w
  /\ baseFilename w' = baseFilename w.
Proof. unfold settings. intros Heq. inversion Heq. auto. Qed.

(** X4. The logger is always bound to the name generated from the time
    of the last rotation: this holds for the writer
    [NewTimeRotatingWriter] builds and is kept by every call of
    [Write], failed or not; so in any run every payload goes to a name
    generated from the base path, the layout and either the last
    rotation time at the start or the time of one of the calls. *)
Theorem naming_invariant :
  (forall local clock o,
     namedAfterLastRotation (NewTimeRotatingWriter (S := S) local clock o))
  /\ (forall w local clock p,
        namedAfterLastRotation w ->
        namedAfterLastRotation (Write local clock p w).1.2)
  /\ (forall local calls w,
        namedAfterLastRotation w ->
        namedAfterLastRotation (WriteAll local calls w).1.2
        /\ Forall (fun f => exists t,
                     In t (lastRotationTime w
                           :: map (fun cp => adjust (options w) local cp.1) calls)
                     /\ f = generateTimestampedFilename (baseFilename w) t
                              (currentTimeFormat w))
             (segments (WriteAll local calls w).2)).
Proof.
  assert (Hstep : forall w local clock p,
    namedAfterLastRotation w ->
    let '(r, w', tr) := Write local clock p w in
    namedAfterLastRotation w' /\ settings w' = settings w
    /\ (lastRotationTime w' = lastRotationTime w
        \/ lastRotationTime w' = adjust (options w) local clock)
    /\ Forall (fun f => f = lumberjack.Filename (Logger w')) (segments tr)).
  { intros w local clock p Hn. unfold namedAfterLastRotation in *.
    destruct (Write_outcome w local clock p) as
      [[_ ->]|[(s & e & _ & _ & ->)|(s & _ & _ & ->)]].
    - unfold LoggerWrite.
      destruct (lumberjack.write (Logger w) p) as [s' [n err]]. cbn.
      repeat split; auto; repeat constructor.
    - cbn. repeat split; auto; constructor.
    - cbn zeta. unfold LoggerWrite.
      destruct (lumberjack.write (Logger (rotated w _ s)) p) as [s' [n err]]. cbn.
      repeat split; auto; repeat constructor. }
  split; [intros; reflexivity|].
  split.
  { intros w local clock p Hn. specialize (Hstep w local clock p Hn).
    destruct (Write local clock p w) as [[r w'] tr]. apply Hstep. }
  intros local calls. induction calls as [|[clock p] rest IH]; intros w Hn.
  { cbn. split; [exact Hn|constructor]. }
  rewrite WriteAll_cons. specialize (Hstep w local clock p Hn).
  destruct (Write local clock p w) as [[r w1] c1].
  destruct Hstep as (Hn1 & Hset & Hlast & Hseg).
  specialize (IH w1 Hn1).
  destruct (WriteAll local rest w1) as [[rs w2] c2]. cbn [fst snd] in *.
  destruct IH as [Hn2 Hseg2]. split; [exact Hn2|].
  rewrite segments_app. apply Forall_app. split.
  - eapply Forall_impl; [exact Hseg|]. cbn beta. intros f ->.
    unfold namedAfterLastRotation in Hn1.
    apply settings_fields in Hset as (Hopt & Hfmt & Hbase).
    rewrite Hn1, Hbase, Hfmt.
    destruct Hlast as [Hl|Hl]; rewrite Hl;
      eexists; (split; [|reflexivity]); cbn; auto.
  - eapply Forall_impl; [exact Hseg2|]. cbn beta. intros f (t & Hin & ->).
    apply settings_fields in Hset as (Hopt & Hfmt & Hbase).
    rewrite Hbase, Hfmt, Hopt in *. exists t. split; [|reflexivity].
    cbn in Hin |- *. destruct Hin as [<-|Hin]; [|auto].
    destruct Hlast as [Hl|Hl]; rewrite Hl; auto.
Qed.

(** X5. A rotation whose [Close] failed is tried again by the next
    call: the failed call leaves the rotation check as it was, so the
    next call at that clock calls [Close] first again, and if that
    [Close] succeeds the rotation is completed with that call's time. *)
Theorem failed_rotation_is_retried w local clock p p' e :
  let now := adjust (options w) local clock in
  shouldRotate (interval w) (lastRotationTime w) now = true ->
  (lumberjack.close (Logger w)).2 = Some e ->
  let w1 := (Write local clock p w).1.2 in
  shouldRotate (interval w1) (lastRotationTime w1) (adjust (options w1) local clock)
    = true
  /\ (exists err rest,
        (Write local clock p' w1).2 =
          CallClose (lumberjack.Filename (Logger w)) err :: rest)
  /\ ((lumberjack.close (Logger w1)).2 = None ->
      lastRotationTime (Write local clock p' w1).1.2 = now
      /\ lumberjack.Filename (Logger (Write local clock p' w1).1.2) =
           generateTimestampedFilename (baseFilename w) now (currentTimeFormat w)).
Proof.
  intros now Hrot Hclose.
  destruct (lumberjack.close (Logger w)) as [s cerr] eqn:Hc. cbn in Hclose. subst cerr.
  rewrite (Write_close_error _ _ _ _ _ _ Hrot Hc). cbn [fst snd].
  set (w1 := mkWriter _ _ _ _ _).
  assert (Hrot1 : shouldRotate (interval w1) (lastRotationTime w1)
                    (adjust (options w1) local clock) = true) by exact Hrot.
  split; [exact Hrot1|].
  destruct (lumberjack.close (Logger w1)) as [s1 [e1|]] eqn:Hc1.
  - rewrite (Write_close_error _ _ _ _ _ _ Hrot1 Hc1). cbn.
    split; [eauto|]. discriminate.
  - rewrite (Write_rotates _ _ _ _ _ Hrot1 Hc1). cbn zeta.
    unfold LoggerWrite.
    destruct (lumberjack.write (Logger (rotated w1 _ s1)) p') as [s' [n err]].
    cbn. split; [eauto|]. intros _. split; reflexivity.
Qed.


End WriteEffects.

(** The Daily sample writer, written to on 2024-01-03. *)
Lemma naming_invariant_witness :
  namedAfterLastRotation Sample.healthy
  /\ namedAfterLastRotation
       (Write time.UTCLoc Sample.jan3 Sample.payload Sample.healthy).1.2.
Proof.
  assert (H0 : namedAfterLastRotation Sample.healthy) by (vm_compute; reflexivity).
  split; [exact H0|].
  exact (proj1 (proj2 (naming_invariant (S := MemSink.Mem)))
           Sample.healthy time.UTCLoc Sample.jan3 Sample.payload H0).
Defined.

(** The sample writer whose [Close] fails, written to twice on
    2024-01-02. *)
Lemma failed_rotation_is_retried_witness :
  let w := Sample.closeFails in
  let now := adjust (options w) time.UTCLoc Sample.jan2 in
  shouldRotate (interval w) (lastRotationTime w) now = true
  /\ (lumberjack.close (Logger w)).2 =
       Some "close /var/log/app-2024-01-01.log: input/output error"
  /\ let w1 := (Write time.UTCLoc Sample.jan2 Sample.payload w).1.2 in
     shouldRotate (interval w1) (lastRotationTime w1)
       (adjust (options w1) time.UTCLoc Sample.jan2) = true
     /\ (exists err rest,
           (Write time.UTCLoc Sample.jan2 Sample.payload w1).2 =
             CallClose (lumberjack.Filename (Logger w)) err :: rest)
     /\ ((lumberjack.close (Logger w1)).2 = None ->
         lastRotationTime (Write time.UTCLoc Sample.jan2 Sample.payload w1).1.2 = now
         /\ lumberjack.Filename
              (Logger (Write time.UTCLoc Sample.jan2 Sample.payload w1).1.2) =
            generateTimestampedFilename (baseFilename w) now (currentTimeFormat w)).
Proof.
  intros w now.
  assert (H1 : shouldRotate (interval w) (lastRotationTime w) now = true)
    by (vm_compute; reflexivity).
  assert (H2 : (lumberjack.close (Logger w)).2 =
                 Some "close /var/log/app-2024-01-01.log: input/output error")
    by (vm_compute; reflexivity).
  split; [exact H1|]. split; [exact H2|].
  exact (failed_rotation_is_retried w time.UTCLoc Sample.jan2 Sample.payload
           Sample.payload _ H1 H2).
Defined.


(** * Further properties of [ConfigFromEnv] *)

Section EnvProperties.

Variable environ : gmap string string.
Variable ToLower : string -> string.
Variable Split : string -> string -> list string.
Variable Atoi : string -> option Z.

Abbreviation fromEnv := (ConfigFromEnv environ ToLower Split Atoi).
Abbreviation getenv := (Getenv environ).

#[local] Arguments fileOptionsFromEnv : simpl never.
#[local] Arguments String.eqb : simpl never.

(** A projection that the setter leaves alone passes through
    [setFromEnv]. *)
Lemma setFromEnv_frame {A B} (proj : A -> B) (key : string)
    (f : string -> A -> A) (a : A) :
  (forall v a', proj (f v a') = proj a') ->
  proj (setFromEnv environ key f a) = proj a.
Proof.
  intros Hf. unfold setFromEnv. destruct (negb _); [apply Hf|reflexivity].
Qed.

(** The last [switch] keeps the environment. *)
Lemma final_environment (c : Config) :
  Environment (if String.eqb (Environment c) EnvProduction then
                 setEncoding (levelIfEmpty c LevelInfo) EncodingJSON
               else if String.eqb (Environment c) EnvStaging then
                 setEncoding (levelIfEmpty c LevelInfo) EncodingJSON
               else if String.eqb (Environment c) EnvTest then
                 setEncoding (levelIfEmpty c LevelError) EncodingConsole
               else
                 setEncoding (levelIfEmpty c LevelDebug) EncodingConsole)
  = Environment c.
Proof.
  unfold levelIfEmpty.
  destruct (String.eqb (Environment c) EnvProduction),
    (String.eqb (Environment c) EnvStaging),
    (String.eqb (Environment c) EnvTest),
    (String.eqb (Level c) ""); reflexivity.
Qed.

(** X7. [GIN_MODE] wins over [APP_ENV]: when it is set the environment
    is production for [release], test for [test] and development for
    any other value (compared as written, without lower-casing), and
    [APP_ENV] is not looked at; when it is unset the environment is the
    lower-cased [APP_ENV], or development when that is unset too. *)
Theorem environment_precedence :
  Environment fromEnv =
    if negb (String.eqb (getenv "GIN_MODE") "") then
      if String.eqb (getenv "GIN_MODE") "release" then EnvProduction
      else if String.eqb (getenv "GIN_MODE") "test" then EnvTest
      else EnvDevelopment
    else if negb (String.eqb (getenv "APP_ENV") "") then ToLower (getenv "APP_ENV")
    else EnvDevelopment.
Proof.
  unfold ConfigFromEnv. cbv zeta. rewrite final_environment.
  cbn [Environment setFileOptions].
  rewrite (setFromEnv_frame Environment "LOG_OUTPUT_PATHS") by reflexivity.
  rewrite (setFromEnv_frame Environment "LOG_ENCODING") by reflexivity.
  rewrite (setFromEnv_frame Environment "LOG_LEVEL") by reflexivity.
  unfold setFromEnv.
  destruct (negb (String.eqb (getenv "GIN_MODE") "")).
  - destruct (String.eqb (getenv "GIN_MODE") "release"); [reflexivity|].
    destruct (String.eqb (getenv "GIN_MODE") "test"); reflexivity.
  - destruct (negb (String.eqb (getenv "APP_ENV") "")); reflexivity.
Qed.

(** X8. The encoding is decided by the environment alone: JSON for
    production and staging, console for every other environment. What
    [LOG_ENCODING] holds never reaches the result. *)
Theorem encoding_follows_environment :
  Encoding fromEnv =
    if String.eqb (Environment fromEnv) EnvProduction
       || String.eqb (Environment fromEnv) EnvStaging
    then EncodingJSON else EncodingConsole.
Proof.
  unfold ConfigFromEnv. cbv zeta. set (c0 := setFileOptions _ _).
  destruct (String.eqb (Environment c0) EnvProduction) eqn:H1;
    [|destruct (String.eqb (Environment c0) EnvStaging) eqn:H2;
      [|destruct (String.eqb (Environment c0) EnvTest) eqn:H3]];
    unfold levelIfEmpty; destruct (String.eqb (Level c0) "");
    cbn [Environment Encoding setEncoding setLevel]; rewrite ?H1, ?H2; reflexivity.
Qed.

(** The level after the last [switch]: the default of the environment
    for an empty level, the level itself otherwise. *)
Lemma final_level (c : Config) :
  Level (if String.eqb (Environment c) EnvProduction then
           setEncoding (levelIfEmpty c LevelInfo) EncodingJSON
         else if String.eqb (Environment c) EnvStaging then
           setEncoding (levelIfEmpty c LevelInfo) EncodingJSON
         else if String.eqb (Environment c) EnvTest then
           setEncoding (levelIfEmpty c LevelError) EncodingConsole
         else
           setEncoding (levelIfEmpty c LevelDebug) EncodingConsole)
  = if String.eqb (Level c) "" then
      if String.eqb (Environment c) EnvProduction then LevelInfo
      else if String.eqb (Environment c) EnvStaging then LevelInfo
      else if String.eqb (Environment c) EnvTest then LevelError
      else LevelDebug
    else Level c.
Proof.
  unfold levelIfEmpty.
  destruct (String.eqb (Environment c) EnvProduction),
    (String.eqb (Environment c) EnvStaging),
    (String.eqb (Environment c) EnvTest),
    (String.eqb (Level c) ""); reflexivity.
Qed.

(** X10. With [LOG_LEVEL] unset the level is [info] in every
    environment: the defaults by environment (debug for development,
    error for test) are assigned only to an empty level, and the level
    starts as [info]. With [LOG_LEVEL] set, the level is its lower-cased
    value, whether or not that is a level name. *)
Theorem level_from_env :
  (getenv "LOG_LEVEL" = "" -> Level fromEnv = LevelInfo)
  /\ (getenv "LOG_LEVEL" <> "" -> ToLower (getenv "LOG_LEVEL") <> "" ->
      Level fromEnv = ToLower (getenv "LOG_LEVEL")).
Proof.
  unfold ConfigFromEnv. cbv zeta. set (c0 := setFileOptions _ _).
  assert (Hc0 : Level c0 = if negb (String.eqb (getenv "LOG_LEVEL") "")
                           then ToLower (getenv "LOG_LEVEL") else LevelInfo).
  { subst c0. cbn [Level setFileOptions].
    rewrite (setFromEnv_frame Level "LOG_OUTPUT_PATHS") by reflexivity.
    rewrite (setFromEnv_frame Level "LOG_ENCODING") by reflexivity.
    unfold setFromEnv at 1.
    destruct (negb (String.eqb (getenv "LOG_LEVEL") "")); [reflexivity|].
    rewrite (setFromEnv_frame Level "GIN_MODE")
      by (intros v a'; destruct (String.eqb v "release"), (String.eqb v "test");
          reflexivity).
    rewrite (setFromEnv_frame Level "APP_ENV") by reflexivity.
    reflexivity. }
  rewrite final_level, Hc0. split.
  - intros ->. reflexivity.
  - intros Hset%String.eqb_neq Hlow%String.eqb_neq. rewrite Hset. cbn [negb].
    rewrite Hlow. reflexivity.
Qed.

Lemma setFromEnv_unset {A} (key : string) (f : string -> A -> A) (a : A) :
  getenv key = "" -> setFromEnv environ key f a = a.
Proof. intros Hk. unfold setFromEnv. rewrite Hk. reflexivity. Qed.

(** X11. When none of the variables it reads is set (or all are
    empty), [ConfigFromEnv] returns [DefaultConfig], whatever else the
    process environment holds. *)
Theorem no_variables_gives_default :
  (forall k, In k envKeys -> getenv k = "") -> fromEnv = DefaultConfig.
Proof.
  intros H. unfold ConfigFromEnv, fileOptionsFromEnv.
  rewrite !setFromEnv_unset by (apply H; vm_compute; tauto).
  reflexivity.
Qed.

Lemma final_fileOptions (c : Config) :
  FileOptions_ (if String.eqb (Environment c) EnvProduction then
                  setEncoding (levelIfEmpty c LevelInfo) EncodingJSON
                else if String.eqb (Environment c) EnvStaging then
                  setEncoding (levelIfEmpty c LevelInfo) EncodingJSON
                else if String.eqb (Environment c) EnvTest then
                  setEncoding (levelIfEmpty c LevelError) EncodingConsole
                else
                  setEncoding (levelIfEmpty c LevelDebug) EncodingConsole)
  = FileOptions_ c.
Proof.
  unfold levelIfEmpty.
  destruct (String.eqb (Environment c) EnvProduction),
    (String.eqb (Environment c) EnvStaging),
    (String.eqb (Environment c) EnvTest),
    (String.eqb (Level c) ""); reflexivity.
Qed.

(** The file options of the result are those read from the [LOG_FILE]
    variables over [DefaultFileOptions]. *)
Lemma fileOptions_from_env :
  FileOptions_ fromEnv = fileOptionsFromEnv environ ToLower Atoi DefaultFileOptions.
Proof.
  unfold ConfigFromEnv. cbv zeta. rewrite final_fileOptions.
  cbn [FileOptions_ setFileOptions].
  rewrite (setFromEnv_frame FileOptions_ "LOG_OUTPUT_PATHS") by reflexivity.
  rewrite (setFromEnv_frame FileOptions_ "LOG_ENCODING") by reflexivity.
  rewrite (setFromEnv_frame FileOptions_ "LOG_LEVEL") by reflexivity.
  rewrite (setFromEnv_frame FileOptions_ "GIN_MODE")
    by (intros v a'; destruct (String.eqb v "release"), (String.eqb v "test");
        reflexivity).
  rewrite (setFromEnv_frame FileOptions_ "APP_ENV") by reflexivity.
  reflexivity.
Qed.

Ltac frame proj :=
  rewrite (setFromEnv_frame proj)
    by (intros v a'; unfold atoiInto; try destruct (Atoi v); reflexivity).

(** X12. Each of [LOG_FILE_MAX_SIZE], [LOG_FILE_MAX_AGE] and
    [LOG_FILE_MAX_BACKUPS] sets its own field when [strconv.Atoi]
    accepts its value; when it is unset or does not parse, the field
    keeps its default (100, 30, 10) and no error is reported. No other
    variable touches these fields. *)
Theorem numeric_file_options :
  MaxSize (FileOptions_ fromEnv) = numberOr environ Atoi "LOG_FILE_MAX_SIZE" 100
  /\ MaxAge (FileOptions_ fromEnv) = numberOr environ Atoi "LOG_FILE_MAX_AGE" 30
  /\ MaxBackups (FileOptions_ fromEnv) = numberOr environ Atoi "LOG_FILE_MAX_BACKUPS" 10.
Proof.
  rewrite fileOptions_from_env. unfold fileOptionsFromEnv, numberOr. cbv zeta.
  split; [|split].
  - do 8 frame MaxSize. unfold setFromEnv at 1, atoiInto.
    destruct (negb _); [destruct (Atoi _)|]; cbn [MaxSize]; repeat frame MaxSize; reflexivity.
  - do 7 frame MaxAge. unfold setFromEnv at 1, atoiInto.
    destruct (negb _); [destruct (Atoi _)|]; cbn [MaxAge]; repeat frame MaxAge; reflexivity.
  - do 6 frame MaxBackups. unfold setFromEnv at 1, atoiInto.
    destruct (negb _); [destruct (Atoi _)|]; cbn [MaxBackups]; repeat frame MaxBackups; reflexivity.
Qed.

End EnvProperties.

Section TwoEnvironments.

Variables env1 env2 : gmap string string.
Variable ToLower : string -> string.
Variable Split : string -> string -> list string.
Variable Atoi : string -> option Z.

#[local] Arguments fileOptionsFromEnv : simpl never.
#[local] Arguments String.eqb : simpl never.

Lemma setFromEnv_agree {A} (key : string) (f : string -> A -> A) (a : A) :
  Getenv env1 key = Getenv env2 key ->
  setFromEnv env1 key f a = setFromEnv env2 key f a.
Proof. intros Hk. unfold setFromEnv. rewrite Hk. reflexivity. Qed.

Lemma fileOptionsFromEnv_agree (fo : FileOptions) :
  (forall k, In k fileEnvKeys -> Getenv env1 k = Getenv env2 k) ->
  fileOptionsFromEnv env1 ToLower Atoi fo = fileOptionsFromEnv env2 ToLower Atoi fo.
Proof.
  intros H. unfold fileOptionsFromEnv. cbv zeta.
  rewrite (setFromEnv_agree "LOG_FILE_TIME_FORMAT") by (apply H; vm_compute; tauto).
  rewrite (setFromEnv_agree "LOG_FILE_TIME_INTERVAL") by (apply H; vm_compute; tauto).
  rewrite (setFromEnv_agree "LOG_FILE_ROTATION_MODE") by (apply H; vm_compute; tauto).
  rewrite (setFromEnv_agree "LOG_FILE_CREATE_DIR") by (apply H; vm_compute; tauto).
  rewrite (setFromEnv_agree "LOG_FILE_COMPRESS") by (apply H; vm_compute; tauto).
  rewrite (setFromEnv_agree "LOG_FILE_LOCAL_TIME") by (apply H; vm_compute; tauto).
  rewrite (setFromEnv_agree "LOG_FILE_MAX_BACKUPS") by (apply H; vm_compute; tauto).
  rewrite (setFromEnv_agree "LOG_FILE_MAX_AGE") by (apply H; vm_compute; tauto).
  rewrite (setFromEnv_agree "LOG_FILE_MAX_SIZE") by (apply H; vm_compute; tauto).
  rewrite (setFromEnv_agree "LOG_FILE") by (apply H; vm_compute; tauto).
  reflexivity.
Qed.

(** The steps after [LOG_ENCODING] is read do not depend on the
    encoding they start from. *)
Lemma encoding_overwritten (c : Config) (e : string) :
  let rest c0 :=
    let c1 := setFromEnv env2 "LOG_OUTPUT_PATHS"
                (fun v c => setOutputPaths c (Split v ",")) c0 in
    let c2 := setFileOptions c1
                (fileOptionsFromEnv env2 ToLower Atoi (FileOptions_ c1)) in
    if String.eqb (Environment c2) EnvProduction then
      setEncoding (levelIfEmpty c2 LevelInfo) EncodingJSON
    else if String.eqb (Environment c2) EnvStaging then
      setEncoding (levelIfEmpty c2 LevelInfo) EncodingJSON
    else if String.eqb (Environment c2) EnvTest then
      setEncoding (levelIfEmpty c2 LevelError) EncodingConsole
    else
      setEncoding (levelIfEmpty c2 LevelDebug) EncodingConsole in
  rest (setEncoding c e) = rest c.
Proof.
  cbv zeta. unfold setFromEnv, levelIfEmpty.
  destruct (negb (String.eqb (Getenv env2 "LOG_OUTPUT_PATHS") ""));
    cbn [Environment Level Encoding OutputPaths FileOptions_ setEncoding
           setLevel setOutputPaths setFileOptions];
    destruct (String.eqb (Environment c) EnvProduction),
      (String.eqb (Environment c) EnvStaging),
      (String.eqb (Environment c) EnvTest),
      (String.eqb (Level c) ""); reflexivity.
Qed.

Lemma ConfigFromEnv_agree :
  (forall k, In k envKeys -> k <> "LOG_ENCODING" -> Getenv env1 k = Getenv env2 k) ->
  ConfigFromEnv env1 ToLower Split Atoi = ConfigFromEnv env2 ToLower Split Atoi.
Proof.
  intros H.
  assert (Hfile : forall k, In k fileEnvKeys -> Getenv env1 k = Getenv env2 k).
  { intros k Hk. apply H.
    - unfold envKeys. apply in_or_app. right. exact Hk.
    - intros ->. vm_compute in Hk. repeat destruct Hk as [Hk|Hk]; discriminate || exact Hk. }
  unfold ConfigFromEnv. cbv zeta.
  rewrite (fun fo => fileOptionsFromEnv_agree fo Hfile).
  rewrite !(setFromEnv_agree "LOG_OUTPUT_PATHS")
    by (apply H; [vm_compute; tauto|discriminate]).
  rewrite !(setFromEnv_agree "LOG_LEVEL")
    by (apply H; [vm_compute; tauto|discriminate]).
  rewrite !(setFromEnv_agree "GIN_MODE")
    by (apply H; [vm_compute; tauto|discriminate]).
  rewrite !(setFromEnv_agree "APP_ENV")
    by (apply H; [vm_compute; tauto|discriminate]).
  set (c := setFromEnv env2 "LOG_LEVEL" _ _).
  pose proof (encoding_overwritten c) as Henc. cbv zeta in Henc.
  set (x1 := setFromEnv env1 "LOG_ENCODING" _ c).
  set (x2 := setFromEnv env2 "LOG_ENCODING" _ c).
  assert (Hx1 : x1 = c \/ exists e, x1 = setEncoding c e).
  { unfold x1, setFromEnv. destruct (negb _); eauto. }
  assert (Hx2 : x2 = c \/ exists e, x2 = setEncoding c e).
  { unfold x2, setFromEnv. destruct (negb _); eauto. }
  clearbody x1 x2.
  destruct Hx1 as [->|[e1 ->]], Hx2 as [->|[e2 ->]]; rewrite ?Henc; reflexivity.
Qed.

End TwoEnvironments.

Lemma Getenv_insert_empty (environ : gmap string string) (k k' : string) :
  Getenv (<[k := ""]> environ) k' = Getenv (delete k environ) k'.
Proof.
  unfold Getenv. destruct (decide (k = k')) as [->|Hne].
  - rewrite lookup_insert_eq, lookup_delete_eq. reflexivity.
  - rewrite lookup_insert_ne, lookup_delete_ne by exact Hne. reflexivity.
Qed.

(** X9. The result depends on the process environment only through the
    values of the variables [ConfigFromEnv] reads other than
    [LOG_ENCODING], which is read and then overwritten: environments
    that agree on those give the same [Config]. A variable set to the
    empty string counts as unset. *)
Theorem LOG_ENCODING_has_no_effect (env1 env2 : gmap string string)
    (ToLower : string -> string) (Split : string -> string -> list string)
    (Atoi : string -> option Z) :
  ((forall k, In k envKeys -> k <> "LOG_ENCODING" -> Getenv env1 k = Getenv env2 k) ->
   ConfigFromEnv env1 ToLower Split Atoi = ConfigFromEnv env2 ToLower Split Atoi)
  /\ (forall k,
        ConfigFromEnv (<[k := ""]> env1) ToLower Split Atoi
        = ConfigFromEnv (delete k env1) ToLower Split Atoi).
Proof.
  split; [apply ConfigFromEnv_agree|].
  intros k. apply ConfigFromEnv_agree. intros k' _ _. apply Getenv_insert_empty.
Qed.

Lemma LOG_ENCODING_has_no_effect_witness :
  let env1 : gmap string string :=
    {[ "APP_ENV" := "test"; "LOG_ENCODING" := "json" ]} in
  let env2 : gmap string string :=
    {[ "APP_ENV" := "test"; "LOG_ENCODING" := "console"; "HOME" := "/root" ]} in
  (forall k, In k envKeys -> k <> "LOG_ENCODING" -> Getenv env1 k = Getenv env2 k)
  /\ ConfigFromEnv env1 (fun s => s) (fun s _ => [s]) (fun _ => None)
     = ConfigFromEnv env2 (fun s => s) (fun s _ => [s]) (fun _ => None).
Proof.
  intros env1 env2.
  assert (H : forall k, In k envKeys -> k <> "LOG_ENCODING" ->
                        Getenv env1 k = Getenv env2 k).
  { intros k Hk Hne. vm_compute in Hk.
    repeat (destruct Hk as [<-|Hk];
            [first [vm_compute; reflexivity | contradiction Hne; reflexivity]|]).
    destruct Hk. }
  split; [exact H|].
  exact (proj1 (LOG_ENCODING_has_no_effect env1 env2 (fun s => s) (fun s _ => [s])
                  (fun _ => None)) H).
Defined.

(** * Properties of [NewLogger], [Initialize] and [GetLogger] *)

Section FactoryProperties.

Context {S : Type} `{!lumberjack.Sink S}.
Variable ParseLevel : string -> option zapcore.Level.
Variable MkdirAll : string -> Z -> option error.

#[local] Arguments String.eqb : simpl never.
#[local] Arguments NewTimeRotatingWriter : simpl never.
#[local] Arguments filepath.Dir : simpl never.

Abbreviation newLogger := (NewLogger (S := S) ParseLevel MkdirAll).

Ltac newLogger_cases :=
  unfold NewLogger; cbv zeta;
  repeat match goal with
    | |- context [let '(_, _) := (if ?b then _ else _) in _] => destruct b eqn:?
    | |- context [match (if ?b then _ else _) with _ => _ end] => destruct b eqn:?
    | |- context [if negb ?b then _ else _] => destruct b eqn:?
    | |- context [match MkdirAll ?d ?m with _ => _ end] =>
        destruct (MkdirAll d m) eqn:?
    end;
  cbn [negb fst snd andb].

(** X13. [NewLogger] fails in one case only: a log file is configured,
    [CreateDir] is on and [os.MkdirAll] on the file's directory fails.
    It then returns that error and no logger, and [Initialize] leaves
    the global logger as it was. In every other case a logger is
    returned with no error; an unknown level, environment, encoding or
    rotation mode is never an error. *)
Theorem NewLogger_error_path (local : time.Location) (clock : time.Time)
    (config : Config) (g : option (ZapLogger S)) :
  let fo := FileOptions_ config in
  (newLogger local clock config).2 =
    (if negb (String.eqb (Filename fo) "") && CreateDir fo
     then MkdirAll (filepath.Dir (Filename fo)) 493 else None)
  /\ ((newLogger local clock config).2 = None <->
      (newLogger local clock config).1 <> None)
  /\ (Initialize ParseLevel MkdirAll local clock config g).2
     = (newLogger local clock config).2
  /\ ((newLogger local clock config).2 <> None ->
      (Initialize ParseLevel MkdirAll local clock config g).1 = g)
  /\ ((newLogger local clock config).2 = None ->
      (Initialize ParseLevel MkdirAll local clock config g).1
      = (newLogger local clock config).1).
Proof.
  intros fo. unfold Initialize.
  assert (Hfo : forall e, FileOptions_ (setEncoding config e) = fo) by reflexivity.
  unfold NewLogger. cbv zeta.
  destruct (String.eqb (Environment config) "production");
    rewrite ?Hfo; fold fo;
    destruct (negb (String.eqb (Filename fo) "")); cbn [andb fst snd];
    try (destruct (CreateDir fo); [destruct (MkdirAll _ _)|]; cbn [fst snd]);
    repeat split; intros; try congruence; try discriminate.
Qed.

(** X14. Of [OutputPaths] only the first entry is looked at, and only
    to see whether it is [stdout]: later entries change nothing, every
    first entry other than [stdout] means the same, and an empty list
    means the same as [stdout]. Without a log file the list is not
    looked at at all and the logger writes to stdout. With a log file,
    the logger returned writes to the file writer alone when the first
    entry is not [stdout], and to stdout and the file writer when the
    first entry is [stdout] or the list is empty; the file writer is
    the time-rotating writer for the modes [time] and [both] and the
    plain [lumberjack.Logger] otherwise. So stdout is left out only
    when a log file is configured and the first entry is not
    [stdout]. *)
Theorem output_paths_use (local : time.Location) (clock : time.Time)
    (config : Config) :
  (forall first rest rest',
     newLogger local clock (setOutputPaths config (first :: rest))
     = newLogger local clock (setOutputPaths config (first :: rest')))
  /\ (forall first first' rest,
        first <> "stdout" -> first' <> "stdout" ->
        newLogger local clock (setOutputPaths config (first :: rest))
        = newLogger local clock (setOutputPaths config (first' :: rest)))
  /\ newLogger local clock (setOutputPaths config [])
     = newLogger local clock (setOutputPaths config ["stdout"])
  /\ (Filename (FileOptions_ config) = "" ->
      forall paths,
        newLogger local clock (setOutputPaths config paths)
        = newLogger local clock config
        /\ exists zl, (newLogger local clock config).1 = Some zl
                      /\ ws (core zl) = AddSyncStdout)
  /\ (forall zl,
        (newLogger local clock config).1 = Some zl ->
        ws (core zl) = AddSyncStdout /\ Filename (FileOptions_ config) = ""
        \/ (exists fw, ws (core zl) = NewMultiWriteSyncer [AddSyncStdout; AddSyncFile fw])
        \/ (exists fw first rest,
              ws (core zl) = AddSyncFile fw
              /\ OutputPaths config = first :: rest /\ first <> "stdout"
              /\ Filename (FileOptions_ config) <> ""))
  /\ (forall zl,
        (newLogger local clock config).1 = Some zl ->
        Filename (FileOptions_ config) <> "" ->
        let fo := FileOptions_ config in
        let fileWriter :=
          if String.eqb (RotationMode_ fo) RotationModeTime
             || String.eqb (RotationMode_ fo) RotationModeBoth
          then TimeWriter (NewTimeRotatingWriter local clock fo)
          else SizeWriter
                 (lumberjack.mkLogger (Filename fo) (MaxSize fo) (MaxAge fo)
                    (MaxBackups fo) (LocalTime fo) (Compress fo) lumberjack.fresh) in
        (forall first rest,
           OutputPaths config = first :: rest -> first <> "stdout" ->
           ws (core zl) = AddSyncFile fileWriter)
        /\ (forall rest,
              OutputPaths config = "stdout" :: rest ->
              ws (core zl) = NewMultiWriteSyncer [AddSyncStdout; AddSyncFile fileWriter])
        /\ (OutputPaths config = [] ->
            ws (core zl) = NewMultiWriteSyncer [AddSyncStdout; AddSyncFile fileWriter])).
Proof.
  split; [|split; [|split; [|split; [|split]]]].
  - intros first rest rest'. unfold NewLogger. cbv zeta.
    destruct (String.eqb (Environment _) "production"); reflexivity.
  - intros first first' rest Hf%String.eqb_neq Hf'%String.eqb_neq.
    unfold NewLogger. cbv zeta.
    destruct (String.eqb (Environment _) "production");
      cbn [OutputPaths setOutputPaths setEncoding]; rewrite Hf, Hf'; reflexivity.
  - unfold NewLogger. cbv zeta.
    destruct (String.eqb (Environment _) "production"); reflexivity.
  - intros Hno paths. unfold NewLogger. cbv zeta.
    cbn [Environment Encoding Level FileOptions_ setOutputPaths].
    destruct (String.eqb (Environment config) "production");
      cbn [Environment Encoding Level FileOptions_ setEncoding setOutputPaths];
      rewrite Hno; (split; [reflexivity|]); eexists; split; reflexivity.
  - intros zl. unfold NewLogger. cbv zeta.
    destruct (String.eqb (Environment config) "production");
      cbn [FileOptions_ OutputPaths setEncoding];
      (destruct (String.eqb (Filename (FileOptions_ config)) "") eqn:Hfile;
       cbn [negb];
       [apply String.eqb_eq in Hfile; intros [= <-]; left; split; [reflexivity|exact Hfile]
       |apply String.eqb_neq in Hfile;
        destruct (if CreateDir _ then _ else None); [discriminate|];
        destruct (OutputPaths config) as [|first rest];
        [intros [= <-]; right; left; eexists; reflexivity|];
        destruct (String.eqb first "stdout") eqn:Hfirst; cbn [negb];
        intros [= <-]; right;
        [left; eexists; reflexivity
        |right; apply String.eqb_neq in Hfirst; do 3 eexists; repeat split; auto]]).
  - intros zl Hzl Hfile%String.eqb_neq fo fileWriter. revert Hzl.
    unfold NewLogger. cbv zeta.
    destruct (String.eqb (Environment config) "production");
      cbn [FileOptions_ OutputPaths setEncoding]; rewrite Hfile; cbn [negb];
      (destruct (if CreateDir _ then _ else None); [discriminate|]);
      intros [= <-]; cbn [ws core];
      (split; [|split]).
    all: try (intros first rest -> Hfirst%String.eqb_neq; rewrite Hfirst; reflexivity).
    all: try (intros rest ->; reflexivity).
    all: intros ->; reflexivity.
Qed.

(** X15. The encoder depends on the environment and the encoding only:
    for [production] it is the JSON encoder on zap's production preset
    whatever [Encoding] says; for every other environment it is on the
    development preset with the colour level encoder, JSON exactly when
    [Encoding] is the string [json] and console otherwise. The time key
    is always [timestamp] with the ISO 8601 time encoder, and a level
    [zapcore.ParseLevel] rejects becomes [InfoLevel]. *)
Theorem encoder_and_level (local : time.Location) (clock : time.Time)
    (config : Config) (zl : ZapLogger S) :
  (newLogger local clock config).1 = Some zl ->
  let cfg p lvl :=
    zapcore.mkEncoderConfig p lvl (Some "timestamp") (Some zapcore.ISO8601TimeEncoder) in
  enc (core zl) =
    (if String.eqb (Environment config) "production" then
       zapcore.NewJSONEncoder (cfg zapcore.ProductionEncoderConfig None)
     else if String.eqb (Encoding config) "json" then
       zapcore.NewJSONEncoder
         (cfg zapcore.DevelopmentEncoderConfig (Some zapcore.CapitalColorLevelEncoder))
     else
       zapcore.NewConsoleEncoder
         (cfg zapcore.DevelopmentEncoderConfig (Some zapcore.CapitalColorLevelEncoder)))
  /\ enab (core zl) = default zapcore.InfoLevel (ParseLevel (Level config))
  /\ zapOptions zl = [AddCaller; AddStacktrace zapcore.ErrorLevel].
Proof.
  unfold NewLogger. cbv zeta.
  destruct (String.eqb (Environment config) "production");
    cbn [Encoding Level FileOptions_ OutputPaths setEncoding zapcore.preset
           zapcore.EncodeLevel];
    change (String.eqb "json" "json") with true; cbv iota;
    destruct (negb (String.eqb (Filename (FileOptions_ config)) ""));
    try (destruct (if CreateDir _ then _ else None); [discriminate|]);
    intros [= <-]; cbn [enc enab core zapOptions];
    destruct (ParseLevel (Level config)); repeat split.
Qed.

(** X16. In every rotation mode other than [time] and [both] ([size],
    the empty string, any unknown word) the file sink is lumberjack
    bound to the configured file name as it is: the interval, the
    layout, the machine's location and the clock play no part in what
    [NewLogger] returns. *)
Theorem other_modes_ignore_time_rotation (local local' : time.Location)
    (clock clock' : time.Time) (config : Config)
    (interval : TimeRotationInterval) (format : string) :
  RotationMode_ (FileOptions_ config) <> RotationModeTime ->
  RotationMode_ (FileOptions_ config) <> RotationModeBoth ->
  newLogger local' clock' (withIntervalAndFormat config interval format)
  = newLogger local clock config
  /\ (Filename (FileOptions_ config) <> "" ->
      forall zl, (newLogger local clock config).1 = Some zl ->
      let fo := FileOptions_ config in
      let fw := SizeWriter
                  (lumberjack.mkLogger (Filename fo) (MaxSize fo) (MaxAge fo)
                     (MaxBackups fo) (LocalTime fo) (Compress fo) lumberjack.fresh) in
      ws (core zl) = AddSyncFile fw
      \/ ws (core zl) = NewMultiWriteSyncer [AddSyncStdout; AddSyncFile fw]).
Proof.
  intros Ht%String.eqb_neq Hb%String.eqb_neq. split.
  - unfold NewLogger. cbv zeta.
    destruct (String.eqb (Environment _) "production") eqn:Henv;
      cbn [Environment Encoding Level FileOptions_ OutputPaths setEncoding
             withIntervalAndFormat withFileOptions setFileOptions
             Filename MaxSize MaxAge MaxBackups LocalTime Compress CreateDir
             RotationMode_] in *;
      rewrite ?Henv, ?Ht, ?Hb; reflexivity.
  - intros Hfile%String.eqb_neq zl. unfold NewLogger. cbv zeta.
    destruct (String.eqb (Environment config) "production");
      cbn [FileOptions_ OutputPaths setEncoding]; rewrite Hfile, Ht, Hb; cbn [negb orb];
      (destruct (if CreateDir _ then _ else None); [discriminate|]);
      (destruct (OutputPaths config) as [|first rest];
       [|destruct (negb (String.eqb first "stdout"))]);
      intros [= <-]; cbn [ws core]; auto.
Qed.

End FactoryProperties.

(** ** The [time] and [both] modes *)

Section TimeAndBoth.

Context {S : Type} `{!lumberjack.Sink S}.
Implicit Types (w : TimeRotatingWriter S).

#[local] Arguments generateTimestampedFilename : simpl never.
#[local] Arguments adjust : simpl never.

Lemma Write_sameRotationState w1 w2 local clock p :
  sameRotationState w1 w2 ->
  let '(r1, w1', tr1) := Write local clock p w1 in
  let '(r2, w2', tr2) := Write local clock p w2 in
  r1 = r2 /\ tr1 = tr2 /\ sameRotationState w1' w2'.
Proof.
  intros (Hl & Hf & Ht & Hb & Hloc & Hiv).
  assert (Hadj : adjust (options w1) local clock = adjust (options w2) local clock).
  { unfold adjust. rewrite Hloc. reflexivity. }
  destruct (shouldRotate (interval w1) (lastRotationTime w1)
              (adjust (options w1) local clock)) eqn:H1.
  - assert (H2 : shouldRotate (interval w2) (lastRotationTime w2)
                   (adjust (options w2) local clock) = true).
    { unfold interval in *. rewrite <- Hiv, <- Ht, <- Hadj. exact H1. }
    destruct (lumberjack.close (Logger w1)) as [s [e|]] eqn:Hc1.
    + assert (Hc2 := Hc1). rewrite Hl in Hc2.
      rewrite (Write_close_error _ _ _ _ _ _ H1 Hc1),
        (Write_close_error _ _ _ _ _ _ H2 Hc2).
      unfold sameRotationState. cbn. rewrite Hl. repeat split; assumption.
    + assert (Hc2 := Hc1). rewrite Hl in Hc2.
      rewrite (Write_rotates _ _ _ _ _ H1 Hc1), (Write_rotates _ _ _ _ _ H2 Hc2).
      cbn zeta. unfold LoggerWrite.
      assert (Hrot : Logger (rotated w1 (adjust (options w1) local clock) s)
                     = Logger (rotated w2 (adjust (options w2) local clock) s)).
      { unfold rotated. cbn. rewrite Hl, Hb, Hf, Hadj. reflexivity. }
      rewrite Hrot.
      destruct (lumberjack.write _ p) as [s' [n err]].
      unfold sameRotationState. cbn. rewrite Hl, Hb, Hf, Hadj.
      repeat split; assumption.
  - assert (H2 : shouldRotate (interval w2) (lastRotationTime w2)
                   (adjust (options w2) local clock) = false).
    { unfold interval in *. rewrite <- Hiv, <- Ht, <- Hadj. exact H1. }
    rewrite (Write_same_bucket _ _ _ _ H1), (Write_same_bucket _ _ _ _ H2).
    unfold LoggerWrite. rewrite Hl.
    destruct (lumberjack.write _ p) as [s' [n err]].
    unfold sameRotationState. cbn. repeat split; assumption.
Qed.

(** X17. The writers built for the modes [time] and [both] are bound
    to the same sink with the same size limit, and they behave alike:
    on any run of calls they return the same results, make the same
    sink calls and end in the same rotation state. Mode [time] does
    not switch the sink's rotation by size off. *)
Theorem time_and_both_modes_coincide (local : time.Location) (clock : time.Time)
    (config : Config) (calls : list (time.Time * list Byte.byte)) :
  let wT := NewTimeRotatingWriter (S := S) local clock
              (FileOptions_ (WithRotationMode config RotationModeTime)) in
  let wB := NewTimeRotatingWriter (S := S) local clock
              (FileOptions_ (WithRotationMode config RotationModeBoth)) in
  Logger wT = Logger wB
  /\ lumberjack.MaxSize (Logger wT) = MaxSize (FileOptions_ config)
  /\ (WriteAll local calls wT).1.1 = (WriteAll local calls wB).1.1
  /\ (WriteAll local calls wT).2 = (WriteAll local calls wB).2
  /\ sameRotationState (WriteAll local calls wT).1.2 (WriteAll local calls wB).1.2.
Proof.
  intros wT wB.
  assert (H0 : sameRotationState wT wB) by (repeat split).
  split; [reflexivity|]. split; [reflexivity|].
  clearbody wT wB. revert wT wB H0.
  induction calls as [|[c p] rest IH]; intros w1 w2 H0.
  - cbn. repeat split; apply H0.
  - rewrite !WriteAll_cons.
    pose proof (Write_sameRotationState w1 w2 local c p H0) as Hstep.
    destruct (Write local c p w1) as [[r1 w1'] tr1].
    destruct (Write local c p w2) as [[r2 w2'] tr2].
    destruct Hstep as (-> & -> & H1).
    specialize (IH w1' w2' H1).
    destruct (WriteAll local rest w1') as [[rs1 w1''] trs1].
    destruct (WriteAll local rest w2') as [[rs2 w2''] trs2].
    cbn [fst snd] in *. destruct IH as (-> & -> & H2).
    repeat split; apply H2.
Qed.

End TimeAndBoth.

(** ** [GetLogger] *)

(** X18. [GetLogger] always returns a logger: the configuration it
    builds has no log file, so [NewLogger] cannot fail on it. The
    logger it builds writes to stdout only. Once the global logger is
    set, [GetLogger] returns it as it is and reads neither the
    environment nor the clock again. *)
Theorem GetLogger_initialises_once {S : Type} `{!lumberjack.Sink S}
    (ParseLevel ParseLevel' : string -> option zapcore.Level)
    (MkdirAll MkdirAll' : string -> Z -> option error)
    (local local' : time.Location) (clock clock' : time.Time)
    (environ environ' : gmap string string) (ToLower ToLower' : string -> string)
    (g : option (ZapLogger S)) :
  let first := GetLogger ParseLevel MkdirAll local clock environ ToLower g in
  first.2 <> None
  /\ first.1 = first.2
  /\ (g <> None -> first.2 = g)
  /\ (g = None -> exists zl, first.2 = Some zl /\ ws (core zl) = AddSyncStdout)
  /\ GetLogger ParseLevel' MkdirAll' local' clock' environ' ToLower' first.1 = first.
Proof.
  unfold GetLogger. destruct g as [zl|].
  - cbn. repeat split; congruence.
  - cbv zeta. unfold Initialize, NewLogger. cbv zeta.
    destruct (negb (String.eqb (Getenv environ "APP_ENV") ""));
      destruct (negb (String.eqb (Getenv environ "LOG_LEVEL") ""));
      cbn [Environment Encoding Level FileOptions_ setEnvironment setLevel
             DefaultConfig];
      destruct (String.eqb _ "production"); cbn;
      (repeat split; [discriminate|congruence|intros _; eexists; split; reflexivity]).
Qed.

(** ** The theorems above on sample inputs *)

Lemma level_from_env_witness :
  Getenv Host.testEnviron "LOG_LEVEL" = ""
  /\ Environment (ConfigFromEnv Host.testEnviron Host.sameString Host.noSplit
                    Host.noNumber) = EnvTest
  /\ Level (ConfigFromEnv Host.testEnviron Host.sameString Host.noSplit
               Host.noNumber) = LevelInfo.
Proof.
  assert (H0 : Getenv Host.testEnviron "LOG_LEVEL" = "") by (vm_compute; reflexivity).
  split; [exact H0|]. split; [vm_compute; reflexivity|].
  exact (proj1 (level_from_env Host.testEnviron Host.sameString Host.noSplit
                  Host.noNumber) H0).
Defined.

Lemma no_variables_gives_default_witness :
  (forall k, In k envKeys -> Getenv Host.homeEnviron k = "")
  /\ ConfigFromEnv Host.homeEnviron Host.sameString Host.noSplit Host.noNumber
     = DefaultConfig.
Proof.
  assert (H0 : forall k, In k envKeys -> Getenv Host.homeEnviron k = "").
  { intros k Hk. vm_compute in Hk.
    repeat (destruct Hk as [<-|Hk]; [vm_compute; reflexivity|]). destruct Hk. }
  split; [exact H0|].
  exact (no_variables_gives_default Host.homeEnviron Host.sameString Host.noSplit
           Host.noNumber H0).
Defined.

(** A Daily file configuration whose directory cannot be created. *)
Lemma NewLogger_error_path_witness :
  let r := NewLogger (S := MemSink.Mem) Host.parseLevel Host.mkdirDenied
             time.UTCLoc Sample.jan1 Host.fileConfig in
  r.2 = Some "mkdir /var/log: permission denied"
  /\ r.2 <> None
  /\ (Initialize Host.parseLevel Host.mkdirDenied time.UTCLoc Sample.jan1
        Host.fileConfig (None : option (ZapLogger MemSink.Mem))).1 = None.
Proof.
  intros r.
  assert (H0 : r.2 = Some "mkdir /var/log: permission denied")
    by (vm_compute; reflexivity).
  assert (H1 : r.2 <> None) by (rewrite H0; discriminate).
  split; [exact H0|]. split; [exact H1|].
  exact (proj1 (proj2 (proj2 (proj2
           (NewLogger_error_path (S := MemSink.Mem) Host.parseLevel Host.mkdirDenied
              time.UTCLoc Sample.jan1 Host.fileConfig None)))) H1).
Defined.

Lemma output_paths_use_witness :
  let config := setOutputPaths Host.fileConfig ["file"; "stdout"] in
  let new := NewLogger (S := MemSink.Mem) Host.parseLevel Host.mkdirOK time.UTCLoc
               Sample.jan1 in
  "file" <> "stdout" /\ "stderr" <> "stdout"
  /\ Filename (FileOptions_ config) <> ""
  /\ new config = new (setOutputPaths Host.fileConfig ["stderr"; "stdout"])
  /\ exists zl,
       (new config).1 = Some zl
       /\ ws (core zl) =
            AddSyncFile
              (TimeWriter
                 (NewTimeRotatingWriter time.UTCLoc Sample.jan1 (FileOptions_ config))).
Proof.
  intros config new.
  assert (H1 : "file" <> "stdout") by discriminate.
  assert (H2 : "stderr" <> "stdout") by discriminate.
  assert (H3 : Filename (FileOptions_ config) <> "") by (vm_compute; discriminate).
  split; [exact H1|]. split; [exact H2|]. split; [exact H3|]. split.
  - exact (proj1 (proj2 (output_paths_use (S := MemSink.Mem) Host.parseLevel Host.mkdirOK
                           time.UTCLoc Sample.jan1 Host.fileConfig))
             "file" "stderr" ["stdout"] H1 H2).
  - destruct (new config) as [[zl|] err] eqn:Hnew.
    + exists zl. split; [reflexivity|].
      exact (proj1 (proj2 (proj2 (proj2 (proj2 (proj2
               (output_paths_use (S := MemSink.Mem) Host.parseLevel Host.mkdirOK
                  time.UTCLoc Sample.jan1 config))))) zl (f_equal fst Hnew) H3)
               "file" ["stdout"] eq_refl H1).
    + exfalso. vm_compute in Hnew. discriminate Hnew.
Defined.

(** The staging configuration [ConfigFromEnv] produces has [json]
    encoding; its logger is on the development preset with the colour
    level encoder. *)
Lemma encoder_and_level_witness :
  let config := setEncoding (setEnvironment DefaultConfig EnvStaging) EncodingJSON in
  exists zl : ZapLogger MemSink.Mem,
    (NewLogger Host.parseLevel Host.mkdirOK time.UTCLoc Sample.jan1 config).1 = Some zl
    /\ enc (core zl) =
         zapcore.NewJSONEncoder
           (zapcore.mkEncoderConfig zapcore.DevelopmentEncoderConfig
              (Some zapcore.CapitalColorLevelEncoder) (Some "timestamp")
              (Some zapcore.ISO8601TimeEncoder))
    /\ enab (core zl) = 0.
Proof.
  intros config.
  eexists. split; [vm_compute; reflexivity|].
  match goal with
  | |- enc (core ?zl) = _ /\ _ =>
      pose proof (encoder_and_level (S := MemSink.Mem) Host.parseLevel Host.mkdirOK
                    time.UTCLoc Sample.jan1 config zl eq_refl) as (He & Hl & _)
  end.
  split; [exact He|exact Hl].
Defined.

Lemma other_modes_ignore_time_rotation_witness :
  RotationMode_ (FileOptions_ Host.sizeConfig) <> RotationModeTime
  /\ RotationMode_ (FileOptions_ Host.sizeConfig) <> RotationModeBoth
  /\ NewLogger (S := MemSink.Mem) Host.parseLevel Host.mkdirOK time.UTCLoc Sample.jan3
       (withIntervalAndFormat Host.sizeConfig RotationHourly "2006")
     = NewLogger Host.parseLevel Host.mkdirOK time.UTCLoc Sample.jan1 Host.sizeConfig.
Proof.
  assert (H1 : RotationMode_ (FileOptions_ Host.sizeConfig) <> RotationModeTime)
    by (vm_compute; discriminate).
  assert (H2 : RotationMode_ (FileOptions_ Host.sizeConfig) <> RotationModeBoth)
    by (vm_compute; discriminate).
  split; [exact H1|]. split; [exact H2|].
  exact (proj1 (other_modes_ignore_time_rotation (S := MemSink.Mem) Host.parseLevel
                  Host.mkdirOK time.UTCLoc time.UTCLoc Sample.jan1 Sample.jan3
                  Host.sizeConfig RotationHourly "2006" H1 H2)).
Defined.

Lemma GetLogger_initialises_once_witness :
  exists zl : ZapLogger MemSink.Mem,
    (GetLogger Host.parseLevel Host.mkdirDenied time.UTCLoc Sample.jan1
       Host.testEnviron Host.sameString None).2 = Some zl
    /\ ws (core zl) = AddSyncStdout.
Proof.
  exact (proj1 (proj2 (proj2 (proj2
           (GetLogger_initialises_once (S := MemSink.Mem)
              Host.parseLevel Host.parseLevel Host.mkdirDenied Host.mkdirOK
              time.UTCLoc time.UTCLoc Sample.jan1 Sample.jan3
              Host.testEnviron Host.homeEnviron Host.sameString Host.sameString
              None)))) eq_refl).
Defined.

(** * Where the generated file lies *)

Section CleanPaths.

Import time Strings filepath.

Lemma append_cons (c : ascii) (a b : string) : String c a +:+ b = String c (a +:+ b).
Proof. reflexivity. Qed.

Lemma elements_nonempty (p : string) : elements p <> [].
Proof.
  induction p as [|c p IH]; cbn; [discriminate|].
  destruct (isSep c); [discriminate|].
  destruct (elements p); [contradiction|discriminate].
Qed.

Lemma elements_single (s : string) :
  hasByte Separator s = false -> elements s = [s].
Proof.
  induction s as [|c s IH]; [reflexivity|].
  cbn [hasByte elements]. intros H. apply orb_false_iff in H as [Hc Hs].
  unfold isSep. rewrite Hc, (IH Hs). reflexivity.
Qed.

Lemma elements_app_sep (a b : string) :
  elements (a +:+ String Separator b) = (elements a ++ elements b)%list.
Proof.
  induction a as [|c a IH]; [reflexivity|].
  rewrite append_cons. cbn [elements]. rewrite IH.
  destruct (isSep c); [reflexivity|].
  pose proof (elements_nonempty a) as Hne.
  destruct (elements a); [contradiction|reflexivity].
Qed.

Lemma Join_cons (e : string) (l : list string) :
  l <> [] -> Strings.Join (e :: l) "/" = e +:+ String Separator (Strings.Join l "/").
Proof. destruct l; [contradiction|reflexivity]. Qed.

Lemma elements_Join (l : list string) :
  l <> [] -> Forall (fun e => hasByte Separator e = false) l ->
  elements (Strings.Join l "/") = l.
Proof.
  induction l as [|e l IH]; [contradiction|]. intros _ Hall.
  apply Forall_cons in Hall as [He Hl].
  destruct l as [|e' l'].
  - cbn. apply elements_single. exact He.
  - rewrite Join_cons by discriminate. rewrite elements_app_sep.
    rewrite (elements_single e He), IH by (discriminate || assumption).
    reflexivity.
Qed.

Lemma Join_snoc (l : list string) (e : string) :
  Strings.Join (l ++ [e]) "/" =
    match l with
    | [] => e
    | _ => Strings.Join l "/" +:+ String Separator e
    end.
Proof.
  induction l as [|a l IH]; [reflexivity|].
  destruct l as [|b l']; [reflexivity|].
  change ((a :: b :: l') ++ [e])%list with (a :: ((b :: l') ++ [e]))%list.
  rewrite Join_cons by (intros Hx; discriminate Hx).
  rewrite IH, (Join_cons a (b :: l')) by (intros Hx; discriminate Hx).
  rewrite append_assoc, append_cons. reflexivity.
Qed.

Lemma realElement_eqb (e : string) :
  realElement e ->
  String.eqb e "" = false /\ String.eqb e "." = false /\ String.eqb e ".." = false.
Proof. intros (H1 & H2 & H3 & _). rewrite !String.eqb_neq. auto. Qed.

Lemma cleanLoop_real (rooted : bool) (l : list string) : forall ups acc,
  Forall realElement l ->
  cleanLoop rooted l ups acc = (ups, (rev l ++ acc)%list).
Proof.
  induction l as [|e l IH]; intros ups acc Hall; [reflexivity|].
  apply Forall_cons in Hall as [He Hl].
  destruct (realElement_eqb e He) as (H1 & H2 & H3).
  cbn [cleanLoop]. rewrite H1, H2, H3. cbn [orb].
  rewrite (IH _ _ Hl). cbn [rev]. rewrite <- app_assoc. reflexivity.
Qed.

Lemma cleanLoop_app (rooted : bool) (l1 l2 : list string) : forall ups acc,
  cleanLoop rooted (l1 ++ l2) ups acc =
    let '(u, o) := cleanLoop rooted l1 ups acc in cleanLoop rooted l2 u o.
Proof.
  induction l1 as [|e l1 IH]; intros ups acc; [reflexivity|].
  cbn [app cleanLoop].
  destruct (String.eqb e "" || String.eqb e "."); [apply IH|].
  destruct (String.eqb e ".."); [|apply IH].
  destruct acc; [destruct rooted|]; apply IH.
Qed.

Lemma cleanLoop_ups (k : nat) : forall ups,
  cleanLoop false (List.repeat ".." k) ups [] = ((ups + k)%nat, []).
Proof.
  induction k as [|k IH]; intros ups; cbn [List.repeat cleanLoop].
  - rewrite Nat.add_0_r. reflexivity.
  - change (String.eqb ".." "" || String.eqb ".." ".") with false.
    change (String.eqb ".." "..") with true. cbv iota.
    rewrite IH. f_equal. lia.
Qed.

Lemma elements_sepfree (p : string) :
  Forall (fun e => hasByte Separator e = false) (elements p).
Proof.
  induction p as [|c p IH]; cbn [elements]; [repeat constructor|].
  destruct (isSep c) eqn:Hc; [constructor; [reflexivity|exact IH]|].
  destruct (elements p) as [|e es]; [repeat constructor; cbn; unfold isSep in Hc;
                                      rewrite Hc; reflexivity|].
  apply Forall_cons in IH as [He Hes]. constructor; [|exact Hes].
  cbn [hasByte]. unfold isSep in Hc. rewrite Hc, He. reflexivity.
Qed.

(** What the loop of [Clean] keeps are real elements, and at the root
    no [..] is kept. *)
Lemma cleanLoop_keeps (rooted : bool) (l : list string) : forall ups acc,
  Forall (fun e => hasByte Separator e = false) l ->
  Forall realElement acc -> (rooted = true -> ups = 0%nat) ->
  Forall realElement (cleanLoop rooted l ups acc).2
  /\ (rooted = true -> (cleanLoop rooted l ups acc).1 = 0%nat).
Proof.
  induction l as [|e l IH]; intros ups acc Hl Hacc Hups; [split; assumption|].
  apply Forall_cons in Hl as [He Hl]. cbn [cleanLoop].
  destruct (String.eqb e "") eqn:H1; [apply IH; assumption|].
  destruct (String.eqb e ".") eqn:H2; [apply IH; assumption|]. cbn [orb].
  destruct (String.eqb e "..") eqn:H3.
  - destruct acc as [|a acc'].
    + destruct rooted; apply IH; auto. discriminate.
    + apply IH; auto. apply Forall_cons in Hacc as [_ Hacc]. exact Hacc.
  - apply IH; auto. constructor; [|exact Hacc].
    apply String.eqb_neq in H1, H2, H3. repeat split; assumption.
Qed.

Lemma Clean_unfold (c : ascii) (rest : string) :
  Clean (String c rest) =
    let '(ups, out) := cleanLoop (isSep c) (elements (String c rest)) 0 [] in
    rendered (isSep c) ups out.
Proof. unfold Clean, rendered. destruct (cleanLoop _ _ _ _). reflexivity. Qed.

(** Every result of [Clean] is a rendered list of real elements. *)
Lemma Clean_rendered (path : string) :
  exists rooted ups out,
    Clean path = rendered rooted ups out
    /\ Forall realElement out /\ (rooted = true -> ups = 0%nat).
Proof.
  destruct path as [|c rest].
  - exists false, 0%nat, []. repeat split. constructor.
  - rewrite Clean_unfold.
    pose proof (cleanLoop_keeps (isSep c) (elements (String c rest)) 0 []
                  (elements_sepfree _) ltac:(constructor) (fun _ => eq_refl)) as [Ho Hu].
    destruct (cleanLoop _ _ _ _) as [ups out]. exists (isSep c), ups, out.
    repeat split; assumption.
Qed.

Lemma Join_head (e : string) (l : list string) (c : ascii) (e' : string) :
  e = String c e' -> exists rest, Strings.Join (e :: l) "/" = String c rest.
Proof.
  intros ->. destruct l as [|b l'].
  - exists e'. reflexivity.
  - rewrite Join_cons by discriminate. rewrite append_cons. eexists. reflexivity.
Qed.

Lemma realElement_head (e : string) :
  realElement e -> exists c e', e = String c e' /\ isSep c = false.
Proof.
  intros (Hne & _ & _ & Hsep). destruct e as [|c e']; [contradiction|].
  exists c, e'. split; [reflexivity|].
  cbn [hasByte] in Hsep. apply orb_false_iff in Hsep as [Hc _]. exact Hc.
Qed.

Lemma realElement_sepfree (l : list string) :
  Forall realElement l -> Forall (fun e => hasByte Separator e = false) l.
Proof.
  intros Hall. eapply Forall_impl; [exact Hall|]. intros e (_ & _ & _ & He). exact He.
Qed.

(** The elements the rendered path starts with. *)
Lemma spine_head (ups : nat) (out : list string) :
  Forall realElement out ->
  (List.repeat ".." ups ++ rev out)%list <> [] ->
  exists c rest,
    Strings.Join (List.repeat ".." ups ++ rev out) "/" = String c rest
    /\ isSep c = false.
Proof.
  intros Hout Hne.
  destruct ups as [|k].
  - cbn [List.repeat app] in *. destruct (rev out) as [|e l] eqn:Hrev; [contradiction|].
    assert (He : realElement e).
    { apply Forall_rev in Hout. rewrite Hrev in Hout.
      apply Forall_cons in Hout as [He _]. exact He. }
    destruct (realElement_head e He) as (c & e' & -> & Hc).
    destruct (Join_head (String c e') l c e' eq_refl) as [rest Hj].
    exists c, rest. split; assumption.
  - cbn [List.repeat app].
    destruct (Join_head ".." (List.repeat ".." k ++ rev out) "." "." eq_refl)
      as [rest Hj].
    exists "."%char, rest. split; [exact Hj|reflexivity].
Qed.

Lemma rendered_head (rooted : bool) (ups : nat) (out : list string) :
  Forall realElement out ->
  exists c rest, rendered rooted ups out = String c rest /\ isSep c = rooted.
Proof.
  intros Hout. unfold rendered. cbv zeta. destruct rooted.
  - eexists _, _. split; reflexivity.
  - destruct (List.repeat ".." ups ++ rev out)%list as [|e l] eqn:Hl.
    + exists "."%char, "". split; reflexivity.
    + assert (Hne : (List.repeat ".." ups ++ rev out)%list <> [])
        by (rewrite Hl; discriminate).
      destruct (spine_head ups out Hout Hne) as (c & rest & Hj & Hc).
      rewrite Hl in Hj. rewrite Hj. exists c, rest. split; [reflexivity|exact Hc].
Qed.

Lemma spine_sepfree (ups : nat) (out : list string) :
  Forall realElement out ->
  Forall (fun e => hasByte Separator e = false) (List.repeat ".." ups ++ rev out).
Proof.
  intros Hout. apply Forall_app. split.
  - induction ups; cbn; constructor; [reflexivity|assumption].
  - apply realElement_sepfree. apply Forall_rev. exact Hout.
Qed.

(** Running the loop of [Clean] on a rendered path gives back what
    was rendered. *)
Lemma rev_cons_nonempty {A} (a : A) (l : list A) : rev (a :: l) <> [].
Proof. cbn [rev]. intros Hx. apply app_eq_nil in Hx as [_ Hx]. discriminate Hx. Qed.

Lemma rendered_elements (rooted : bool) (ups : nat) (out : list string) :
  Forall realElement out -> (rooted = true -> ups = 0%nat) ->
  cleanLoop rooted (elements (rendered rooted ups out)) 0 [] = (ups, out).
Proof.
  intros Hout Hups.
  assert (Hrev : Forall realElement (rev out)) by (apply Forall_rev; exact Hout).
  unfold rendered. cbv zeta. destruct rooted.
  - rewrite (Hups eq_refl). cbn [List.repeat app].
    change (elements (String Separator ?b)) with ("" :: elements b).
    destruct out as [|a out']; [reflexivity|].
    rewrite elements_Join
      by first [apply rev_cons_nonempty | apply realElement_sepfree; exact Hrev].
    cbn [cleanLoop]. change (String.eqb "" "" || String.eqb "" ".") with true.
    cbv iota. rewrite cleanLoop_real by exact Hrev.
    rewrite rev_involutive, app_nil_r. reflexivity.
  - destruct (List.repeat ".." ups ++ rev out)%list as [|e l] eqn:Hl.
    + apply app_eq_nil in Hl as [Hu Ho].
      destruct ups; [|discriminate].
      apply (f_equal (@rev string)) in Ho. rewrite rev_involutive in Ho. subst out.
      reflexivity.
    + assert (Hne : (List.repeat ".." ups ++ rev out)%list <> [])
        by (rewrite Hl; discriminate).
      destruct (spine_head ups out Hout Hne) as (c & rest & Hj & _).
      rewrite <- Hl. rewrite Hj. change (String.eqb (String c rest) "") with false.
      cbv iota. rewrite <- Hj.
      rewrite elements_Join by first [exact Hne | apply spine_sepfree; exact Hout].
      rewrite cleanLoop_app, cleanLoop_ups. cbn [Nat.add].
      rewrite cleanLoop_real by exact Hrev.
      rewrite rev_involutive, app_nil_r. reflexivity.
Qed.

(** Cleaning a rendered path extended by one more element runs the
    loop on that element alone. *)
Lemma Clean_snoc (rooted : bool) (ups : nat) (out : list string) (e : string) :
  Forall realElement out -> (rooted = true -> ups = 0%nat) ->
  hasByte Separator e = false ->
  Clean (rendered rooted ups out +:+ String Separator e) =
    let '(u, o) := cleanLoop rooted [e] ups out in rendered rooted u o.
Proof.
  intros Hout Hups He.
  destruct (rendered_head rooted ups out Hout) as (c & rest & Hr & Hc).
  assert (Hel : elements (rendered rooted ups out +:+ String Separator e)
                = (elements (rendered rooted ups out) ++ [e])%list).
  { rewrite elements_app_sep, (elements_single e He). reflexivity. }
  rewrite Hr in Hel |- *. rewrite append_cons in Hel |- *.
  rewrite Clean_unfold, Hel, Hc, cleanLoop_app.
  rewrite <- Hr, (rendered_elements rooted ups out Hout Hups).
  reflexivity.
Qed.

(** The rendered path with one more real element is the rendered
    path, a separator where one is needed, and the element. *)
Lemma rendered_snoc (rooted : bool) (ups : nat) (out : list string) (name : string) :
  Forall realElement out -> (rooted = true -> ups = 0%nat) -> realElement name ->
  exists P,
    rendered rooted ups (name :: out) = P +:+ name
    /\ Clean P = rendered rooted ups out
    /\ (P = "" \/ exists P', P = P' +:+ String Separator "").
Proof.
  intros Hout Hups Hname.
  assert (Hspine : (List.repeat ".." ups ++ rev (name :: out))%list
                   = ((List.repeat ".." ups ++ rev out) ++ [name])%list).
  { cbn [rev]. rewrite app_assoc. reflexivity. }
  destruct (realElement_head name Hname) as (c & name' & Hn & Hc).
  destruct Hname as (_ & _ & _ & Hsep).
  unfold rendered at 1. cbv zeta. rewrite Hspine, Join_snoc.
  destruct (List.repeat ".." ups ++ rev out)%list as [|e l] eqn:Hl.
  - apply app_eq_nil in Hl as [Hu Ho].
    assert (ups = 0%nat) by (destruct ups; [reflexivity|discriminate]). subst ups.
    apply (f_equal (@rev string)) in Ho. rewrite rev_involutive in Ho. subst out.
    destruct rooted.
    + exists (String Separator ""). repeat split. right. exists "". reflexivity.
    + exists "". rewrite Hn. repeat split. left. reflexivity.
  - assert (Hne : (List.repeat ".." ups ++ rev out)%list <> [])
      by (rewrite Hl; discriminate).
    destruct (spine_head ups out Hout Hne) as (c0 & rest & Hj & Hc0).
    rewrite <- Hl.
    exists (rendered rooted ups out +:+ String Separator "").
    assert (Hclean : Clean (rendered rooted ups out +:+ String Separator "")
                     = rendered rooted ups out).
    { rewrite Clean_snoc by (assumption || reflexivity). reflexivity. }
    split; [|split; [exact Hclean|right; eexists; reflexivity]].
    unfold rendered. cbv zeta. rewrite Hj.
    change (String.eqb (String c0 rest) "") with false. cbv iota.
    destruct rooted.
    + rewrite !append_cons, !append_assoc. reflexivity.
    + rewrite append_cons.
      change (String.eqb (String c0 (rest +:+ String Separator name)) "") with false.
      cbv iota. rewrite <- append_cons, !append_assoc. reflexivity.
Qed.

Lemma fromSepRev_app (a b : string) :
  hasByte Separator a = false -> fromSepRev (a +:+ b) = fromSepRev b.
Proof.
  induction a as [|c a IH]; [reflexivity|].
  cbn [hasByte]. intros H. apply orb_false_iff in H as [Hc Ha].
  rewrite append_cons. cbn [fromSepRev]. unfold isSep. rewrite Hc. exact (IH Ha).
Qed.

Lemma uptoSepRev_app (a b : string) :
  hasByte Separator a = false -> uptoSepRev (a +:+ b) = a +:+ uptoSepRev b.
Proof.
  induction a as [|c a IH]; [reflexivity|].
  cbn [hasByte]. intros H. apply orb_false_iff in H as [Hc Ha].
  rewrite !append_cons. cbn [uptoSepRev]. unfold isSep. rewrite Hc, (IH Ha).
  reflexivity.
Qed.

(** What is left of a reversed directory part: nothing, or it starts
    at a separator. *)
Lemma rev_directory_part (P : string) :
  P = "" \/ (exists P', P = P' +:+ String Separator "") ->
  fromSepRev (revString P "") = revString P ""
  /\ uptoSepRev (revString P "") = "".
Proof.
  intros [->|[P' ->]]; [split; reflexivity|].
  rewrite revString_app. split; reflexivity.
Qed.

(** [Dir] and [Base] of a directory part followed by one element. *)
Lemma Dir_Base_snoc (P name : string) :
  P = "" \/ (exists P', P = P' +:+ String Separator "") ->
  name <> "" -> hasByte Separator name = false ->
  Dir (P +:+ name) = Clean P /\ Base (P +:+ name) = name.
Proof.
  intros HP Hne Hsep.
  destruct (rev_directory_part P HP) as [Hfrom Hupto].
  assert (Hrsep : hasByte Separator (revString name "") = false)
    by (rewrite hasByte_rev; exact Hsep).
  split.
  - unfold Dir. rewrite revString_app, (fromSepRev_app _ _ Hrsep), Hfrom.
    rewrite revString_involutive. reflexivity.
  - unfold Base.
    destruct (P +:+ name) as [|c x] eqn:Hx.
    { destruct P; [cbn in Hx; contradiction|discriminate]. }
    rewrite <- Hx. rewrite revString_app.
    destruct (revString name "") as [|c' r'] eqn:Hr.
    { apply (f_equal (fun s => revString s "")) in Hr.
      rewrite revString_involutive in Hr. contradiction. }
    cbn [hasByte] in Hrsep. apply orb_false_iff in Hrsep as [Hc' Hr'].
    rewrite append_cons. cbn [dropLeading]. rewrite Hc'.
    rewrite <- append_cons, <- Hr.
    rewrite uptoSepRev_app by (rewrite hasByte_rev; exact Hsep).
    rewrite Hupto, append_empty_r, revString_involutive.
    destruct name; [contradiction|reflexivity].
Qed.

(** The generated path when the timestamp has no separator and the
    base path is not the root: the cleaned directory of the base path
    followed by the name. *)
Lemma generated_Dir_Base (base : string) (t : Time) (timeFormat : string) :
  Base base <> String Separator "" ->
  hasByte Separator (Format t timeFormat) = false ->
  let filename := Base base in
  let name := TrimSuffix filename (Ext filename) +:+ "-"
                +:+ Format t timeFormat +:+ Ext filename in
  Dir (generateTimestampedFilename base t timeFormat) = Dir base
  /\ Base (generateTimestampedFilename base t timeFormat) = name.
Proof.
  intros Hbase Hts filename name.
  destruct (Base_sepfree base) as [Hroot|Hfree]; [contradiction|].
  destruct (Ext_split filename (or_intror Hfree)) as [Hsplit _].
  fold filename in Hfree.
  assert (Hparts : hasByte Separator (TrimSuffix filename (Ext filename)) = false
                   /\ hasByte Separator (Ext filename) = false).
  { rewrite <- Hsplit in Hfree. rewrite hasByte_app in Hfree.
    apply orb_false_iff in Hfree. exact Hfree. }
  destruct Hparts as [Hstem Hext].
  assert (Hsep : hasByte Separator name = false).
  { unfold name. rewrite !hasByte_app, Hstem, Hts, Hext. reflexivity. }
  assert (Hdash : hasByte "-" name = true).
  { unfold name. rewrite !hasByte_app. cbn [hasByte].
    rewrite Ascii.eqb_refl. cbn [orb]. apply orb_true_r. }
  assert (Hreal : realElement name).
  { repeat split; try exact Hsep; intros Heq; rewrite Heq in Hdash; discriminate. }
  destruct (Clean_rendered
              (revString (fromSepRev (revString base "")) ""))
    as (rooted & ups & out & Hdir & Hout & Hups).
  fold (Dir base) in Hdir.
  assert (Hgen : generateTimestampedFilename base t timeFormat
                 = rendered rooted ups (name :: out)).
  { unfold generateTimestampedFilename. fold filename. fold name.
    unfold Join. rewrite Hdir.
    destruct (rendered_head rooted ups out Hout) as (c & rest & Hr & _).
    rewrite Hr. change (String.eqb (String c rest) "") with false. cbv iota.
    rewrite <- Hr.
    change (Strings.Join [rendered rooted ups out; name] (String Separator ""))
      with (rendered rooted ups out +:+ String Separator name).
    rewrite Clean_snoc by assumption.
    rewrite (cleanLoop_real rooted [name]) by (constructor; [exact Hreal|constructor]).
    reflexivity. }
  destruct (rendered_snoc rooted ups out name Hout Hups Hreal) as (P & HP & Hclean & Hshape).
  rewrite Hgen, HP, Hdir, <- Hclean.
  apply Dir_Base_snoc; [exact Hshape| |exact Hsep].
  intros Heq. rewrite Heq in Hdash. discriminate.
Qed.

End CleanPaths.

Section GeneratedFiles.

Import time Strings filepath.

Lemma zeros_sepfree (n : nat) : hasByte Separator (zeros n) = false.
Proof. induction n as [|n IH]; [reflexivity|exact IH]. Qed.

Lemma digits_sepfree (d : Decimal.uint) :
  hasByte Separator (NilEmpty.string_of_uint d) = false.
Proof. induction d; cbn; auto. Qed.

Lemma appendInt_sepfree (x width : Z) : hasByte Separator (appendInt x width) = false.
Proof.
  unfold appendInt, digitsOf. cbv zeta. rewrite !hasByte_app, zeros_sepfree.
  assert (Hd : hasByte Separator
                 (NilZero.string_of_uint (N.to_uint (Z.to_N (Z.abs x)))) = false).
  { unfold NilZero.string_of_uint.
    destruct (N.to_uint (Z.to_N (Z.abs x))) eqn:Hu; try reflexivity;
      rewrite <- Hu; apply digits_sepfree. }
  rewrite Hd. destruct (x <? 0); reflexivity.
Qed.

(** The four default layouts never render a separator. *)
Lemma default_layouts_sepfree (t : Time) (layout : string) :
  List.In layout ["2006-01-02-15"; "2006-01-02"; "2006-W01"; "2006-01"] ->
  hasByte Separator (Format t layout) = false.
Proof.
  intros [<-|[<-|[<-|[<-|[]]]]].
  - rewrite Format_hourly, !hasByte_app, !appendInt_sepfree. reflexivity.
  - rewrite Format_daily, !hasByte_app, !appendInt_sepfree. reflexivity.
  - rewrite Format_weekly, !hasByte_app, !appendInt_sepfree. reflexivity.
  - rewrite Format_monthly, !hasByte_app, !appendInt_sepfree. reflexivity.
Qed.

(** X19. When the base path is not the root and the rendered timestamp
    holds no separator, the generated file lies in the directory of the
    base path and its last element is [stem-timestamp ext]. This is so
    for each of the four default layouts at every time. A layout that
    renders separators can take the file elsewhere: [/../../2006] on
    [/var/log/app.log] gives [/var/2024.log]. *)
Theorem generated_file_location (base : string) (t : Time) (timeFormat : string) :
  Base base <> String Separator "" ->
  let filename := Base base in
  let name := TrimSuffix filename (Ext filename) +:+ "-"
                +:+ Format t timeFormat +:+ Ext filename in
  (hasByte Separator (Format t timeFormat) = false ->
   Dir (generateTimestampedFilename base t timeFormat) = Dir base
   /\ Base (generateTimestampedFilename base t timeFormat) = name)
  /\ (List.In timeFormat ["2006-01-02-15"; "2006-01-02"; "2006-W01"; "2006-01"] ->
      Dir (generateTimestampedFilename base t timeFormat) = Dir base
      /\ Base (generateTimestampedFilename base t timeFormat) = name)
  /\ generateTimestampedFilename "/var/log/app.log" (Date 2024 3 5 0 0 0 0 utc)
       "/../../2006" = "/var/2024.log".
Proof.
  intros Hbase filename name. split; [|split].
  - intros Hts. apply generated_Dir_Base; assumption.
  - intros Hin. apply generated_Dir_Base; [assumption|].
    apply default_layouts_sepfree. exact Hin.
  - vm_compute. reflexivity.
Qed.

Lemma generated_file_location_witness :
  let t := Date 2024 3 5 13 4 5 0 utc in
  Base "logs/../app.log" <> String Separator ""
  /\ hasByte Separator (Format t "2006-01-02T15") = false
  /\ Dir (generateTimestampedFilename "logs/../app.log" t "2006-01-02T15")
     = Dir "logs/../app.log"
  /\ Base (generateTimestampedFilename "logs/../app.log" t "2006-01-02T15")
     = TrimSuffix (Base "logs/../app.log") (Ext (Base "logs/../app.log")) +:+ "-"
         +:+ Format t "2006-01-02T15" +:+ Ext (Base "logs/../app.log").
Proof.
  intros t.
  assert (H1 : Base "logs/../app.log" <> String Separator "")
    by (vm_compute; discriminate).
  assert (H2 : hasByte Separator (Format t "2006-01-02T15") = false)
    by (vm_compute; reflexivity).
  split; [exact H1|]. split; [exact H2|].
  exact (proj1 (generated_file_location "logs/../app.log" t "2006-01-02T15" H1) H2).
Defined.

Lemma append_inv_head (a b c : string) : a +:+ b = a +:+ c -> b = c.
Proof.
  induction a as [|x a IH]; [intros Heq; exact Heq|].
  rewrite !append_cons. intros [= Heq]. exact (IH Heq).
Qed.

Lemma append_inv_tail (a b c : string) : b +:+ a = c +:+ a -> b = c.
Proof.
  intros Heq. apply (f_equal (fun s => revString s "")) in Heq.
  rewrite !revString_app in Heq. apply append_inv_head in Heq.
  apply (f_equal (fun s => revString s "")) in Heq.
  rewrite !revString_involutive in Heq. exact Heq.
Qed.

(** X20. Generated names do not collide: for a base path other than
    the root and timestamps without separator, two times get the same
    path exactly when they render to the same timestamp. *)
Theorem distinct_timestamps_distinct_files (base : string) (t1 t2 : Time)
    (timeFormat : string) :
  Base base <> String Separator "" ->
  hasByte Separator (Format t1 timeFormat) = false ->
  hasByte Separator (Format t2 timeFormat) = false ->
  (generateTimestampedFilename base t1 timeFormat
   = generateTimestampedFilename base t2 timeFormat
   <-> Format t1 timeFormat = Format t2 timeFormat).
Proof.
  intros Hbase H1 H2. split.
  - intros Heq.
    destruct (generated_Dir_Base base t1 timeFormat Hbase H1) as [_ Hb1].
    destruct (generated_Dir_Base base t2 timeFormat Hbase H2) as [_ Hb2].
    rewrite Heq, Hb2 in Hb1.
    apply append_inv_head in Hb1. apply append_inv_head in Hb1.
    apply append_inv_tail in Hb1. symmetry. exact Hb1.
  - intros Heq. unfold generateTimestampedFilename. rewrite Heq. reflexivity.
Qed.

Lemma distinct_timestamps_distinct_files_witness :
  Base "/var/log/app.log" <> String Separator ""
  /\ hasByte Separator (Format Sample.jan1 "2006-01-02") = false
  /\ hasByte Separator (Format Sample.jan2 "2006-01-02") = false
  /\ (generateTimestampedFilename "/var/log/app.log" Sample.jan1 "2006-01-02"
      = generateTimestampedFilename "/var/log/app.log" Sample.jan2 "2006-01-02"
      <-> Format Sample.jan1 "2006-01-02" = Format Sample.jan2 "2006-01-02").
Proof.
  assert (H0 : Base "/var/log/app.log" <> String Separator "")
    by (vm_compute; discriminate).
  assert (H1 : hasByte Separator (Format Sample.jan1 "2006-01-02") = false)
    by (vm_compute; reflexivity).
  assert (H2 : hasByte Separator (Format Sample.jan2 "2006-01-02") = false)
    by (vm_compute; reflexivity).
  split; [exact H0|]. split; [exact H1|]. split; [exact H2|].
  exact (distinct_timestamps_distinct_files "/var/log/app.log" Sample.jan1 Sample.jan2
           "2006-01-02" H0 H1 H2).
Defined.

Lemma append_length (a b : string) :
  String.length (a +:+ b) = (String.length a + String.length b)%nat.
Proof.
  induction a as [|x a IH]; [reflexivity|].
  rewrite append_cons. cbn [String.length]. rewrite IH. reflexivity.
Qed.

Lemma generated_Base_differs (base : string) (t : Time) (timeFormat : string) :
  Base base <> String Separator "" ->
  hasByte Separator (Format t timeFormat) = false ->
  Base (generateTimestampedFilename base t timeFormat) <> Base base.
Proof.
  intros Hbase Hts Heq.
  destruct (generated_Dir_Base base t timeFormat Hbase Hts) as [_ Hb].
  destruct (Base_sepfree base) as [Hroot|Hfree]; [contradiction|].
  destruct (Ext_split (Base base) (or_intror Hfree)) as [Hsplit _].
  rewrite Heq in Hb. rewrite <- Hsplit in Hb at 1.
  apply append_inv_head in Hb.
  apply (f_equal String.length) in Hb. rewrite !append_length in Hb.
  cbn in Hb. lia.
Qed.

(** X24. When the base path is not the root and the rendered timestamp
    holds no separator, the generated path is never the base path: its
    last element differs from that of the base path. This is so for
    each of the four default layouts at every time. A layout that
    renders separators can give the base path itself: [/../app] on
    [/var/log/app.log] gives [/var/log/app.log]. *)
Theorem generated_name_differs_from_base (base : string) (t : Time)
    (timeFormat : string) :
  Base base <> String Separator "" ->
  (hasByte Separator (Format t timeFormat) = false ->
   Base (generateTimestampedFilename base t timeFormat) <> Base base
   /\ generateTimestampedFilename base t timeFormat <> base)
  /\ (List.In timeFormat ["2006-01-02-15"; "2006-01-02"; "2006-W01"; "2006-01"] ->
      Base (generateTimestampedFilename base t timeFormat) <> Base base
      /\ generateTimestampedFilename base t timeFormat <> base)
  /\ generateTimestampedFilename "/var/log/app.log" (Date 2024 3 5 0 0 0 0 utc)
       "/../app" = "/var/log/app.log".
Proof.
  intros Hbase.
  assert (Hne : hasByte Separator (Format t timeFormat) = false ->
                Base (generateTimestampedFilename base t timeFormat) <> Base base
                /\ generateTimestampedFilename base t timeFormat <> base).
  { intros Hts.
    pose proof (generated_Base_differs base t timeFormat Hbase Hts) as Hb.
    split; [exact Hb|]. intros Heq. apply Hb. rewrite Heq. reflexivity. }
  split; [exact Hne|]. split.
  - intros Hin. apply Hne. apply default_layouts_sepfree. exact Hin.
  - vm_compute. reflexivity.
Qed.

Lemma generated_name_differs_from_base_witness :
  Base "/var/log/app.log" <> String Separator ""
  /\ hasByte Separator (Format Sample.jan1 "2006-01-02") = false
  /\ Base (generateTimestampedFilename "/var/log/app.log" Sample.jan1 "2006-01-02")
     <> Base "/var/log/app.log"
  /\ generateTimestampedFilename "/var/log/app.log" Sample.jan1 "2006-01-02"
     <> "/var/log/app.log".
Proof.
  assert (H0 : Base "/var/log/app.log" <> String Separator "")
    by (vm_compute; discriminate).
  assert (H1 : hasByte Separator (Format Sample.jan1 "2006-01-02") = false)
    by (vm_compute; reflexivity).
  split; [exact H0|]. split; [exact H1|].
  exact (proj1 (generated_name_differs_from_base "/var/log/app.log" Sample.jan1
                  "2006-01-02" H0) H1).
Defined.

End GeneratedFiles.

(** * The payload, the production preset and [Validate]'s copy *)

Section Payload.

Context {S : Type} `{!lumberjack.Sink S}.
Implicit Types (w : TimeRotatingWriter S) (p : list Byte.byte).

#[local] Arguments generateTimestampedFilename : simpl never.
#[local] Arguments adjust : simpl never.

(** X21. Whether a call rotates, and where it leaves
    [lastRotationTime] and the bound file name, does not depend on the
    payload: an empty write rotates exactly when any other write at
    that clock would. *)
Theorem rotation_is_independent_of_payload w local clock p p' :
  let a := Write local clock p w in
  let b := Write local clock p' w in
  lastRotationTime a.1.2 = lastRotationTime b.1.2
  /\ lumberjack.Filename (Logger a.1.2) = lumberjack.Filename (Logger b.1.2)
  /\ rotations a.2 = rotations b.2
  /\ (rotations a.2 = 1%nat <->
      shouldRotate (interval w) (lastRotationTime w) (adjust (options w) local clock)
        = true
      /\ (lumberjack.close (Logger w)).2 = None).
Proof.
  cbv zeta.
  destruct (shouldRotate (interval w) (lastRotationTime w)
              (adjust (options w) local clock)) eqn:Hrot.
  - destruct (lumberjack.close (Logger w)) as [s [e|]] eqn:Hc.
    + rewrite !(Write_close_error _ _ _ _ _ _ Hrot Hc). cbn.
      repeat split; try reflexivity; intros; try discriminate.
      destruct H0 as [_ H0]. discriminate.
    + rewrite !(Write_rotates _ _ _ _ _ Hrot Hc). cbn zeta. unfold LoggerWrite.
      destruct (lumberjack.write _ p) as [s1 [n1 e1]].
      destruct (lumberjack.write _ p') as [s2 [n2 e2]].
      cbn. repeat split; reflexivity.
  - rewrite !(Write_same_bucket _ _ _ _ Hrot). unfold LoggerWrite.
    destruct (lumberjack.write _ p) as [s1 [n1 e1]].
    destruct (lumberjack.write _ p') as [s2 [n2 e2]].
    cbn. repeat split; try reflexivity; intros; try discriminate.
    destruct H0 as [H0 _]. discriminate.
Qed.

End Payload.

Section ProductionPreset.

Context {S : Type} `{!lumberjack.Sink S}.
Variable ParseLevel : string -> option zapcore.Level.
Variable MkdirAll : string -> Z -> option error.
Variable local : time.Location.
Variable clock : time.Time.

(** X22. The logger for [ProductionConfigWithFile(filename)] with a
    non-empty file name writes to the file only, through lumberjack
    bound to the name as given with the default limits (100 MB, 30
    days, 10 backups, compressed), in JSON on the production preset;
    it is not built when the file's directory cannot be created. With
    an empty file name the same preset logs to stdout only, although
    its output paths say [file]. *)
Theorem production_file_logger (filename : string) :
  (filename <> "" ->
   NewLogger (S := S) ParseLevel MkdirAll local clock
     (ProductionConfigWithFile filename)
   = match MkdirAll (filepath.Dir filename) 493 with
     | Some err => (None, Some err)
     | None =>
         (Some
            (mkZapLogger
               (NewCore
                  (zapcore.NewJSONEncoder
                     (zapcore.mkEncoderConfig zapcore.ProductionEncoderConfig None
                        (Some "timestamp") (Some zapcore.ISO8601TimeEncoder)))
                  (AddSyncFile
                     (SizeWriter
                        (lumberjack.mkLogger filename 100 30 10 false true
                           lumberjack.fresh)))
                  (default zapcore.InfoLevel (ParseLevel LevelInfo)))
               [AddCaller; AddStacktrace zapcore.ErrorLevel]),
          None)
     end)
  /\ exists zl,
       NewLogger (S := S) ParseLevel MkdirAll local clock (ProductionConfigWithFile "")
       = (Some zl, None)
       /\ ws (core zl) = AddSyncStdout.
Proof.
  split.
  - intros Hne%String.eqb_neq. unfold NewLogger. cbv zeta.
    change (Environment (ProductionConfigWithFile filename)) with "production".
    change (String.eqb "production" "production") with true. cbv iota.
    cbn [FileOptions_ setEncoding ProductionConfigWithFile setOutputPaths
           WithFileOutput withFileOptions setFileOptions Filename CreateDir
           RotationMode_ MaxSize MaxAge MaxBackups LocalTime Compress
           ProductionConfig setEnvironment setLevel DefaultConfig DefaultFileOptions
           OutputPaths Encoding Level zapcore.preset zapcore.EncodeLevel].
    rewrite Hne. cbn [negb].
    destruct (MkdirAll (filepath.Dir filename) 493); [reflexivity|].
    destruct (ParseLevel LevelInfo); reflexivity.
  - eexists. split; [unfold NewLogger; cbv zeta; reflexivity|reflexivity].
Qed.

End ProductionPreset.

(** X23. The copy [Validate] works on always ends normalised: its
    level, environment and encoding are in the tables of valid values
    and its output paths are not empty. A [Config] that already is so
    is left as it is, and validating the copy again changes nothing. *)
Theorem Validate_copy_normalised (c : Config) :
  let c' := (Validate c).1 in
  index validLevels (Level c') = true
  /\ index validEnvs (Environment c') = true
  /\ index validEncodings (Encoding c') = true
  /\ OutputPaths c' <> []
  /\ FileOptions_ c' = FileOptions_ c
  /\ (index validLevels (Level c) = true -> index validEnvs (Environment c) = true ->
      index validEncodings (Encoding c) = true -> OutputPaths c <> [] -> c' = c)
  /\ (Validate c').1 = c'.
Proof.
  assert (Hnorm : forall c0 : Config,
            let c1 := (Validate c0).1 in
            index validLevels (Level c1) = true
            /\ index validEnvs (Environment c1) = true
            /\ index validEncodings (Encoding c1) = true
            /\ OutputPaths c1 <> []
            /\ FileOptions_ c1 = FileOptions_ c0).
  { intros c0. unfold Validate. cbv zeta.
    set (c1 := if negb (index validLevels (Level c0)) then setLevel c0 LevelInfo
               else c0).
    assert (A1 : index validLevels (Level c1) = true
                 /\ FileOptions_ c1 = FileOptions_ c0).
    { unfold c1. destruct (index validLevels (Level c0)) eqn:E; cbn [negb];
        split; try exact E; reflexivity. }
    clearbody c1.
    set (c2 := if negb (index validEnvs (Environment c1))
               then setEnvironment c1 EnvDevelopment else c1).
    assert (A2 : index validEnvs (Environment c2) = true
                 /\ Level c2 = Level c1 /\ FileOptions_ c2 = FileOptions_ c1).
    { unfold c2. destruct (index validEnvs (Environment c1)) eqn:E; cbn [negb];
        repeat split; try exact E; reflexivity. }
    clearbody c2.
    set (c3 := if negb (index validEncodings (Encoding c2))
               then (if IsProduction c2 then setEncoding c2 EncodingJSON
                     else setEncoding c2 EncodingConsole)
               else c2).
    assert (A3 : index validEncodings (Encoding c3) = true
                 /\ Level c3 = Level c2 /\ Environment c3 = Environment c2
                 /\ FileOptions_ c3 = FileOptions_ c2).
    { unfold c3. destruct (index validEncodings (Encoding c2)) eqn:E; cbn [negb];
        [repeat split; try exact E; reflexivity|].
      destruct (IsProduction c2); repeat split; reflexivity. }
    clearbody c3.
    set (c4 := if (Z.of_nat (length (OutputPaths c3)) =? 0)
               then setOutputPaths c3 ["stdout"] else c3).
    assert (A4 : OutputPaths c4 <> []
                 /\ Level c4 = Level c3 /\ Environment c4 = Environment c3
                 /\ Encoding c4 = Encoding c3 /\ FileOptions_ c4 = FileOptions_ c3).
    { unfold c4. destruct (OutputPaths c3) as [|o os] eqn:E.
      - cbn. repeat split. discriminate.
      - change (Z.of_nat (length (o :: os)) =? 0) with false. cbv iota.
        rewrite E. repeat split. discriminate. }
    clearbody c4. cbn [fst].
    destruct A1 as (L1 & F1), A2 as (E2 & L2 & F2), A3 as (N3 & L3 & E3 & F3),
      A4 as (O4 & L4 & E4 & N4 & F4).
    rewrite L4, L3, L2, E4, E3, N4, F4, F3, F2, F1. repeat split; assumption. }
  assert (Hfix : forall c0 : Config,
            index validLevels (Level c0) = true ->
            index validEnvs (Environment c0) = true ->
            index validEncodings (Encoding c0) = true ->
            OutputPaths c0 <> [] -> (Validate c0).1 = c0).
  { intros c0 H1 H2 H3 H4. unfold Validate. cbv zeta.
    rewrite H1. cbn [negb]. rewrite H2. cbn [negb]. rewrite H3. cbn [negb].
    destruct (OutputPaths c0) as [|o os] eqn:H5; [contradiction|].
    reflexivity. }
  intros c'. destruct (Hnorm c) as (H1 & H2 & H3 & H4 & H5).
  repeat split; try assumption.
  - apply Hfix.
  - apply Hfix; assumption.
Qed.

Lemma Validate_copy_normalised_witness :
  index validLevels (Level DefaultConfig) = true
  /\ (Validate DefaultConfig).1 = DefaultConfig.
Proof.
  assert (H1 : index validLevels (Level DefaultConfig) = true)
    by (vm_compute; reflexivity).
  assert (H2 : index validEnvs (Environment DefaultConfig) = true)
    by (vm_compute; reflexivity).
  assert (H3 : index validEncodings (Encoding DefaultConfig) = true)
    by (vm_compute; reflexivity).
  assert (H4 : OutputPaths DefaultConfig <> []) by (vm_compute; discriminate).
  split; [exact H1|].
  exact (proj1 (proj2 (proj2 (proj2 (proj2 (proj2
           (Validate_copy_normalised DefaultConfig)))))) H1 H2 H3 H4).
Defined.

Lemma production_file_logger_witness :
  "/var/log/app.log" <> ""
  /\ NewLogger (S := MemSink.Mem) Host.parseLevel Host.mkdirDenied time.UTCLoc
       Sample.jan1 (ProductionConfigWithFile "/var/log/app.log")
     = (None, Some "mkdir /var/log: permission denied").
Proof.
  assert (H0 : "/var/log/app.log" <> "") by discriminate.
  split; [exact H0|].
  exact (proj1 (production_file_logger (S := MemSink.Mem) Host.parseLevel
                  Host.mkdirDenied time.UTCLoc Sample.jan1 "/var/log/app.log") H0).
Defined.
